(** * vnaiscan: secure tar extraction and scan aggregation

    A shallow embedding of [internal/extractor/extractor.go] (SafeExtract,
    sanitizePath, extractFile) and of the scanner package (Run,
    calculateScore, calculateGrade, ExitCode, makeReadableForScan), with the
    parts of the Go standard library they call (strings, path/filepath, io,
    os) modelled on Unix; further [CheckTools] of the scanner package and
    the scan and tools commands of [cmd/vnaiscan/main.go]. *)

From Stdlib Require Import ZArith NArith Ascii String List Lia Bool.
From Stdlib Require Import Strings.Byte.
From stdpp Require Import gmap strings list fin_maps.

Local Open Scope string_scope.
Local Open Scope Z_scope.

#[local] Arguments String.append : simpl nomatch.
#[local] Arguments Ascii.eqb : simpl never.
#[local] Arguments Z.to_nat : simpl never.

(** ** Go strings: package [strings] *)

Module Strings.

(** [strings.HasPrefix(s, prefix)]. *)
Fixpoint HasPrefix (s pre : string) {struct pre} : bool :=
  match pre, s with
  | EmptyString, _ => true
  | String _ _, EmptyString => false
  | String c pre', String d s' => if Ascii.eqb c d then HasPrefix s' pre' else false
  end.

(** The remainder of [s] after [pre], when [s] starts with [pre]. *)
Fixpoint CutPrefix (s pre : string) {struct pre} : option string :=
  match pre, s with
  | EmptyString, _ => Some s
  | String _ _, EmptyString => None
  | String c pre', String d s' => if Ascii.eqb c d then CutPrefix s' pre' else None
  end.

(** [strings.TrimPrefix(s, prefix)]: [s] without the leading [prefix], or
    [s] itself when it does not start with it. *)
Definition TrimPrefix (s pre : string) : string :=
  match CutPrefix s pre with
  | Some rest => rest
  | None => s
  end.

(** [strings.Contains(s, substr)]: [substr] occurs at some offset of [s]. *)
Fixpoint Contains (s sub : string) : bool :=
  if HasPrefix s sub then true
  else match s with
       | EmptyString => false
       | String _ s' => Contains s' sub
       end.

(** [strings.Split(s, "/")]: the fields between separators; never empty. *)
Fixpoint SplitSlash (s : string) : list string :=
  match s with
  | EmptyString => [EmptyString]
  | String c s' =>
      if Ascii.eqb c "/" then EmptyString :: SplitSlash s'
      else match SplitSlash s' with
           | [] => [String c EmptyString]
           | x :: xs => String c x :: xs
           end
  end.

(** [strings.Join(elems, "/")]. *)
Fixpoint JoinSlash (l : list string) : string :=
  match l with
  | [] => EmptyString
  | [x] => x
  | x :: xs => x +:+ "/" +:+ JoinSlash xs
  end.

End Strings.

(** ** Paths: package [path/filepath] on Unix *)

Module Filepath.
Import Strings.

Definition Separator : string := "/".

Definition IsAbs (path : string) : bool := HasPrefix path "/".

(** One step of [Clean]'s scan over the path elements.  [out] is the
    output written so far as a stack of elements, last written first. An
    empty or [.] element is dropped; [..] removes the element before it, is
    kept when there is nothing to remove in a relative path (a leading run
    of [..]) and dropped at the root; any other element is appended. *)
Definition cleanStep (rooted : bool) (out : list string) (elem : string) : list string :=
  if String.eqb elem "" then out
  else if String.eqb elem "." then out
  else if String.eqb elem ".." then
    match out with
    | top :: below => if String.eqb top ".." then elem :: out else below
    | [] => if rooted then [] else [elem]
    end
  else elem :: out.

(** The cleaned path written from the element stack. *)
Definition render (rooted : bool) (out : list string) : string :=
  match rooted, out with
  | true, _ => "/" +:+ JoinSlash (rev out)
  | false, [] => "."
  | false, _ => JoinSlash (rev out)
  end.

(** [filepath.Clean(path)]: the shortest path name equivalent to [path] by
    purely lexical processing. *)
Definition Clean (path : string) : string :=
  if String.eqb path "" then "."
  else
    let rooted := IsAbs path in
    render rooted (fold_left (cleanStep rooted) (SplitSlash path) []).

(** [filepath.Join(a, b)]: the non-empty elements joined by the separator,
    then cleaned; empty when both are empty. *)
Definition Join (a b : string) : string :=
  if String.eqb a "" then
    (if String.eqb b "" then "" else Clean b)
  else Clean (a +:+ "/" +:+ b).

(** The part of [path] before its last separator, when it has one: the
    backward scan [for i >= 0 && !os.IsPathSeparator(path[i]) { i-- }]. *)
Fixpoint beforeLastSlash (path : string) : option string :=
  match path with
  | EmptyString => None
  | String c rest =>
      match beforeLastSlash rest with
      | Some b => Some (String c b)
      | None => if Ascii.eqb c "/" then Some EmptyString else None
      end
  end.

(** [path[:i+1]]: the part of [path] up to and including its last
    separator. *)
Definition uptoLastSlash (path : string) : string :=
  match beforeLastSlash path with
  | Some b => b +:+ "/"
  | None => EmptyString
  end.

(** [filepath.Dir(path)]: all but the last element of [path], cleaned. *)
Definition Dir (path : string) : string := Clean (uptoLastSlash path).

(** [filepath.Abs(path)]; [wd] is what [os.Getwd] returns, [None] when it
    fails. *)
Definition Abs (wd : option string) (path : string) : option string :=
  if IsAbs path then Some (Clean path)
  else match wd with
       | Some w => Some (Join w path)
       | None => None
       end.

End Filepath.

(** ** Errors and results *)

(** The [syscall.Errno] values the file-system model can produce. *)
Inductive Errno := ENOENT | ENOTDIR | EISDIR | EEXIST.

(** Go [error] values, by where they are made. *)
Inductive error :=
| PathError (op path : string) (e : Errno)   (* *fs.PathError of package os *)
| ErrHeader                                  (* archive/tar: invalid tar header *)
| ErrUnexpectedEOF                           (* io.ErrUnexpectedEOF *)
| ErrGetwd                                   (* os.Getwd failed *)
| ErrorString (msg : string)                 (* fmt.Errorf without %w *)
| Wrapped (msg : string) (cause : error).    (* fmt.Errorf("msg: %w", cause) *)

(** The text of an errno. *)
Definition errnoText (e : Errno) : string :=
  match e with
  | ENOENT => "no such file or directory"
  | ENOTDIR => "not a directory"
  | EISDIR => "is a directory"
  | EEXIST => "file exists"
  end.

(** [err.Error()], which is what [%v] prints for an error. *)
Fixpoint errorText (e : error) : string :=
  match e with
  | PathError op path e => op +:+ " " +:+ path +:+ ": " +:+ errnoText e
  | ErrHeader => "archive/tar: invalid tar header"
  | ErrUnexpectedEOF => "unexpected EOF"
  | ErrGetwd => "getwd: no such file or directory"
  | ErrorString msg => msg
  | Wrapped msg cause => msg +:+ ": " +:+ errorText cause
  end.

Inductive result (A : Type) :=
| Ok (a : A)
| Err (e : error).
Arguments Ok {A} a.
Arguments Err {A} e.

(** ** Readers: package [io] *)

Module IO.

(** A forward-only byte source: the bytes it delivers, ended by [io.EOF]
    or by a read error. *)
Inductive Reader :=
| RdEOF
| RdErr (e : error)
| RdByte (b : Byte.byte) (rest : Reader).

(** [io.LimitReader(r, n)]: reads from [r] and stops with EOF after [n]
    bytes; once [n <= 0] it returns EOF without consulting [r]. *)
Fixpoint LimitReader (r : Reader) (n : Z) : Reader :=
  match r with
  | RdEOF => RdEOF
  | RdErr e => if n <=? 0 then RdEOF else RdErr e
  | RdByte b rest => if n <=? 0 then RdEOF else RdByte b (LimitReader rest (n - 1))
  end.

(** [io.Copy(dst, src)]: the bytes written to [dst] until EOF (no error)
    or until the first read error. *)
Fixpoint Copy (src : Reader) : list Byte.byte * option error :=
  match src with
  | RdEOF => ([], None)
  | RdErr e => ([], Some e)
  | RdByte b rest => let '(written, err) := Copy rest in (b :: written, err)
  end.

(** The bytes a reader delivers before it ends. *)
Fixpoint delivered (r : Reader) : list Byte.byte :=
  match r with
  | RdEOF => []
  | RdErr _ => []
  | RdByte b rest => b :: delivered rest
  end.

(** A reader that delivers exactly [data]. *)
Fixpoint ofBytes (data : list Byte.byte) : Reader :=
  match data with
  | [] => RdEOF
  | b :: rest => RdByte b (ofBytes rest)
  end.

End IO.

(** ** The file system: package [os]

    Objects are named by the path strings the program passes; the
    extractor passes only paths that come out of [filepath.Join] or
    [filepath.Dir], so the kernel's own treatment of repeated separators
    and dot elements is not modelled.  Only regular files and directories exist.  Failures are
    the structural ones (a missing parent, a file where a directory is
    needed, a directory where a file is needed); permission checks and the
    umask are not modelled, so creation modes are stored as requested. *)

Module OS.
Import Filepath.

Inductive Node :=
| NFile (data : list Byte.byte) (perm : Z)
| NDir (perm : Z).

Definition isDir (fs : gmap string Node) (path : string) : bool :=
  match fs !! path with
  | Some (NDir _) => true
  | _ => false
  end.

(** The directory an object lives in: the path before the last separator,
    the root for an object directly under it. [None] for the root itself
    and for a name without separator (relative to the working directory). *)
Definition parentOf (path : string) : option string :=
  match beforeLastSlash path with
  | None => None
  | Some EmptyString => if String.eqb path "/" then None else Some "/"
  | Some b => Some b
  end.

(** The parent directory must exist for an object to be created in it. *)
Definition parentReady (fs : gmap string Node) (path : string) : option Errno :=
  match parentOf path with
  | None => None
  | Some parent =>
      match fs !! parent with
      | Some (NDir _) => None
      | Some (NFile _ _) => Some ENOTDIR
      | None => Some ENOENT
      end
  end.

(** [os.Mkdir(path, perm)]. *)
Definition Mkdir (fs : gmap string Node) (path : string) (perm : Z)
  : gmap string Node * option error :=
  match fs !! path with
  | Some _ => (fs, Some (PathError "mkdir" path EEXIST))
  | None =>
      match parentReady fs path with
      | Some e => (fs, Some (PathError "mkdir" path e))
      | None => (<[path := NDir perm]> fs, None)
      end
  end.

(** [os.MkdirAll(path, perm)]: nothing to do when [path] is a directory,
    an error when it is a file; otherwise the parent is made first
    (recursively) and then [path] itself.  [fuel] bounds the recursion;
    each parent is shorter than its child, so the length of the path is
    enough (see [MkdirAllFrom_fuel]). *)
Fixpoint MkdirAllFrom (fuel : nat) (fs : gmap string Node) (path : string) (perm : Z)
  : gmap string Node * option error :=
  match fs !! path with
  | Some (NDir _) => (fs, None)
  | Some (NFile _ _) => (fs, Some (PathError "mkdir" path ENOTDIR))
  | None =>
      match parentOf path, fuel with
      | Some parent, S fuel' =>
          match MkdirAllFrom fuel' fs parent perm with
          | (fs', Some e) => (fs', Some e)
          | (fs', None) => Mkdir fs' path perm
          end
      | _, _ => Mkdir fs path perm
      end
  end.

Definition MkdirAll (fs : gmap string Node) (path : string) (perm : Z)
  : gmap string Node * option error :=
  MkdirAllFrom (String.length path) fs path perm.

(** [os.OpenFile(path, O_CREATE|O_WRONLY|O_TRUNC, perm)]: an existing file
    is emptied and keeps its mode, a missing one is created with [perm]. *)
Definition OpenFile (fs : gmap string Node) (path : string) (perm : Z)
  : gmap string Node * option error :=
  match fs !! path with
  | Some (NDir _) => (fs, Some (PathError "open" path EISDIR))
  | Some (NFile _ old) => (<[path := NFile [] old]> fs, None)
  | None =>
      match parentReady fs path with
      | Some e => (fs, Some (PathError "open" path e))
      | None => (<[path := NFile [] perm]> fs, None)
      end
  end.

(** Writing [data] at the end of the open file [path]. *)
Definition Write (fs : gmap string Node) (path : string) (data : list Byte.byte)
  : gmap string Node :=
  match fs !! path with
  | Some (NFile old perm) => <[path := NFile (old ++ data) perm]> fs
  | _ => fs
  end.

(** [os.Chmod(path, mode)]. *)
Definition Chmod (fs : gmap string Node) (path : string) (mode : Z)
  : gmap string Node * option error :=
  match fs !! path with
  | Some (NFile data _) => (<[path := NFile data mode]> fs, None)
  | Some (NDir _) => (<[path := NDir mode]> fs, None)
  | None => (fs, Some (PathError "chmod" path ENOENT))
  end.

End OS.

(** ** Tar streams: package [archive/tar] *)

Module Tar.

(** The fields of [tar.Header] the extractor reads. [Typeflag] is a byte. *)
Record Header := {
  Name : string;
  Typeflag : ascii;
  Mode : Z;
  Linkname : string;
  Size : Z
}.

Definition TypeReg : ascii := "0".
Definition TypeLink : ascii := "1".
Definition TypeSymlink : ascii := "2".
Definition TypeChar : ascii := "3".
Definition TypeBlock : ascii := "4".
Definition TypeDir : ascii := "5".
Definition TypeFifo : ascii := "6".

(** What successive calls of [tr.Next()] return: a header whose body can
    be read from [tr] until the next call, [io.EOF] at the end of the
    archive, or an error for a corrupt or truncated stream. *)
Inductive Stream :=
| EOF
| Failed (e : error)
| Entry (header : Header) (body : IO.Reader) (rest : Stream).

End Tar.

(** ** internal/extractor/extractor.go *)

Module Extractor.
Import Strings Filepath IO OS.

(** What the extractor prints on standard error. *)
Inductive LogLine :=
| SkippingDangerousPath (name : string) (err : error)
| SkippingSymlink (name linkname : string)
| SkippingHardlink (name linkname : string)
| SkippingDeviceNode (name : string)
| SkippingFIFO (name : string).

(** The state the extractor acts on: the file system and standard error. *)
Record Sys := {
  files : gmap string Node;
  stderr : list LogLine
}.

Definition logf (l : LogLine) (s : Sys) : Sys :=
  {| files := files s; stderr := stderr s ++ [l] |}.

Definition withFiles (s : Sys) (fs : gmap string Node) : Sys :=
  {| files := fs; stderr := stderr s |}.

(** Octal mode constants of the source. *)
Definition mode0755 : Z := 493.
Definition mode0600 : Z := 384.

(** [const maxFileSize = 10 * 1024 * 1024 * 1024]. *)
Definition maxFileSize : Z := 10 * 1024 * 1024 * 1024.

(** [sanitizePath] validates and cleans a tar path. *)
Definition sanitizePath (name dstDir : string) : result string :=
  let clean := Clean name in
  let clean := TrimPrefix clean "/" in
  let clean := TrimPrefix clean "./" in
  if Contains clean ".." then Err (ErrorString "path traversal detected")
  else
    let fullPath := Join dstDir clean in
    if negb (HasPrefix fullPath (dstDir +:+ Separator)) && negb (String.eqb fullPath dstDir)
    then Err (ErrorString "path escapes destination directory")
    else Ok fullPath.

(** [extractFile] extracts a single file from the tar stream: [body] is
    what reading [tr] delivers for the current entry. *)
Definition extractFile (body : Reader) (path : string) (mode : Z)
    (fs : gmap string Node) : gmap string Node * option error :=
  match MkdirAll fs (Dir path) mode0755 with
  | (fs, Some err) => (fs, Some err)
  | (fs, None) =>
      match OpenFile fs path mode0600 with
      | (fs, Some err) => (fs, Some err)
      | (fs, None) =>
          let limited := LimitReader body maxFileSize in
          let '(written, cerr) := Copy limited in
          let fs := Write fs path written in
          match cerr with
          | Some err => (fs, Some err)
          | None =>
              let finalMode := Z.land (mode mod 2 ^ 32) mode0755 in
              Chmod fs path finalMode
          end
      end
  end.

(** The body of the [for] loop of [SafeExtract] for one header: the new
    state, and the error the function returns with, if any. *)
Definition extractEntry (dstDir : string) (header : Tar.Header) (body : Reader)
    (s : Sys) : Sys * option error :=
  match sanitizePath (Tar.Name header) dstDir with
  | Err err => (logf (SkippingDangerousPath (Tar.Name header) err) s, None)
  | Ok cleanPath =>
      let tf := Tar.Typeflag header in
      if Ascii.eqb tf Tar.TypeSymlink then
        (logf (SkippingSymlink (Tar.Name header) (Tar.Linkname header)) s, None)
      else if Ascii.eqb tf Tar.TypeLink then
        (logf (SkippingHardlink (Tar.Name header) (Tar.Linkname header)) s, None)
      else if Ascii.eqb tf Tar.TypeChar || Ascii.eqb tf Tar.TypeBlock then
        (logf (SkippingDeviceNode (Tar.Name header)) s, None)
      else if Ascii.eqb tf Tar.TypeFifo then
        (logf (SkippingFIFO (Tar.Name header)) s, None)
      else if Ascii.eqb tf Tar.TypeDir then
        match MkdirAll (files s) cleanPath mode0755 with
        | (fs, Some err) =>
            (withFiles s fs, Some (Wrapped ("failed to create directory " +:+ cleanPath) err))
        | (fs, None) => (withFiles s fs, None)
        end
      else if Ascii.eqb tf Tar.TypeReg then
        match extractFile body cleanPath (Tar.Mode header) (files s) with
        | (fs, Some err) =>
            (withFiles s fs, Some (Wrapped ("failed to extract file " +:+ cleanPath) err))
        | (fs, None) => (withFiles s fs, None)
        end
      else (s, None)
  end.

(** The [for] loop of [SafeExtract] over the tar reader. *)
Fixpoint extractAll (dstDir : string) (tr : Tar.Stream) (s : Sys) : Sys * option error :=
  match tr with
  | Tar.EOF => (s, None)
  | Tar.Failed err => (s, Some (Wrapped "failed to read tar header" err))
  | Tar.Entry header body rest =>
      match extractEntry dstDir header body s with
      | (s, Some err) => (s, Some err)
      | (s, None) => extractAll dstDir rest s
      end
  end.

(** [SafeExtract(r, dstDir)]; [wd] is the result of [os.Getwd], used by
    [filepath.Abs] for a relative [dstDir]. *)
Definition SafeExtract (wd : option string) (r : Tar.Stream) (dstDir : string)
    (s : Sys) : Sys * option error :=
  match Abs wd dstDir with
  | None => (s, Some (Wrapped "failed to resolve destination" ErrGetwd))
  | Some dstDir => extractAll dstDir r s
  end.

End Extractor.

(** ** pkg/models *)

Module Models.

(** Package [models]: the result types the scanner fills in. A
    [time.Time] is a number, a nil map is the empty map and a nil pointer
    is [None]. The configuration types of the package ([Config],
    [ScanConfig], [NotificationConfig], [Image]) are used by no function of
    the scanner. *)

(** [models.ToolResult]; its field [Status] is [ToolStatus] here. *)
Record ToolResult := {
  Name : string;
  Version : string;
  ToolStatus : string;
  Error : string;
  OutputFile : string
}.

(** [models.Score]. *)
Record Score := {
  Total : Z;
  Grade : string;
  Breakdown : gmap string Z
}.

(** [models.VulnCounts]. *)
Record VulnCounts := {
  Critical : Z;
  High : Z;
  Medium : Z;
  Low : Z
}.

(** [models.TrivyFindings]. *)
Record TrivyFindings := {
  Vulnerabilities : VulnCounts;
  Secrets : Z;
  Misconfigs : Z
}.

(** [models.MalcontentFindings]; its field [Total] is [TotalFindings]
    here. *)
Record MalcontentFindings := {
  TotalFindings : Z;
  HighRisk : Z;
  MediumRisk : Z;
  LowRisk : Z;
  Capabilities : list string
}.

(** [models.MagikaFindings]. *)
Record MagikaFindings := {
  TotalFiles : Z;
  SuspiciousTypes : Z;
  MismatchedExtension : Z
}.

(** [models.Findings]: one optional record per tool. *)
Record Findings := {
  Trivy : option TrivyFindings;
  Malcontent : option MalcontentFindings;
  Magika : option MagikaFindings
}.

(** [models.ScanResult]; its fields [Score] and [Findings] are
    [ResultScore] and [ResultFindings] here. *)
Record ScanResult := {
  ImageRef : string;
  ImageDigest : string;
  Platform : string;
  StartedAt : Z;
  FinishedAt : Z;
  Status : string;
  Partial : bool;
  ResultScore : Score;
  Tools : gmap string ToolResult;
  ResultFindings : Findings
}.

(** The zero value of [Findings]. *)
Definition noFindings : Findings :=
  {| Trivy := None; Malcontent := None; Magika := None |}.

End Models.

(** ** The scanner package *)

Module Scanner.
Import Strings Filepath OS.

Record ScanOptions := {
  ImageRef : string;
  Platform : string;
  OutputFormat : string;
  ReportDir : string;
  TimeoutMins : Z;
  SkipTrivy : bool;
  SkipMalcontent : bool;
  SkipMagika : bool;
  Quiet : bool;
  Verbose : bool
}.

(** The [Scanner] struct; the mutex guards [results] only. *)
Record Scanner := {
  opts : ScanOptions;
  workDir : string;
  rootfsDir : string;
  results : Models.ScanResult
}.

(** How one external command ended. *)
Record ToolRun := {
  deadlineExceeded : bool;      (* ctx.Err() == context.DeadlineExceeded *)
  runErr : option error;        (* the error of CombinedOutput or Run *)
  output : string;              (* combined output; standard error for magika *)
  versionProbe : option string  (* trimmed output of the --version command *)
}.

(** Everything outside the process that one run of the scanner meets. *)
Record World := {
  startedAt : Z;
  finishedAt : Z;
  getwd : option string;
  tempDir : string;                 (* the name os.MkdirTemp picks *)
  dockerPull : option error;
  dockerInspect : result string;    (* trimmed image id *)
  dockerCreate : result string;     (* trimmed container id *)
  stdoutPipe : option error;
  exportStart : option error;
  exported : Tar.Stream;            (* what docker export writes *)
  exportWait : option error;
  trivy : ToolRun;
  malcontent : ToolRun;
  magika : ToolRun;
  magikaCreate : option error       (* os.Create of magika.json *)
}.

Definition withResults (s : Scanner) (r : Models.ScanResult) : Scanner :=
  {| opts := opts s; workDir := workDir s; rootfsDir := rootfsDir s; results := r |}.

Definition setTool (name : string) (t : Models.ToolResult) (r : Models.ScanResult)
  : Models.ScanResult :=
  {| Models.ImageRef := Models.ImageRef r; Models.ImageDigest := Models.ImageDigest r;
     Models.Platform := Models.Platform r; Models.StartedAt := Models.StartedAt r;
     Models.FinishedAt := Models.FinishedAt r; Models.Status := Models.Status r;
     Models.Partial := Models.Partial r; Models.ResultScore := Models.ResultScore r;
     Models.Tools := <[name := t]> (Models.Tools r);
     Models.ResultFindings := Models.ResultFindings r |}.

Definition setDigest (d : string) (r : Models.ScanResult) : Models.ScanResult :=
  {| Models.ImageRef := Models.ImageRef r; Models.ImageDigest := d;
     Models.Platform := Models.Platform r; Models.StartedAt := Models.StartedAt r;
     Models.FinishedAt := Models.FinishedAt r; Models.Status := Models.Status r;
     Models.Partial := Models.Partial r; Models.ResultScore := Models.ResultScore r;
     Models.Tools := Models.Tools r;
     Models.ResultFindings := Models.ResultFindings r |}.

Definition setFinishedAt (t : Z) (r : Models.ScanResult) : Models.ScanResult :=
  {| Models.ImageRef := Models.ImageRef r; Models.ImageDigest := Models.ImageDigest r;
     Models.Platform := Models.Platform r; Models.StartedAt := Models.StartedAt r;
     Models.FinishedAt := t; Models.Status := Models.Status r;
     Models.Partial := Models.Partial r; Models.ResultScore := Models.ResultScore r;
     Models.Tools := Models.Tools r;
     Models.ResultFindings := Models.ResultFindings r |}.

(** [New(opts)]. *)
Definition New (w : World) (o : ScanOptions) : Scanner :=
  let o :=
    if String.eqb (ReportDir o) "" then
      {| ImageRef := ImageRef o; Platform := Platform o; OutputFormat := OutputFormat o;
         ReportDir := "./vnaiscan-reports"; TimeoutMins := TimeoutMins o;
         SkipTrivy := SkipTrivy o; SkipMalcontent := SkipMalcontent o;
         SkipMagika := SkipMagika o; Quiet := Quiet o; Verbose := Verbose o |}
    else o in
  {| opts := o; workDir := ""; rootfsDir := "";
     results :=
       {| Models.ImageRef := ImageRef o; Models.ImageDigest := "";
          Models.Platform := Platform o; Models.StartedAt := startedAt w;
          Models.FinishedAt := 0; Models.Status := ""; Models.Partial := false;
          Models.ResultScore :=
            {| Models.Total := 0; Models.Grade := ""; Models.Breakdown := ∅ |};
          Models.Tools := ∅; Models.ResultFindings := Models.noFindings |} |}.

(** [getTrivyVersion], [getMalcontentVersion], [getMagikaVersion]. *)
Definition getVersion (probe : option string) : string :=
  match probe with
  | None => "unknown"
  | Some out => out
  end.

(** The result a tool runner records; [diagnostic] is what it stores in
    [Error] on failure. *)
Definition toolResult (name : string) (run : ToolRun) (diagnostic outputFile : string)
  : Models.ToolResult :=
  if deadlineExceeded run then
    {| Models.Name := name; Models.Version := getVersion (versionProbe run);
       Models.ToolStatus := "timeout"; Models.Error := "scan timed out";
       Models.OutputFile := "" |}
  else match runErr run with
       | Some _ =>
           {| Models.Name := name; Models.Version := getVersion (versionProbe run);
              Models.ToolStatus := "failed"; Models.Error := diagnostic;
              Models.OutputFile := "" |}
       | None =>
           {| Models.Name := name; Models.Version := getVersion (versionProbe run);
              Models.ToolStatus := "ok"; Models.Error := "";
              Models.OutputFile := outputFile |}
       end.

(** [runTrivy]: always returns nil. *)
Definition runTrivy (w : World) (s : Scanner) : Scanner * option error :=
  let outputFile := Join (workDir s) "trivy.json" in
  let result := toolResult "trivy" (trivy w) (output (trivy w)) outputFile in
  (withResults s (setTool "trivy" result (results s)), None).

(** [runMalcontent]: always returns nil. *)
Definition runMalcontent (w : World) (s : Scanner) : Scanner * option error :=
  let outputFile := Join (workDir s) "malcontent.json" in
  let result := toolResult "malcontent" (malcontent w) (output (malcontent w)) outputFile in
  (withResults s (setTool "malcontent" result (results s)), None).

(** [fmt.Sprintf("%v\n%s", err, stderrBuf.String())], the diagnostic
    [runMagika] stores for a failed run. *)
Definition magikaDiagnostic (run : ToolRun) : string :=
  match runErr run with
  | Some err => errorText err +:+ String "010" "" +:+ output run
  | None => ""
  end.

(** [runMagika]: returns early, recording nothing, when its output file
    cannot be created. *)
Definition runMagika (w : World) (s : Scanner) : Scanner * option error :=
  let outputFile := Join (workDir s) "magika.json" in
  match magikaCreate w with
  | Some err => (s, Some (Wrapped "failed to create magika output file" err))
  | None =>
      let result := toolResult "magika" (magika w) (magikaDiagnostic (magika w)) outputFile in
      (withResults s (setTool "magika" result (results s)), None)
  end.

(** [calculateGrade]. *)
Definition calculateGrade (score : Z) : string :=
  if score <=? 10 then "A"
  else if score <=? 30 then "B"
  else if score <=? 60 then "C"
  else if score <=? 100 then "D"
  else "F".

(** One iteration of the loop over [s.results.Tools]: the counters
    [toolsOk], [toolsFailed] and the Partial flag. *)
Definition countTool (name : string) (tool : Models.ToolResult) (acc : Z * Z * bool)
  : Z * Z * bool :=
  let '(toolsOk, toolsFailed, partial) := acc in
  if String.eqb (Models.ToolStatus tool) "ok" then (toolsOk + 1, toolsFailed, partial)
  else if String.eqb (Models.ToolStatus tool) "failed"
          || String.eqb (Models.ToolStatus tool) "timeout"
  then (toolsOk, toolsFailed + 1, true)
  else acc.

(** The if/else chain of [calculateScore] under "Determine overall
    status". *)
Definition overallStatus (enabledTools toolsOk score : Z) (partial : bool) : string :=
  if (enabledTools >? 0) && (toolsOk =? 0) then "ERROR"
  else if score >? 100 then "FAIL"
  else if (score >? 30) || partial then "WARN"
  else "PASS".

(** [calculateScore]: the score is the constant zero (the findings are not
    read); then the tool counters, the Partial flag and the status. *)
Definition calculateScore (r : Models.ScanResult) : Models.ScanResult :=
  let score := 0 in
  let sc := {| Models.Total := score; Models.Grade := calculateGrade score;
               Models.Breakdown := ∅ |} in
  let '(toolsOk, toolsFailed, partial) :=
    map_fold countTool (0, 0, Models.Partial r) (Models.Tools r) in
  let enabledTools := Z.of_nat (size (Models.Tools r)) in
  let status := overallStatus enabledTools toolsOk score partial in
  {| Models.ImageRef := Models.ImageRef r; Models.ImageDigest := Models.ImageDigest r;
     Models.Platform := Models.Platform r; Models.StartedAt := Models.StartedAt r;
     Models.FinishedAt := Models.FinishedAt r; Models.Status := status;
     Models.Partial := partial; Models.ResultScore := sc;
     Models.Tools := Models.Tools r;
     Models.ResultFindings := Models.ResultFindings r |}.

(** [ExitCode]. *)
Definition ExitCode (s : Scanner) : Z :=
  let st := Models.Status (results s) in
  if String.eqb st "PASS" then 0
  else if String.eqb st "WARN" then 1
  else if String.eqb st "FAIL" then 2
  else if String.eqb st "ERROR" then 3
  else 1.

Definition mode0500 : Z := 320.
Definition mode0400 : Z := 256.
Definition mode0700 : Z := 448.

(** The paths [filepath.WalkDir(root, ...)] visits: the root and what lies
    below it. *)
Definition walked (root path : string) : bool :=
  String.eqb path root
  || HasPrefix path (if String.eqb root "/" then "/" else root +:+ "/").

(** [makeReadableForScan]: owner read and execute on every directory,
    owner read on every regular file of the tree. *)
Definition makeReadableForScan (root : string) (fs : gmap string Node) : gmap string Node :=
  map_imap (fun path node =>
    if walked root path then
      match node with
      | NDir perm => Some (NDir (Z.lor perm mode0500))
      | NFile data perm => Some (NFile data (Z.lor perm mode0400))
      end
    else Some node) fs.

(** [os.RemoveAll(path)]. *)
Definition RemoveAll (path : string) (fs : gmap string Node) : gmap string Node :=
  filter (fun kv => walked path kv.1 = false) fs.

(** [pullAndExtract]. *)
Definition pullAndExtract (w : World) (s : Scanner) (sys : Extractor.Sys)
  : Scanner * Extractor.Sys * option error :=
  match dockerPull w with
  | Some err => (s, sys, Some (Wrapped "docker pull failed" err))
  | None =>
  match dockerInspect w with
  | Err err => (s, sys, Some (Wrapped "docker inspect failed" err))
  | Ok digest =>
  let s := withResults s (setDigest digest (results s)) in
  match dockerCreate w with
  | Err err => (s, sys, Some (Wrapped "docker create failed" err))
  | Ok containerID =>
  match stdoutPipe w with
  | Some err => (s, sys, Some (Wrapped "failed to create pipe" err))
  | None =>
  match exportStart w with
  | Some err => (s, sys, Some (Wrapped "docker export failed to start" err))
  | None =>
  match Extractor.SafeExtract (getwd w) (exported w) (rootfsDir s) sys with
  | (sys, Some err) => (s, sys, Some (Wrapped "safe extraction failed" err))
  | (sys, None) =>
  match exportWait w with
  | Some err => (s, sys, Some (Wrapped "docker export failed" err))
  | None =>
      let fs := makeReadableForScan (rootfsDir s) (Extractor.files sys) in
      (s, Extractor.withFiles sys fs, None)
  end end end end end end end.

(** [generateReport]. The file system is keyed by the names paths resolve
    to. The report directory is the one path of a run that is used as the
    user typed it, so it is resolved first, against the working directory
    as the kernel does for [os.MkdirAll]; with no working directory a
    relative path resolves to nothing and the call fails. [..] elements
    are resolved by [Clean], which is what the kernel finds when the
    directories stepped out of exist. *)
Definition generateReport (w : World) (s : Scanner) (sys : Extractor.Sys)
  : Extractor.Sys * option error :=
  match Abs (getwd w) (ReportDir (opts s)) with
  | None => (sys, Some (PathError "mkdir" (ReportDir (opts s)) ENOENT))
  | Some dir =>
      let '(fs, err) := MkdirAll (Extractor.files sys) dir Extractor.mode0755 in
      (Extractor.withFiles sys fs, err)
  end.

(** The scanners started by [Run] and joined by [g.Wait()], whose error is
    discarded.  Each writes its own key of [results.Tools] under the mutex,
    so the order in which they finish does not matter. *)
Definition runScanners (w : World) (s : Scanner) : Scanner :=
  let s := if SkipTrivy (opts s) then s else (runTrivy w s).1 in
  let s := if SkipMalcontent (opts s) then s else (runMalcontent w s).1 in
  let s := if SkipMagika (opts s) then s else (runMagika w s).1 in
  s.

(** The part of [Run] after the work directory exists; the deferred
    [os.RemoveAll(s.workDir)] is applied by [Run] to whatever this returns. *)
Definition runInWorkDir (w : World) (s : Scanner) (sys : Extractor.Sys)
  : Scanner * Extractor.Sys * option error :=
  let s := {| opts := opts s; workDir := workDir s;
              rootfsDir := Join (workDir s) "rootfs"; results := results s |} in
  match MkdirAll (Extractor.files sys) (rootfsDir s) Extractor.mode0755 with
  | (fs, Some err) =>
      (s, Extractor.withFiles sys fs, Some (Wrapped "failed to create rootfs directory" err))
  | (fs, None) =>
  let sys := Extractor.withFiles sys fs in
  match pullAndExtract w s sys with
  | (s, sys, Some err) => (s, sys, Some (Wrapped "failed to pull/extract image" err))
  | (s, sys, None) =>
  let s := runScanners w s in
  let s := withResults s (setFinishedAt (finishedAt w) (results s)) in
  let s := withResults s (calculateScore (results s)) in
  match generateReport w s sys with
  | (sys, Some err) => (s, sys, Some (Wrapped "failed to generate report" err))
  | (sys, None) =>
      if String.eqb (Models.Status (results s)) "FAIL"
      then (s, sys, Some (ErrorString "scan completed with FAIL status"))
      else (s, sys, None)
  end end end.

(** [Run]. Console output is not modelled. *)
Definition Run (w : World) (s : Scanner) (sys : Extractor.Sys)
  : Scanner * Extractor.Sys * option error :=
  match Mkdir (Extractor.files sys) (tempDir w) mode0700 with
  | (_, Some err) => (s, sys, Some (Wrapped "failed to create work directory" err))
  | (fs, None) =>
      let s := {| opts := opts s; workDir := tempDir w;
                  rootfsDir := rootfsDir s; results := results s |} in
      let '(s, sys, err) := runInWorkDir w s (Extractor.withFiles sys fs) in
      (s, Extractor.withFiles sys (RemoveAll (workDir s) (Extractor.files sys)), err)
  end.

End Scanner.

(** The scoring table as the specification words it (section 4.4). *)
Module Spec.

Definition tableScore (f : Models.Findings) : Z :=
  match Models.Trivy f with
  | Some t =>
      let v := Models.Vulnerabilities t in
      10 * Models.Critical v + 5 * Models.High v + 2 * Models.Medium v
      + 1 * Models.Low v + 20 * Models.Secrets t
  | None => 0
  end
  + match Models.Malcontent f with
    | Some m => 15 * Models.HighRisk m + 7 * Models.MediumRisk m
    | None => 0
    end
  + match Models.Magika f with
    | Some g => 5 * Models.SuspiciousTypes g
    | None => 0
    end.

End Spec.

(** * Notions used to state the properties *)

Module Notions.
Import Strings Filepath IO OS Extractor Scanner.
Local Open Scope list_scope.

(** [s] has no separator. *)
Fixpoint slashless (s : string) : bool :=
  match s with
  | EmptyString => true
  | String c r => negb (Ascii.eqb c "/") && slashless r
  end.

(** An ordinary path element: not empty, not a dot element, no separator. *)
Definition plain (s : string) : Prop :=
  s <> "" /\ s <> "." /\ s <> ".." /\ slashless s = true.

(** The element stack of [Clean]: ordinary elements written after a
    leading run of [..], which is empty in a rooted path. *)
Definition NFstack (rooted : bool) (out : list string) : Prop :=
  exists k P, out = P ++ repeat ".." k /\ Forall plain P /\ (rooted = true -> k = 0%nat).

(** [q] is the root or lies below it: the prefix test of [sanitizePath]. *)
Definition under (root q : string) : Prop :=
  q = root \/ HasPrefix q (root +:+ Separator) = true.

(** [fs'] differs from [fs] only under [root], and directories stay. *)
Definition frame (root : string) (fs fs' : gmap string Node) : Prop :=
  (forall q, ~ under root q -> fs' !! q = fs !! q) /\
  (forall q, isDir fs q = true -> isDir fs' q = true).

(** The cleaned relative path [sanitizePath] computes from an entry name. *)
Definition relativeName (name : string) : string :=
  TrimPrefix (TrimPrefix (Clean name) "/") "./".

(** The entry types the extractor never materialises. *)
Definition disallowedType (tf : ascii) : Prop :=
  tf = Tar.TypeSymlink \/ tf = Tar.TypeLink \/ tf = Tar.TypeChar
  \/ tf = Tar.TypeBlock \/ tf = Tar.TypeFifo.

(** The ways extraction is cut short: the tar reader fails at a header or
    inside the body of a regular file, or a directory or a file cannot be
    created. *)
Inductive StreamOrWriteFailure (root : string) : Tar.Stream -> Sys -> Prop :=
| HeaderFails e s :
    StreamOrWriteFailure root (Tar.Failed e) s
| DirectoryFails header body rest s p :
    sanitizePath (Tar.Name header) root = Ok p ->
    Tar.Typeflag header = Tar.TypeDir ->
    (MkdirAll (files s) p mode0755).2 <> None ->
    StreamOrWriteFailure root (Tar.Entry header body rest) s
| ParentFails header body rest s p :
    sanitizePath (Tar.Name header) root = Ok p ->
    Tar.Typeflag header = Tar.TypeReg ->
    (MkdirAll (files s) (Dir p) mode0755).2 <> None ->
    StreamOrWriteFailure root (Tar.Entry header body rest) s
| OpenFails header body rest s p fs1 :
    sanitizePath (Tar.Name header) root = Ok p ->
    Tar.Typeflag header = Tar.TypeReg ->
    MkdirAll (files s) (Dir p) mode0755 = (fs1, None) ->
    (OpenFile fs1 p mode0600).2 <> None ->
    StreamOrWriteFailure root (Tar.Entry header body rest) s
| BodyFails header body rest s p fs1 fs2 :
    sanitizePath (Tar.Name header) root = Ok p ->
    Tar.Typeflag header = Tar.TypeReg ->
    MkdirAll (files s) (Dir p) mode0755 = (fs1, None) ->
    OpenFile fs1 p mode0600 = (fs2, None) ->
    (Copy (LimitReader body maxFileSize)).2 <> None ->
    StreamOrWriteFailure root (Tar.Entry header body rest) s
| LaterFails header body rest s s1 :
    extractEntry root header body s = (s1, None) ->
    StreamOrWriteFailure root rest s1 ->
    StreamOrWriteFailure root (Tar.Entry header body rest) s.

(** Some recorded tool reached status ok. *)
Definition hasOk (tools : gmap string Models.ToolResult) : Prop :=
  exists name t, tools !! name = Some t /\ Models.ToolStatus t = "ok".

(** Some recorded tool ended failed or timeout. *)
Definition hasIncomplete (tools : gmap string Models.ToolResult) : Prop :=
  exists name t, tools !! name = Some t
    /\ (Models.ToolStatus t = "failed" \/ Models.ToolStatus t = "timeout").

(** The scan ended before any tool ran: nothing is recorded. *)
Definition notScanned (r : Models.ScanResult) : Prop :=
  Models.Partial r = false /\ Models.Tools r = ∅ /\ Models.Status r = "".

(** [fs'] keeps every object of [fs]; what it adds are directories on the
    way to [anchor]. *)
Definition grows (anchor : string) (fs fs' : gmap string Node) : Prop :=
  (forall q n, fs !! q = Some n -> fs' !! q = Some n)
  /\ (forall q, fs !! q = None -> fs' !! q <> None -> walked q anchor = true).

(** The entries of an archive, in stream order. *)
Fixpoint entries (tr : Tar.Stream) : list (Tar.Header * Reader) :=
  match tr with
  | Tar.Entry header body rest => (header, body) :: entries rest
  | _ => []
  end.

(** [header] is a regular file that the path check places at [q]. *)
Definition writesTo (root q : string) (header : Tar.Header) : bool :=
  Ascii.eqb (Tar.Typeflag header) Tar.TypeReg
  && match sanitizePath (Tar.Name header) root with
     | Ok p => String.eqb p q
     | Err _ => false
     end.

(** The last regular-file entry of the archive placed at [q]. *)
Fixpoint lastRegular (root q : string) (tr : Tar.Stream) : option (Tar.Header * Reader) :=
  match tr with
  | Tar.Entry header body rest =>
      match lastRegular root q rest with
      | Some e => Some e
      | None => if writesTo root q header then Some (header, body) else None
      end
  | _ => None
  end.

(** The file a regular entry leaves behind when it is extracted. *)
Definition extracted (header : Tar.Header) (body : Reader) : Node :=
  NFile (take (Z.to_nat maxFileSize) (delivered body))
        (Z.land (Tar.Mode header mod 2 ^ 32) mode0755).

(** The steps of [Run] for the options [o], each the value of the call
    [Run] makes at that point: creating the work directory, the scanner in
    it, creating the rootfs directory, pulling and extracting the image,
    the scanner after the tools were joined and the score computed, and
    generating the report. *)
Definition workDirMade (w : World) (sys : Sys) : gmap string Node * option error :=
  Mkdir (files sys) (tempDir w) mode0700.

Definition inWorkDir (w : World) (o : ScanOptions) : Scanner :=
  {| opts := opts (New w o); workDir := tempDir w;
     rootfsDir := Join (tempDir w) "rootfs"; results := results (New w o) |}.

Definition rootfsMade (w : World) (sys : Sys) : gmap string Node * option error :=
  MkdirAll (workDirMade w sys).1 (Join (tempDir w) "rootfs") mode0755.

Definition acquired (w : World) (o : ScanOptions) (sys : Sys)
  : Scanner * Sys * option error :=
  pullAndExtract w (inWorkDir w o) (withFiles sys (rootfsMade w sys).1).

Definition scored (w : World) (o : ScanOptions) (sys : Sys) : Scanner :=
  let s := runScanners w (acquired w o sys).1.1 in
  let s := withResults s (setFinishedAt (finishedAt w) (results s)) in
  withResults s (calculateScore (results s)).

Definition reported (w : World) (o : ScanOptions) (sys : Sys) : Sys * option error :=
  generateReport w (scored w o sys) (acquired w o sys).1.2.

(** The ways a run ends with an error: a step that failed, every step
    before it having succeeded, or the status FAIL after all of them. *)
Inductive PipelineFailure (w : World) (o : ScanOptions) (sys : Sys) : error -> Prop :=
| WorkDirFails cause :
    (workDirMade w sys).2 = Some cause ->
    PipelineFailure w o sys (Wrapped "failed to create work directory" cause)
| RootfsFails cause :
    (workDirMade w sys).2 = None ->
    (rootfsMade w sys).2 = Some cause ->
    PipelineFailure w o sys (Wrapped "failed to create rootfs directory" cause)
| AcquisitionFails cause :
    (workDirMade w sys).2 = None ->
    (rootfsMade w sys).2 = None ->
    (acquired w o sys).2 = Some cause ->
    PipelineFailure w o sys (Wrapped "failed to pull/extract image" cause)
| ReportFails cause :
    (workDirMade w sys).2 = None ->
    (rootfsMade w sys).2 = None ->
    (acquired w o sys).2 = None ->
    (reported w o sys).2 = Some cause ->
    PipelineFailure w o sys (Wrapped "failed to generate report" cause)
| StatusFails :
    (workDirMade w sys).2 = None ->
    (rootfsMade w sys).2 = None ->
    (acquired w o sys).2 = None ->
    (reported w o sys).2 = None ->
    Models.Status (results (scored w o sys)) = "FAIL" ->
    PipelineFailure w o sys (ErrorString "scan completed with FAIL status").

End Notions.

Module Examples.
Import Strings Filepath IO OS Extractor.

Definition fs0 : gmap string Node :=
  <["/tmp/root" := NDir 493]> (<["/tmp" := NDir 493]> (<["/" := NDir 493]> ∅)).
Definition sys0 : Sys := {| files := fs0; stderr := [] |}.
Definition hdr (n : string) (t : ascii) (m : Z) : Tar.Header :=
  {| Tar.Name := n; Tar.Typeflag := t; Tar.Mode := m; Tar.Linkname := ""; Tar.Size := 0 |}.

Definition tar1 : Tar.Stream :=
  Tar.Entry (hdr "etc/" Tar.TypeDir 493) RdEOF
   (Tar.Entry (hdr "usr/bin/x" Tar.TypeReg 2541) (ofBytes [Byte.x61; Byte.x62])
    (Tar.Entry (hdr "../../evil" Tar.TypeReg 420) RdEOF
     (Tar.Entry (hdr "a..b" Tar.TypeReg 420) RdEOF Tar.EOF))).


(** A directory and a regular file with the setuid bit. *)
Definition tar2 : Tar.Stream :=
  Tar.Entry (hdr "etc/" Tar.TypeDir 493) RdEOF
   (Tar.Entry (hdr "usr/bin/x" Tar.TypeReg 2541) (ofBytes [Byte.x61; Byte.x62]) Tar.EOF).

(** One regular file whose name has two dots in a row. *)
Definition tarDots : Tar.Stream :=
  Tar.Entry (hdr "a..b" Tar.TypeReg 420) (ofBytes [Byte.x61]) Tar.EOF.

(** A run in which every command succeeds unless changed below. *)
Definition okRun : Scanner.ToolRun :=
  {| Scanner.deadlineExceeded := false; Scanner.runErr := None;
     Scanner.output := ""; Scanner.versionProbe := Some "1.0" |}.
Definition failedRun : Scanner.ToolRun :=
  {| Scanner.deadlineExceeded := false; Scanner.runErr := Some (ErrorString "exit status 1");
     Scanner.output := "boom"; Scanner.versionProbe := None |}.
Definition timeoutRun : Scanner.ToolRun :=
  {| Scanner.deadlineExceeded := true; Scanner.runErr := Some (ErrorString "signal: killed");
     Scanner.output := ""; Scanner.versionProbe := Some "1.0" |}.

Definition world (pull : option error) (t m g : Scanner.ToolRun) : Scanner.World :=
  {| Scanner.startedAt := 0; Scanner.finishedAt := 1; Scanner.getwd := Some "/";
     Scanner.tempDir := "/tmp/vnaiscan-1";
     Scanner.dockerPull := pull; Scanner.dockerInspect := Ok "sha256:0";
     Scanner.dockerCreate := Ok "c0ffee"; Scanner.stdoutPipe := None;
     Scanner.exportStart := None; Scanner.exported := tar1; Scanner.exportWait := None;
     Scanner.trivy := t; Scanner.malcontent := m; Scanner.magika := g;
     Scanner.magikaCreate := None |}.

Definition scanOpts (skipT skipM skipG : bool) : Scanner.ScanOptions :=
  {| Scanner.ImageRef := "alpine:latest"; Scanner.Platform := "linux/amd64";
     Scanner.OutputFormat := "table"; Scanner.ReportDir := "/tmp/reports";
     Scanner.TimeoutMins := 30; Scanner.SkipTrivy := skipT;
     Scanner.SkipMalcontent := skipM; Scanner.SkipMagika := skipG;
     Scanner.Quiet := true; Scanner.Verbose := false |}.

(** All three tools enabled and all three fail. *)
Definition worldAllFail : Scanner.World := world None failedRun failedRun failedRun.
(** Trivy ok, malcontent times out. *)
Definition worldOneTimeout : Scanner.World := world None okRun timeoutRun okRun.
(** docker pull fails. *)
Definition worldNoImage : Scanner.World :=
  world (Some (ErrorString "exit status 1")) okRun okRun okRun.

(** A scan result with one critical and two high vulnerabilities, all
    three tools ok. *)
Definition foundResult : Models.ScanResult :=
  let r := Scanner.results (Scanner.runScanners (world None okRun okRun okRun)
                              (Scanner.New (world None okRun okRun okRun)
                                 (scanOpts false false false))) in
  {| Models.ImageRef := Models.ImageRef r; Models.ImageDigest := Models.ImageDigest r;
     Models.Platform := Models.Platform r; Models.StartedAt := Models.StartedAt r;
     Models.FinishedAt := Models.FinishedAt r; Models.Status := Models.Status r;
     Models.Partial := Models.Partial r; Models.ResultScore := Models.ResultScore r;
     Models.Tools := Models.Tools r;
     Models.ResultFindings :=
       {| Models.Trivy :=
            Some {| Models.Vulnerabilities :=
                      {| Models.Critical := 1; Models.High := 2;
                         Models.Medium := 0; Models.Low := 0 |};
                    Models.Secrets := 0; Models.Misconfigs := 0 |};
          Models.Malcontent :=
            Some {| Models.TotalFindings := 0; Models.HighRisk := 0;
                    Models.MediumRisk := 0; Models.LowRisk := 0;
                    Models.Capabilities := [] |};
          Models.Magika :=
            Some {| Models.TotalFiles := 0; Models.SuspiciousTypes := 0;
                    Models.MismatchedExtension := 0 |} |} |}.

Definition sysTmp : Sys :=
  {| files := <["/tmp" := NDir 493]> (<["/" := NDir 493]> ∅); stderr := [] |}.

End Examples.

(** ** The scanner package: CheckTools *)

Module ToolCheck.

(** What [CheckTools] asks of the machine: whether [exec.LookPath] finds a
    command, and what running it with [--version] gives (trimmed standard
    output, and the error if it failed). *)
Record Machine := {
  lookPath : string -> bool;
  versionOutput : string -> string * option error
}.

(** What [CheckTools] prints for one tool. *)
Inductive Line :=
| NotFound (name : string)
| Found (name version : string).

(** [getTrivyVersion], [getMalcontentVersion], [getMagikaVersion], run on
    the command [cmd]. *)
Definition getToolVersion (m : Machine) (cmd : string) : string :=
  match versionOutput m cmd with
  | (_, Some _) => Scanner.getVersion None
  | (out, None) => Scanner.getVersion (Some out)
  end.

(** The version function of the Docker row: the error is dropped. *)
Definition getDockerVersion (m : Machine) (cmd : string) : string :=
  (versionOutput m cmd).1.

(** The table [tools] of [CheckTools]: display name, command, version
    function. *)
Definition tools : list (string * string * (Machine -> string -> string)) :=
  [ ("Trivy", "trivy", getToolVersion);
    ("Malcontent", "mal", getToolVersion);
    ("Magika", "magika", getToolVersion);
    ("Docker", "docker", getDockerVersion) ].

(** One iteration of the loop: the lines printed so far and [allOk]. *)
Definition checkTool (m : Machine) (acc : list Line * bool)
    (tool : string * string * (Machine -> string -> string)) : list Line * bool :=
  let '(name, cmd, getVer) := tool in
  let '(printed, allOk) := acc in
  if lookPath m cmd then ((printed ++ [Found name (getVer m cmd)])%list, allOk)
  else ((printed ++ [NotFound name])%list, false).

(** [CheckTools]: the lines printed and the error returned. *)
Definition CheckTools (m : Machine) : list Line * option error :=
  let '(printed, allOk) := fold_left (checkTool m) tools ([], true) in
  if negb allOk then (printed, Some (ErrorString "some tools are missing"))
  else (printed, None).

End ToolCheck.

(** ** cmd/vnaiscan/main.go *)

Module Main.
Import Scanner.

(** [runScan] for the parsed flags [o]: the code [os.Exit] is called with,
    if it is called, and the error returned to cobra otherwise. *)
Definition runScan (w : World) (o : ScanOptions) (sys : Extractor.Sys)
  : option Z * option error :=
  let s := New w o in
  match Run w s sys with
  | (_, _, Some err) => (None, Some err)
  | (s, _, None) =>
      let exitCode := ExitCode s in
      if negb (exitCode =? 0) then (Some exitCode, None) else (None, None)
  end.

(** [main] for the scan command: the exit status of the process. *)
Definition main (w : World) (o : ScanOptions) (sys : Extractor.Sys) : Z :=
  match runScan w o sys with
  | (Some code, _) => code
  | (None, Some _) => 1
  | (None, None) => 0
  end.

(** [main] for the tools command, whose [RunE] returns [CheckTools()]. *)
Definition mainTools (m : ToolCheck.Machine) : Z :=
  match (ToolCheck.CheckTools m).2 with
  | Some _ => 1
  | None => 0
  end.

End Main.

(** * Further notions *)

Module MoreNotions.
Import OS.

(** The permission bits [perm] lie within 0755. *)
Definition within0755 (perm : Z) : Prop := Z.land perm Extractor.mode0755 = perm.

(** How the object at one path may differ before and after an extraction:
    a directory stays as it is; a file stays a file, with its old mode or
    one within 0755; where there was nothing there is nothing, a directory
    of mode 0755, or a file with a mode within 0755. *)
Definition evolves (before after : option Node) : Prop :=
  match before, after with
  | Some (NDir perm), Some (NDir perm') => perm' = perm
  | Some (NFile _ perm), Some (NFile _ perm') => perm' = perm \/ within0755 perm'
  | None, None => True
  | None, Some (NDir perm') => perm' = Extractor.mode0755
  | None, Some (NFile _ perm') => within0755 perm'
  | _, _ => False
  end.

Definition extends (fs fs' : gmap string Node) : Prop :=
  forall q, evolves (fs !! q) (fs' !! q).

(** What a scan may leave outside its work directory: every path there is
    as before, or is a new directory of mode 0755 on the way to the report
    directory. *)
Definition footprint (workDir reportDir : string) (fs fs' : gmap string Node) : Prop :=
  forall q, Scanner.walked workDir q = false ->
    fs' !! q = fs !! q
    \/ (fs !! q = None /\ fs' !! q = Some (NDir Extractor.mode0755)
        /\ Scanner.walked q reportDir = true).

(** The line [CheckTools] prints for one row of its table. *)
Definition lineFor (m : ToolCheck.Machine)
    (tool : string * string * (ToolCheck.Machine -> string -> string)) : ToolCheck.Line :=
  let '(name, cmd, getVer) := tool in
  if ToolCheck.lookPath m cmd then ToolCheck.Found name (getVer m cmd)
  else ToolCheck.NotFound name.

End MoreNotions.

Module MoreExamples.
Import Examples.

(** Every command succeeds, but the output file of magika cannot be
    created. *)
Definition worldNoMagikaFile : Scanner.World :=
  {| Scanner.startedAt := 0; Scanner.finishedAt := 1; Scanner.getwd := Some "/";
     Scanner.tempDir := "/tmp/vnaiscan-1";
     Scanner.dockerPull := None; Scanner.dockerInspect := Ok "sha256:0";
     Scanner.dockerCreate := Ok "c0ffee"; Scanner.stdoutPipe := None;
     Scanner.exportStart := None; Scanner.exported := tar2; Scanner.exportWait := None;
     Scanner.trivy := okRun; Scanner.malcontent := okRun; Scanner.magika := okRun;
     Scanner.magikaCreate :=
       Some (PathError "open" "/tmp/vnaiscan-1/magika.json" ENOENT) |}.

(** Every command succeeds. *)
Definition worldAllOk : Scanner.World := world None okRun okRun okRun.

(** A machine on which every tool but [mal] is installed. *)
Definition machineNoMal : ToolCheck.Machine :=
  {| ToolCheck.lookPath := fun cmd => negb (String.eqb cmd "mal");
     ToolCheck.versionOutput := fun cmd => ("1.0", None) |}.

End MoreExamples.

(** * [filepath.Clean], [Dir] and [Join] on sample paths *)

Module FilepathExamples.

Example clean1 : Filepath.Clean "/a/./b/../../c//d/" = "/c/d". Proof. reflexivity. Qed.
Example clean2 : Filepath.Clean "../../a/../.." = "../../..". Proof. reflexivity. Qed.
Example clean3 : Filepath.Clean "/../a" = "/a". Proof. reflexivity. Qed.
Example clean4 : Filepath.Clean "a/.." = ".". Proof. reflexivity. Qed.
Example clean5 : Filepath.Clean "a..b/c" = "a..b/c". Proof. reflexivity. Qed.
Example dir1 : Filepath.Dir "/tmp/root/a" = "/tmp/root". Proof. reflexivity. Qed.
Example dir2 : Filepath.Dir "/a" = "/". Proof. reflexivity. Qed.
Example dir3 : Filepath.Dir "a" = ".". Proof. reflexivity. Qed.
Example join1 : Filepath.Join "/tmp/root" "" = "/tmp/root". Proof. reflexivity. Qed.
Example join2 : Filepath.Join "/tmp/root" "etc/passwd" = "/tmp/root/etc/passwd". Proof. reflexivity. Qed.

End FilepathExamples.

(** * Facts about strings and paths *)

Module StringFacts.
Import Notions.
Import Strings Filepath.

Lemma sapp_nil_r (s : string) : s +:+ "" = s.
Proof. induction s as [|c s IH]; simpl; [done | by f_equal]. Qed.

Lemma sapp_assoc (a b c : string) : (a +:+ b) +:+ c = a +:+ (b +:+ c).
Proof. induction a as [|x a IH]; simpl; [done | by f_equal]. Qed.

Lemma sapp_inv_head (a b c : string) : a +:+ b = a +:+ c -> b = c.
Proof. induction a as [|x a IH]; simpl; [done | intros [= H]; auto]. Qed.

Lemma slength_app (a b : string) :
  String.length (a +:+ b) = (String.length a + String.length b)%nat.
Proof. induction a as [|x a IH]; simpl; [done | by f_equal]. Qed.

Lemma sapp_inv_tail (a b c : string) : a +:+ c = b +:+ c -> a = b.
Proof.
  revert b. induction a as [|x a IH]; intros [|y b]; simpl; intros H; try done.
  - apply (f_equal String.length) in H. simpl in H. rewrite slength_app in H. lia.
  - apply (f_equal String.length) in H. simpl in H. rewrite slength_app in H. lia.
  - injection H as -> H. f_equal. by apply IH.
Qed.

Lemma HasPrefix_app (p t : string) : HasPrefix (p +:+ t) p = true.
Proof. induction p as [|c p IH]; simpl; [done | by rewrite Ascii.eqb_refl]. Qed.

Lemma HasPrefix_inv (s p : string) :
  HasPrefix s p = true -> exists t, s = p +:+ t.
Proof.
  revert s. induction p as [|c p IH]; intros s H; simpl in *.
  - by exists s.
  - destruct s as [|d s]; [done|].
    destruct (Ascii.eqb_spec c d) as [->|]; [|done].
    destruct (IH _ H) as [t ->]. by exists t.
Qed.

Lemma HasPrefix_iff (s p : string) :
  HasPrefix s p = true <-> exists t, s = p +:+ t.
Proof.
  split; [apply HasPrefix_inv | intros [t ->]; apply HasPrefix_app].
Qed.

Lemma CutPrefix_app (p t : string) : CutPrefix (p +:+ t) p = Some t.
Proof. induction p as [|c p IH]; simpl; [done | by rewrite Ascii.eqb_refl]. Qed.

Lemma CutPrefix_None (s p : string) :
  CutPrefix s p = None <-> HasPrefix s p = false.
Proof.
  revert s. induction p as [|c p IH]; intros s; simpl; [done|].
  destruct s as [|d s]; [done|]. destruct (Ascii.eqb c d); [apply IH | done].
Qed.

Lemma Contains_unfold (s x : string) :
  Contains s x =
  if HasPrefix s x then true
  else match s with EmptyString => false | String _ s' => Contains s' x end.
Proof. by destruct s. Qed.

Lemma Contains_app (a x t : string) : Contains (a +:+ x +:+ t) x = true.
Proof.
  induction a as [|c a IH].
  - simpl. by rewrite Contains_unfold, HasPrefix_app.
  - simpl. rewrite IH. by destruct (HasPrefix _ _).
Qed.

Lemma Contains_inv (s x : string) :
  Contains s x = true -> exists a t, s = a +:+ x +:+ t.
Proof.
  induction s as [|c s IH]; simpl.
  - destruct (HasPrefix "" x) eqn:E; [|done]. intros _.
    apply HasPrefix_inv in E as [t E]. by exists "", t.
  - destruct (HasPrefix (String c s) x) eqn:E.
    + intros _. apply HasPrefix_inv in E as [t E]. by exists "", t.
    + intros H. destruct (IH H) as (a & t & ->). by exists (String c a), t.
Qed.

(** ** Splitting at separators *)

Lemma SplitSlash_nonempty (s : string) : SplitSlash s <> [].
Proof.
  induction s as [|c s IH]; simpl; [done|].
  destruct (Ascii.eqb c "/"); [done|]. by destruct (SplitSlash s).
Qed.

Lemma SplitSlash_slashless (s : string) : Forall (fun x => slashless x = true) (SplitSlash s).
Proof.
  induction s as [|c s IH]; simpl.
  - by constructor.
  - destruct (Ascii.eqb c "/") eqn:E; [by constructor|].
    destruct (SplitSlash s) as [|x xs]; [by constructor; [simpl; rewrite E|]|].
    inversion IH as [|? ? Hx Hxs]; subst. constructor; [|done]. simpl. by rewrite E, Hx.
Qed.

Lemma JoinSlash_cons (x : string) (l : list string) :
  l <> [] -> JoinSlash (x :: l) = x +:+ "/" +:+ JoinSlash l.
Proof. by destruct l. Qed.

Lemma JoinSlash_SplitSlash (s : string) : JoinSlash (SplitSlash s) = s.
Proof.
  induction s as [|c s IH]; [done|]. simpl SplitSlash.
  pose proof (SplitSlash_nonempty s) as Hne.
  destruct (Ascii.eqb_spec c "/") as [->|Hc].
  - rewrite JoinSlash_cons by done. by rewrite IH.
  - destruct (SplitSlash s) as [|x xs]; [done|].
    destruct xs as [|y ys]; simpl in *; by rewrite IH.
Qed.

Lemma SplitSlash_slashless_id (x : string) : slashless x = true -> SplitSlash x = [x].
Proof.
  induction x as [|c x IH]; simpl; [done|].
  destruct (Ascii.eqb c "/"); simpl; [done|]. intros H. by rewrite IH.
Qed.

Lemma SplitSlash_app (a t : string) :
  SplitSlash (a +:+ "/" +:+ t) = (SplitSlash a ++ SplitSlash t)%list.
Proof.
  induction a as [|c a IH]; simpl in *; [done|].
  rewrite IH. destruct (Ascii.eqb c "/"); [done|].
  pose proof (SplitSlash_nonempty a). by destruct (SplitSlash a).
Qed.

Lemma SplitSlash_JoinSlash (l : list string) :
  l <> [] -> Forall (fun x => slashless x = true) l -> SplitSlash (JoinSlash l) = l.
Proof.
  induction l as [|x l IH]; [done|]. intros _ H.
  inversion H as [|? ? Hx Hl]; subst.
  destruct l as [|y l]; [by apply SplitSlash_slashless_id|].
  rewrite JoinSlash_cons by done. rewrite SplitSlash_app, SplitSlash_slashless_id by done.
  simpl. f_equal. by apply IH.
Qed.

Lemma In_JoinSlash (x : string) (l : list string) :
  In x l -> exists a t, JoinSlash l = a +:+ x +:+ t.
Proof.
  induction l as [|y l IH]; [done|]. intros H.
  destruct l as [|z l].
  - destruct H as [->|[]]. exists "", "". simpl. by rewrite sapp_nil_r.
  - rewrite JoinSlash_cons by done. destruct H as [->|H].
    + by exists "", ("/" +:+ JoinSlash (z :: l)).
    + destruct (IH H) as (a & t & ->). exists (y +:+ "/" +:+ a), t.
      by rewrite !sapp_assoc.
Qed.

Lemma In_SplitSlash_Contains (s x : string) :
  In x (SplitSlash s) -> Contains s x = true.
Proof.
  intros H. destruct (In_JoinSlash _ _ H) as (a & t & E).
  rewrite JoinSlash_SplitSlash in E. rewrite E. apply Contains_app.
Qed.

End StringFacts.

(** ** The normal form produced by [Clean] *)

Module CleanFacts.
Import Notions.
Import Strings Filepath StringFacts.
Local Open Scope list_scope.

Lemma NFstack_nil (r : bool) : NFstack r [].
Proof. exists 0%nat, []. by repeat split. Qed.

Lemma cleanStep_empty r out : cleanStep r out "" = out.
Proof. done. Qed.

Lemma cleanStep_plain r out e : plain e -> cleanStep r out e = e :: out.
Proof.
  intros (H1 & H2 & H3 & _). unfold cleanStep.
  apply String.eqb_neq in H1, H2, H3. by rewrite H1, H2, H3.
Qed.

Lemma cleanStep_NF r out e :
  slashless e = true -> NFstack r out -> NFstack r (cleanStep r out e).
Proof.
  intros He (k & P & -> & HP & Hk). unfold cleanStep.
  destruct (String.eqb_spec e "") as [->|H1]; [by exists k, P|].
  destruct (String.eqb_spec e ".") as [->|H2]; [by exists k, P|].
  destruct (String.eqb_spec e "..") as [->|H3].
  - destruct P as [|top P]; simpl.
    + destruct k as [|k]; simpl.
      * destruct r; [apply NFstack_nil|]. exists 1%nat, []. by repeat split.
      * exists (S (S k)), []. repeat split; [done|]. intros ->. by specialize (Hk eq_refl).
    + inversion HP as [|? ? Htop HP']; subst.
      destruct Htop as (_ & _ & Htop & _). apply String.eqb_neq in Htop. rewrite Htop.
      by exists k, P.
  - exists k, (e :: P). repeat split; [|done]. constructor; [|done]. by repeat split.
Qed.

Lemma fold_cleanStep_NF r l out :
  Forall (fun x => slashless x = true) l -> NFstack r out ->
  NFstack r (fold_left (cleanStep r) l out).
Proof.
  revert out. induction l as [|e l IH]; intros out Hl Hout; [done|].
  inversion Hl; subst. simpl. apply IH; [done|]. by apply cleanStep_NF.
Qed.

(** Every cleaned path is the rendering of a stack in normal form. *)
Lemma Clean_NF (x : string) :
  exists r out, Clean x = render r out /\ NFstack r out.
Proof.
  unfold Clean. destruct (String.eqb x "").
  - exists false, []. split; [done | apply NFstack_nil].
  - eexists _, _. split; [reflexivity|].
    apply fold_cleanStep_NF; [apply SplitSlash_slashless | apply NFstack_nil].
Qed.

Lemma fold_cleanStep_plain r Q acc :
  Forall plain Q -> fold_left (cleanStep r) Q acc = rev Q ++ acc.
Proof.
  revert acc. induction Q as [|e Q IH]; intros acc H; [done|].
  inversion H; subst. simpl. rewrite cleanStep_plain by done.
  rewrite IH by done. by rewrite <- List.app_assoc.
Qed.

Lemma repeat_snoc {A} (x : A) k : repeat x k ++ [x] = x :: repeat x k.
Proof. induction k as [|k IH]; simpl; [done | by rewrite IH]. Qed.

Lemma rev_repeat {A} (x : A) k : rev (repeat x k) = repeat x k.
Proof. induction k as [|k IH]; simpl; [done|]. by rewrite IH, repeat_snoc. Qed.

Lemma fold_cleanStep_dotdots k j :
  fold_left (cleanStep false) (repeat ".." k) (repeat ".." j) = repeat ".." (k + j).
Proof.
  revert j. induction k as [|k IH]; intros j; [done|]. simpl.
  replace (cleanStep false (repeat ".." j) "..") with (repeat ".." (S j)).
  - rewrite IH. by replace (k + S j)%nat with (S (k + j)) by lia.
  - by destruct j.
Qed.

(** Cleaning the elements of a normal form pushes each of them. *)
Lemma fold_cleanStep_NFlist r k Q :
  (r = true -> k = 0%nat) -> Forall plain Q ->
  fold_left (cleanStep r) (repeat ".." k ++ Q) [] = rev (repeat ".." k ++ Q).
Proof.
  intros Hk HQ. rewrite fold_left_app, rev_app_distr, rev_repeat.
  destruct r.
  - rewrite (Hk eq_refl). simpl. by apply fold_cleanStep_plain.
  - pose proof (fold_cleanStep_dotdots k 0) as H. simpl in H. rewrite H.
    rewrite Nat.add_0_r. by apply fold_cleanStep_plain.
Qed.

Lemma plain_not_dotdot s : plain s -> s <> "..".
Proof. by intros (_ & _ & H & _). Qed.

(** A prefix of a normal form is a normal form. *)
Lemma NFlist_prefix (L T Q : list string) k :
  L ++ T = repeat ".." k ++ Q -> Forall plain Q ->
  exists k' Q', L = repeat ".." k' ++ Q' /\ Forall plain Q' /\ (k' <= k)%nat.
Proof.
  revert L. induction k as [|k IH]; intros L H HQ; simpl in H.
  - exists 0%nat, L. repeat split; [|lia].
    rewrite <- H in HQ. by apply Forall_app in HQ as [? _].
  - destruct L as [|e L]; [exists 0%nat, []; repeat split; [done | lia]|].
    injection H as -> H. destruct (IH _ H HQ) as (k' & Q' & -> & HQ' & Hle).
    exists (S k'), Q'. repeat split; [done | lia].
Qed.

Lemma beforeLastSlash_Some (p b : string) :
  beforeLastSlash p = Some b -> exists last, p = b +:+ "/" +:+ last.
Proof.
  revert b. induction p as [|c p IH]; intros b; simpl; [done|].
  destruct (beforeLastSlash p) as [b'|].
  - intros [= <-]. destruct (IH _ eq_refl) as [last ->]. by exists last.
  - destruct (Ascii.eqb_spec c "/") as [->|]; [|done]. intros [= <-]. by exists p.
Qed.

Lemma beforeLastSlash_app (d rest : string) :
  exists b, beforeLastSlash (d +:+ "/" +:+ rest) = Some b /\
            (b = d \/ exists t, b = d +:+ "/" +:+ t).
Proof.
  induction d as [|c d IH]; simpl in *.
  - destruct (beforeLastSlash rest) as [b'|]; eauto.
  - destruct IH as (b & -> & Hb). exists (String c b). split; [done|].
    destruct Hb as [->|[t ->]]; [by left | right; by exists t].
Qed.

Lemma plain_slashless (l : list string) :
  Forall plain l -> Forall (fun x => slashless x = true) l.
Proof. induction 1 as [|x l (_ & _ & _ & Hx) _ IH]; by constructor. Qed.

Lemma NFlist_slashless k (Q : list string) :
  Forall plain Q -> Forall (fun x => slashless x = true) (repeat ".." k ++ Q).
Proof.
  intros HQ. apply Forall_app. split; [|by apply plain_slashless].
  induction k; simpl; by constructor.
Qed.

Lemma IsAbs_head (h t : string) :
  h <> "" -> slashless h = true -> IsAbs (h +:+ t) = false.
Proof.
  destruct h as [|c h]; [done|]. intros _ Hs. unfold IsAbs. simpl in *.
  destruct (Ascii.eqb_spec "/" c) as [<-|]; [|done].
  by rewrite Ascii.eqb_refl in Hs.
Qed.

Lemma JoinSlash_head (h : string) (l : list string) :
  exists t, JoinSlash (h :: l) = h +:+ t.
Proof.
  destruct l as [|y l]; [exists ""; simpl; by rewrite sapp_nil_r|].
  by exists ("/" +:+ JoinSlash (y :: l)).
Qed.

Lemma sapp_slash_nonempty (a : string) : String.eqb (a +:+ "/") "" = false.
Proof. by destruct a. Qed.

Lemma IsAbs_slash (s : string) : IsAbs (String "/" s) = true.
Proof. reflexivity. Qed.

(** Cleaning a rooted normal form followed by a separator. *)
Lemma Clean_rooted_NF (Q : list string) :
  Forall plain Q -> Q <> [] ->
  Clean ("/" +:+ JoinSlash Q +:+ "/") = "/" +:+ JoinSlash Q.
Proof.
  intros HQ Hne. unfold Clean. simpl. rewrite IsAbs_slash.
  replace (JoinSlash Q +:+ "/") with (JoinSlash Q +:+ "/" +:+ "") by done.
  rewrite SplitSlash_app, SplitSlash_JoinSlash by (done || by apply plain_slashless).
  rewrite cleanStep_empty, fold_left_app, (fold_cleanStep_plain _ Q) by done.
  simpl. rewrite cleanStep_empty. by rewrite app_nil_r, rev_involutive.
Qed.

(** Cleaning a relative normal form followed by a separator. *)
Lemma Clean_relative_NF k (Q : list string) :
  Forall plain Q -> repeat ".." k ++ Q <> [] ->
  Clean (JoinSlash (repeat ".." k ++ Q) +:+ "/") = JoinSlash (repeat ".." k ++ Q).
Proof.
  intros HQ Hne. set (L := repeat ".." k ++ Q) in *.
  assert (exists h L', L = h :: L' /\ h <> "" /\ slashless h = true) as (h & L' & EL & Hh & Hs).
  { subst L. destruct k as [|k]; simpl.
    - destruct Q as [|h Q]; [done|]. inversion HQ as [|? ? (? & _ & _ & ?) _]; subst. eauto.
    - eexists _, _. repeat split; done. }
  unfold Clean. rewrite sapp_slash_nonempty.
  destruct (JoinSlash_head h L') as [t Et].
  assert (IsAbs (JoinSlash L +:+ "/") = false) as ->.
  { rewrite EL, Et, sapp_assoc. by apply IsAbs_head. }
  replace (JoinSlash L +:+ "/") with (JoinSlash L +:+ "/" +:+ "") by done.
  rewrite SplitSlash_app, SplitSlash_JoinSlash by (done || by apply NFlist_slashless).
  subst L. rewrite fold_left_app, fold_cleanStep_NFlist by done.
  simpl. rewrite cleanStep_empty. unfold render.
  destruct (rev (repeat ".." k ++ Q)) eqn:E.
  - apply (f_equal (@rev string)) in E. rewrite rev_involutive in E. done.
  - by rewrite <- E, rev_involutive.
Qed.

(** [filepath.Dir] of a cleaned path: the text before the last separator
    is already clean. *)
Lemma Clean_beforeLastSlash (x b : string) :
  beforeLastSlash (Clean x) = Some b ->
  Clean (b +:+ "/") = if String.eqb b "" then "/" else b.
Proof.
  intros H. destruct (Clean_NF x) as (r & out & E & k & P & -> & HP & Hk).
  rewrite E in H. clear E x.
  destruct (beforeLastSlash_Some _ _ H) as [last Hp].
  assert (HQ : Forall plain (rev P)) by by apply Forall_rev.
  apply (f_equal SplitSlash) in Hp. rewrite SplitSlash_app in Hp.
  pose proof (JoinSlash_SplitSlash b) as Eb.
  pose proof (SplitSlash_nonempty b) as Hbne.
  unfold render in Hp, H. rewrite rev_app_distr, rev_repeat in Hp, H.
  destruct r.
  - rewrite (Hk eq_refl) in Hp. simpl in Hp.
    destruct (rev P) as [|q Q] eqn:EQ.
    + simpl in Hp. destruct (SplitSlash b) as [|h [|h' L']]; try done.
      * injection Hp as <- _. by rewrite <- Eb.
      * injection Hp as _ _ Hp. pose proof (SplitSlash_nonempty last).
        symmetry in Hp. by apply app_eq_nil in Hp as [_ ?].
    + rewrite SplitSlash_JoinSlash in Hp by (done || by apply plain_slashless).
      destruct (SplitSlash b) as [|h L']; [done|]. injection Hp as <- Hp.
      destruct L' as [|h' L'].
      * by rewrite <- Eb.
      * rewrite <- Eb.
        change (JoinSlash ("" :: h' :: L')) with ("/" +:+ JoinSlash (h' :: L')).
        assert (Forall plain (h' :: L')).
        { rewrite Hp in HQ. by apply Forall_app in HQ as [? _]. }
        by rewrite sapp_assoc, (Clean_rooted_NF (h' :: L')).
  - destruct (P ++ repeat ".." k) eqn:EO.
    { simpl in H. apply app_eq_nil in EO as [-> EO]. destruct k; [|done].
      simpl in H. done. }
    assert (repeat ".." k ++ rev P <> []) as Hne.
    { intros E0. apply (f_equal (@rev string)) in E0.
      rewrite rev_app_distr, rev_involutive, rev_repeat, EO in E0. done. }
    rewrite SplitSlash_JoinSlash in Hp by (done || by apply NFlist_slashless).
    destruct (NFlist_prefix _ _ _ _ (eq_sym Hp) HQ) as (k' & Q' & EL & HQ' & _).
    rewrite EL in Eb, Hbne. rewrite <- Eb.
    rewrite Clean_relative_NF by done.
    destruct (String.eqb_spec (JoinSlash (repeat ".." k' ++ Q')) "") as [E0|]; [|done].
    exfalso. destruct (repeat ".." k' ++ Q') as [|h L'] eqn:EL'; [done|].
    assert (h <> "") as Hh.
    { destruct k'; simpl in EL'.
      - subst Q'. by inversion HQ' as [|? ? (? & _) _].
      - by injection EL' as <- _. }
    destruct (JoinSlash_head h L') as [t Et]. rewrite Et in E0. by destruct h.
Qed.

Lemma Dir_of_Clean (x b : string) :
  beforeLastSlash (Clean x) = Some b ->
  Dir (Clean x) = if String.eqb b "" then "/" else b.
Proof.
  intros H. unfold Dir, uptoLastSlash. rewrite H. by apply (Clean_beforeLastSlash x).
Qed.

End CleanFacts.

(** ** What the file-system calls can change *)

Module OSFacts.
Import Notions.
Import Strings Filepath OS StringFacts CleanFacts.
Local Open Scope list_scope.

Lemma frame_refl root fs : frame root fs fs.
Proof. by split. Qed.

Lemma frame_trans root fs1 fs2 fs3 :
  frame root fs1 fs2 -> frame root fs2 fs3 -> frame root fs1 fs3.
Proof.
  intros [A1 B1] [A2 B2]. split.
  - intros q Hq. by rewrite A2, A1.
  - intros q Hq. auto.
Qed.

Lemma isDir_true fs p : isDir fs p = true <-> exists perm, fs !! p = Some (NDir perm).
Proof.
  unfold isDir. destruct (fs !! p) as [[]|]; split; try done; eauto.
  - by intros [? ?].
  - by intros [? ?].
Qed.

(** Storing a node under the root, not in place of a directory unless it is
    a directory itself. *)
Lemma frame_insert root (fs : gmap string Node) p n :
  under root p ->
  (isDir fs p = true -> exists perm, n = NDir perm) ->
  frame root fs (<[p := n]> fs).
Proof.
  intros Hp Hn. split.
  - intros q Hq. apply lookup_insert_ne. by intros ->.
  - intros q Hq. destruct (decide (p = q)) as [->|Hne].
    + destruct (Hn Hq) as [perm ->]. unfold isDir. by rewrite lookup_insert_eq.
    + unfold isDir. by rewrite lookup_insert_ne.
Qed.

Lemma isDir_None (fs : gmap string Node) p : fs !! p = None -> isDir fs p = true -> False.
Proof. unfold isDir. by intros ->. Qed.

Lemma isDir_File (fs : gmap string Node) p d m :
  fs !! p = Some (NFile d m) -> isDir fs p = true -> False.
Proof. unfold isDir. by intros ->. Qed.

Lemma Mkdir_frame root fs p perm :
  under root p -> frame root fs (Mkdir fs p perm).1.
Proof.
  intros Hp. unfold Mkdir. destruct (fs !! p) eqn:E; [apply frame_refl|].
  destruct (parentReady fs p); [apply frame_refl|]. simpl.
  apply frame_insert; [done|]. intros H. by destruct (isDir_None _ _ E).
Qed.

Lemma parentOf_under root p parent :
  HasPrefix p (root +:+ Separator) = true -> parentOf p = Some parent -> under root parent.
Proof.
  intros H. apply HasPrefix_inv in H as [t ->]. unfold parentOf, Separator.
  rewrite sapp_assoc.
  destruct (beforeLastSlash_app root t) as (b & -> & Hb).
  destruct b as [|c b].
  - destruct (String.eqb _ "/"); [done|]. intros [= <-].
    destruct Hb as [<-|[t' Hb]]; [by right | by destruct root].
  - intros [= <-]. destruct Hb as [->|[t' ->]]; [by left|].
    right. unfold Separator. rewrite <- sapp_assoc. apply HasPrefix_app.
Qed.

Lemma MkdirAllFrom_frame root fuel fs p perm :
  isDir fs root = true -> under root p ->
  frame root fs (MkdirAllFrom fuel fs p perm).1.
Proof.
  revert fs p. induction fuel as [|fuel IH]; intros fs p Hroot Hp; simpl.
  - destruct (fs !! p) as [[]|]; try apply frame_refl.
    destruct (parentOf p); by apply Mkdir_frame.
  - destruct (fs !! p) as [[]|] eqn:E; try apply frame_refl.
    destruct (parentOf p) as [parent|] eqn:Epar; [|by apply Mkdir_frame].
    assert (under root parent) as Hpar.
    { destruct Hp as [->|Hp]; [by destruct (isDir_None _ _ E)|].
      by apply (parentOf_under _ p). }
    specialize (IH fs parent Hroot Hpar).
    destruct (MkdirAllFrom fuel fs parent perm) as [fs' [e|]]; [done|].
    eapply frame_trans; [exact IH|]. by apply Mkdir_frame.
Qed.

Lemma parentOf_shorter (p parent : string) :
  parentOf p = Some parent -> (String.length parent < String.length p)%nat.
Proof.
  unfold parentOf. destruct (beforeLastSlash p) as [b|] eqn:E; [|done].
  destruct (beforeLastSlash_Some _ _ E) as [last ->]. clear E.
  rewrite !slength_app. destruct b as [|c b].
  - destruct (String.eqb_spec ("" +:+ "/" +:+ last) "/") as [|Hne]; [done|].
    intros [= <-]. destruct last; [done|]. simpl. lia.
  - intros [= <-]. simpl. lia.
Qed.

(** Any fuel of at least the length of the path gives the same result: the
    recursion of [MkdirAll] never runs out. *)
Lemma MkdirAllFrom_fuel fuel fs p perm :
  (String.length p <= fuel)%nat -> MkdirAllFrom fuel fs p perm = MkdirAll fs p perm.
Proof.
  unfold MkdirAll.
  enough (forall n m q fs0, (String.length q <= n)%nat -> (String.length q <= m)%nat ->
            MkdirAllFrom n fs0 q perm = MkdirAllFrom m fs0 q perm) as H
    by (intros Hle; by apply H).
  induction n as [|n IH]; intros m q fs0 Hn Hm.
  - destruct q; [|simpl in Hn; lia]. by destruct m.
  - destruct m as [|m]; [destruct q; [done | simpl in Hm; lia]|]. simpl.
    destruct (fs0 !! q) as [[]|]; try done.
    destruct (parentOf q) as [parent|] eqn:Epar; [|done].
    apply parentOf_shorter in Epar. by rewrite (IH m parent fs0) by lia.
Qed.

Lemma MkdirAll_frame root fs p perm :
  isDir fs root = true -> under root p -> frame root fs (MkdirAll fs p perm).1.
Proof. apply MkdirAllFrom_frame. Qed.

Lemma MkdirAll_isDir fs p perm :
  isDir fs p = true -> MkdirAll fs p perm = (fs, None).
Proof.
  intros H. apply isDir_true in H as [m H]. unfold MkdirAll.
  destruct (String.length p); simpl; by rewrite H.
Qed.

Lemma OpenFile_frame root fs p perm : under root p -> frame root fs (OpenFile fs p perm).1.
Proof.
  intros Hp. unfold OpenFile. destruct (fs !! p) as [[]|] eqn:E; try apply frame_refl.
  - simpl. apply frame_insert; [done|]. intros H. by destruct (isDir_File _ _ _ _ E).
  - destruct (parentReady fs p); [apply frame_refl|]. simpl.
    apply frame_insert; [done|]. intros H. by destruct (isDir_None _ _ E).
Qed.

Lemma Write_frame root fs p data : under root p -> frame root fs (Write fs p data).
Proof.
  intros Hp. unfold Write. destruct (fs !! p) as [[]|] eqn:E; try apply frame_refl.
  apply frame_insert; [done|]. intros H. by destruct (isDir_File _ _ _ _ E).
Qed.

Lemma Chmod_frame root fs p mode : under root p -> frame root fs (Chmod fs p mode).1.
Proof.
  intros Hp. unfold Chmod. destruct (fs !! p) as [[]|] eqn:E; try apply frame_refl; simpl.
  - apply frame_insert; [done|]. intros H. by destruct (isDir_File _ _ _ _ E).
  - apply frame_insert; [done|]. eauto.
Qed.

(** The parent directory computed by [filepath.Dir] for a cleaned path
    below the root is the root or below it. *)
Lemma Dir_under root x :
  HasPrefix (Clean x) (root +:+ Separator) = true -> under root (Dir (Clean x)).
Proof.
  intros H. destruct (HasPrefix_inv _ _ H) as [t Et].
  unfold Separator in Et. rewrite sapp_assoc in Et.
  destruct (beforeLastSlash_app root t) as (b & Eb & Hb). rewrite <- Et in Eb.
  rewrite (Dir_of_Clean _ _ Eb).
  destruct (String.eqb_spec b "") as [->|Hne].
  - destruct Hb as [<-|[t' Hb]]; [by right | by destruct root].
  - destruct Hb as [->|[t' ->]]; [by left|].
    right. unfold Separator. rewrite <- sapp_assoc. apply HasPrefix_app.
Qed.

End OSFacts.

(** * The extractor *)

Module ExtractorFacts.
Import Notions.
Import Strings Filepath IO OS Extractor StringFacts CleanFacts OSFacts.
Local Open Scope list_scope.

Lemma Join_Clean (a b : string) : Join a b = "" \/ exists x, Join a b = Clean x.
Proof.
  unfold Join. destruct (String.eqb a ""); [destruct (String.eqb b "")|]; eauto.
Qed.

Lemma sanitizePath_unfold name dstDir :
  sanitizePath name dstDir =
  if Contains (relativeName name) ".." then Err (ErrorString "path traversal detected")
  else if negb (HasPrefix (Join dstDir (relativeName name)) (dstDir +:+ Separator))
          && negb (String.eqb (Join dstDir (relativeName name)) dstDir)
  then Err (ErrorString "path escapes destination directory")
  else Ok (Join dstDir (relativeName name)).
Proof. reflexivity. Qed.

(** An accepted path is the root, or a cleaned path below it. *)
Lemma sanitizePath_Ok name root p :
  sanitizePath name root = Ok p ->
  p = root \/ (HasPrefix p (root +:+ Separator) = true /\ exists x, p = Clean x).
Proof.
  rewrite sanitizePath_unfold. destruct (Contains _ _); [done|].
  destruct (HasPrefix _ _) eqn:Hpre; simpl.
  - intros [= <-]. right. split; [done|].
    destruct (Join_Clean root (relativeName name)) as [E|]; [|done].
    rewrite E in Hpre. by destruct root.
  - destruct (String.eqb_spec (Join root (relativeName name)) root); [|done].
    intros [= <-]. by left.
Qed.

Lemma sanitizePath_under name root p : sanitizePath name root = Ok p -> under root p.
Proof. intros H. destruct (sanitizePath_Ok _ _ _ H) as [->|[? _]]; [by left | by right]. Qed.

Lemma extractFile_frame root fs p body mode :
  isDir fs root = true -> isDir fs (Dir root) = true ->
  p = root \/ (HasPrefix p (root +:+ Separator) = true /\ exists x, p = Clean x) ->
  frame root fs (extractFile body p mode fs).1.
Proof.
  intros Hroot Hparent Hp.
  assert (under root p) as Hu by (destruct Hp as [->|[? _]]; [by left | by right]).
  unfold extractFile.
  assert (frame root fs (MkdirAll fs (Dir p) mode0755).1) as F1.
  { destruct Hp as [->|[Hpre [x ->]]].
    - rewrite MkdirAll_isDir by done. apply frame_refl.
    - apply MkdirAll_frame; [done|]. by apply Dir_under. }
  destruct (MkdirAll fs (Dir p) mode0755) as [fs1 [e1|]]; [done|]. simpl in F1.
  pose proof (OpenFile_frame root fs1 p mode0600 Hu) as F2.
  destruct (OpenFile fs1 p mode0600) as [fs2 [e2|]]; simpl in F2;
    [by eapply frame_trans|].
  destruct (Copy (LimitReader body maxFileSize)) as [written cerr].
  pose proof (Write_frame root fs2 p written Hu) as F3.
  assert (frame root fs (Write fs2 p written)) as F by (repeat (eapply frame_trans; [eassumption|]); apply frame_refl).
  destruct cerr; [done|].
  eapply frame_trans; [exact F|]. by apply Chmod_frame.
Qed.

Lemma extractEntry_frame root header body s :
  isDir (files s) root = true -> isDir (files s) (Dir root) = true ->
  frame root (files s) (files (extractEntry root header body s).1).
Proof.
  intros Hroot Hparent. unfold extractEntry.
  destruct (sanitizePath (Tar.Name header) root) as [p|e] eqn:Es; [|apply frame_refl].
  repeat (match goal with |- context [if ?c then _ else _] => destruct c end;
          [try apply frame_refl|]); try apply frame_refl.
  - pose proof (MkdirAll_frame root (files s) p mode0755 Hroot (sanitizePath_under _ _ _ Es)) as F.
    by destruct (MkdirAll (files s) p mode0755) as [fs [e|]].
  - pose proof (extractFile_frame root (files s) p body (Tar.Mode header) Hroot Hparent
                  (sanitizePath_Ok _ _ _ Es)) as F.
    by destruct (extractFile body p (Tar.Mode header) (files s)) as [fs [e|]].
Qed.

Lemma extractAll_frame root tr s :
  isDir (files s) root = true -> isDir (files s) (Dir root) = true ->
  frame root (files s) (files (extractAll root tr s).1).
Proof.
  revert s. induction tr as [| |header body rest IH]; intros s Hroot Hparent; simpl;
    try apply frame_refl.
  pose proof (extractEntry_frame root header body s Hroot Hparent) as F.
  destruct (extractEntry root header body s) as [s1 [e|]]; [done|]. simpl in F.
  eapply frame_trans; [exact F|]. destruct F as [_ Fd]. apply IH; by apply Fd.
Qed.

(** A rejected path: nothing is created and the loop goes on. *)
Lemma extractEntry_rejected root header body s err :
  sanitizePath (Tar.Name header) root = Err err ->
  extractEntry root header body s
  = (logf (SkippingDangerousPath (Tar.Name header) err) s, None).
Proof. intros H. unfold extractEntry. by rewrite H. Qed.

End ExtractorFacts.

(** * Properties of the extraction engine *)

Module ExtractionClaims.
Import Notions.
Import Strings Filepath IO OS Extractor StringFacts CleanFacts OSFacts ExtractorFacts.
Local Open Scope list_scope.

(** C1. Path confinement. With the destination resolved to [root], an
    existing directory inside its parent directory, every file-system
    object that [SafeExtract] creates or changes is [root] itself or a path
    that begins with [root] followed by the separator; and an entry whose
    cleaned relative name still has a [..] element, or whose join with the
    root fails that prefix test, is rejected: only a line is logged, no
    object is created and no error is returned. *)
Theorem SafeExtract_confined_to_root
    (wd : option string) (r : Tar.Stream) (dstDir root : string) (s : Sys) :
  Abs wd dstDir = Some root ->
  isDir (files s) root = true ->
  isDir (files s) (Dir root) = true ->
  (forall q : string,
      files (SafeExtract wd r dstDir s).1 !! q <> files s !! q ->
      q = root \/ HasPrefix q (root +:+ Separator) = true)
  /\ (forall (header : Tar.Header) (body : Reader) (st : Sys),
        let clean := TrimPrefix (TrimPrefix (Clean (Tar.Name header)) "/") "./" in
        In ".." (SplitSlash clean)
        \/ (HasPrefix (Join root clean) (root +:+ Separator) = false
            /\ Join root clean <> root) ->
        exists err,
          extractEntry root header body st
          = (logf (SkippingDangerousPath (Tar.Name header) err) st, None)).
Proof.
  intros Habs Hroot Hparent. split.
  - intros q Hq. unfold SafeExtract in Hq. rewrite Habs in Hq.
    destruct (extractAll_frame root r s Hroot Hparent) as [Hout _].
    destruct (decide (q = root)) as [|Hne]; [by left|].
    destruct (HasPrefix q (root +:+ Separator)) eqn:Hpre; [by right|].
    exfalso. apply Hq, Hout. intros [?|?]; congruence.
  - intros header body st clean Hbad.
    assert (exists err, sanitizePath (Tar.Name header) root = Err err) as [err Herr].
    { rewrite sanitizePath_unfold. fold (relativeName (Tar.Name header)) in clean.
      subst clean. destruct Hbad as [Hdots|[Hpre Hne]].
      - rewrite (In_SplitSlash_Contains _ _ Hdots). eauto.
      - destruct (Contains _ _); [eauto|].
        rewrite Hpre. apply String.eqb_neq in Hne. rewrite Hne. simpl. eauto. }
    exists err. by apply extractEntry_rejected.
Qed.

Lemma extractEntry_disallowed root header body s :
  disallowedType (Tar.Typeflag header) ->
  exists line, extractEntry root header body s = (logf line s, None).
Proof.
  intros Htf. unfold extractEntry.
  destruct (sanitizePath _ _); [|eauto].
  destruct Htf as [-> | [-> | [-> | [-> | ->]]]]; eauto.
Qed.

(** C4. An entry that is a symlink, hardlink, character device, block
    device or FIFO creates nothing: the body of the loop leaves the file
    system as it was, returns no error, and the loop goes on with the
    entries that follow. *)
Theorem disallowed_types_are_skipped
    (root : string) (header : Tar.Header) (body : Reader) (rest : Tar.Stream) (s : Sys) :
  Tar.Typeflag header = Tar.TypeSymlink \/ Tar.Typeflag header = Tar.TypeLink
  \/ Tar.Typeflag header = Tar.TypeChar \/ Tar.Typeflag header = Tar.TypeBlock
  \/ Tar.Typeflag header = Tar.TypeFifo ->
  exists s1 : Sys,
    extractEntry root header body s = (s1, None)
    /\ files s1 = files s
    /\ extractAll root (Tar.Entry header body rest) s = extractAll root rest s1.
Proof.
  intros Htf. destruct (extractEntry_disallowed root header body s Htf) as [line E].
  exists (logf line s). repeat split; [done|]. simpl. by rewrite E.
Qed.

(** C10, as amended. An entry whose type flag is none of the seven the
    loop names (regular file, directory, symlink, hardlink, character
    device, block device, FIFO) falls through every branch: nothing is
    created, no error is returned and the loop goes on with the next
    entry. Nothing is logged when its path is accepted; when its path is
    rejected the warning about a dangerous path is written, as for an
    entry of any type. *)
Theorem unknown_types_are_ignored
    (root : string) (header : Tar.Header) (body : Reader) (rest : Tar.Stream) (s : Sys) :
  Tar.Typeflag header <> Tar.TypeReg -> Tar.Typeflag header <> Tar.TypeDir ->
  Tar.Typeflag header <> Tar.TypeSymlink -> Tar.Typeflag header <> Tar.TypeLink ->
  Tar.Typeflag header <> Tar.TypeChar -> Tar.Typeflag header <> Tar.TypeBlock ->
  Tar.Typeflag header <> Tar.TypeFifo ->
  exists s1 : Sys,
    extractEntry root header body s = (s1, None)
    /\ files s1 = files s
    /\ (forall p, sanitizePath (Tar.Name header) root = Ok p -> s1 = s)
    /\ (forall err, sanitizePath (Tar.Name header) root = Err err ->
          s1 = logf (SkippingDangerousPath (Tar.Name header) err) s)
    /\ extractAll root (Tar.Entry header body rest) s = extractAll root rest s1.
Proof.
  intros H0 H5 H2 H1 H3 H4 H6.
  apply Ascii.eqb_neq in H0, H5, H2, H1, H3, H4, H6.
  assert (exists s1, extractEntry root header body s = (s1, None) /\ files s1 = files s
                     /\ (forall p, sanitizePath (Tar.Name header) root = Ok p -> s1 = s)
                     /\ (forall err, sanitizePath (Tar.Name header) root = Err err ->
                           s1 = logf (SkippingDangerousPath (Tar.Name header) err) s))
    as (s1 & E & Hf & Hs & Hr).
  { unfold extractEntry. destruct (sanitizePath _ _) as [p|err].
    - rewrite H0, H5, H2, H1, H3, H4, H6. simpl. exists s.
      split; [done|]. split; [done|]. split; [done|]. intros err' [=].
    - eexists. split; [reflexivity|]. split; [done|]. split; [intros p [=]|].
      by intros err' [= ->]. }
  exists s1. split; [done|]. split; [done|]. split; [done|]. split; [done|].
  simpl. by rewrite E.
Qed.

(** ** Reading through the size limit *)

Lemma Copy_delivered (r : Reader) : (Copy r).1 = delivered r.
Proof.
  induction r as [| |b r IH]; simpl; [done..|].
  destruct (Copy r) as [w e]. simpl in *. by rewrite IH.
Qed.

Lemma Copy_LimitReader_take (r : Reader) (n : Z) :
  (Copy (LimitReader r n)).1 = take (Z.to_nat n) (delivered r).
Proof.
  revert n. induction r as [| |b r IH]; intros n; simpl.
  - by destruct (Z.to_nat n).
  - destruct (n <=? 0); by destruct (Z.to_nat n).
  - destruct (Z.leb_spec n 0) as [Hn|Hn]; simpl.
    + by replace (Z.to_nat n) with 0%nat by lia.
    + specialize (IH (n - 1)). destruct (Copy (LimitReader r (n - 1))) as [w e].
      simpl in *. rewrite IH. replace (Z.to_nat n) with (S (Z.to_nat (n - 1))) by lia.
      done.
Qed.

Lemma Copy_LimitReader_length (r : Reader) (n : Z) :
  0 <= n -> Z.of_nat (length (Copy (LimitReader r n)).1) <= n.
Proof.
  intros Hn. rewrite Copy_LimitReader_take, length_take. lia.
Qed.

(** Once the limit is reached the copy ends without error, whatever the
    underlying reader would do next. *)
Lemma Copy_LimitReader_full (r : Reader) (n : Z) :
  n <= Z.of_nat (length (delivered r)) -> (Copy (LimitReader r n)).2 = None.
Proof.
  revert n. induction r as [| |b r IH]; intros n; simpl.
  - done.
  - intros Hn. by destruct (Z.leb_spec n 0); [|lia].
  - intros Hn. destruct (Z.leb_spec n 0) as [|Hpos]; [done|]. simpl.
    specialize (IH (n - 1)). destruct (Copy (LimitReader r (n - 1))) as [w e].
    simpl in *. apply IH. lia.
Qed.

(** ** The steps of [extractFile] *)

Lemma OpenFile_ok fs p perm fs2 :
  OpenFile fs p perm = (fs2, None) ->
  exists perm0, fs2 = <[p := NFile [] perm0]> fs.
Proof.
  unfold OpenFile. destruct (fs !! p) as [[data old|]|]; [|done|].
  - intros [= <-]. eauto.
  - destruct (parentReady fs p); [done|]. intros [= <-]. eauto.
Qed.

Lemma extractFile_opened fs p body mode fs1 fs2 :
  MkdirAll fs (Dir p) mode0755 = (fs1, None) ->
  OpenFile fs1 p mode0600 = (fs2, None) ->
  let written := (Copy (LimitReader body maxFileSize)).1 in
  match (Copy (LimitReader body maxFileSize)).2 with
  | Some err =>
      exists perm0,
        extractFile body p mode fs = (<[p := NFile written perm0]> fs2, Some err)
  | None =>
      extractFile body p mode fs
      = (<[p := NFile written (Z.land (mode mod 2 ^ 32) mode0755)]> fs2, None)
  end.
Proof.
  intros E1 E2 written. unfold extractFile. rewrite E1, E2.
  destruct (OpenFile_ok _ _ _ _ E2) as [perm0 ->]. subst written.
  destruct (Copy (LimitReader body maxFileSize)) as [w [e|]]; simpl.
  - exists perm0. unfold Write. rewrite lookup_insert_eq. simpl.
    by rewrite insert_insert_eq.
  - unfold Write, Chmod. rewrite lookup_insert_eq. simpl.
    rewrite lookup_insert_eq. by rewrite !insert_insert_eq.
Qed.

Lemma extractEntry_Dir root header body s p :
  sanitizePath (Tar.Name header) root = Ok p ->
  Tar.Typeflag header = Tar.TypeDir ->
  extractEntry root header body s
  = match MkdirAll (files s) p mode0755 with
    | (fs, Some err) =>
        (withFiles s fs, Some (Wrapped ("failed to create directory " +:+ p) err))
    | (fs, None) => (withFiles s fs, None)
    end.
Proof. intros Hs Ht. unfold extractEntry. by rewrite Hs, Ht. Qed.

Lemma extractEntry_Reg root header body s p :
  sanitizePath (Tar.Name header) root = Ok p ->
  Tar.Typeflag header = Tar.TypeReg ->
  extractEntry root header body s
  = match extractFile body p (Tar.Mode header) (files s) with
    | (fs, Some err) =>
        (withFiles s fs, Some (Wrapped ("failed to extract file " +:+ p) err))
    | (fs, None) => (withFiles s fs, None)
    end.
Proof. intros Hs Ht. unfold extractEntry. by rewrite Hs, Ht. Qed.

(** What makes the body of the loop return an error. *)
Lemma extractEntry_error root header body s s1 err :
  extractEntry root header body s = (s1, Some err) ->
  exists p, sanitizePath (Tar.Name header) root = Ok p
    /\ ((Tar.Typeflag header = Tar.TypeDir
          /\ (MkdirAll (files s) p mode0755).2 <> None)
        \/ (Tar.Typeflag header = Tar.TypeReg
            /\ (extractFile body p (Tar.Mode header) (files s)).2 <> None)).
Proof.
  unfold extractEntry. destruct (sanitizePath _ _) as [p|]; [|done].
  intros H. exists p. split; [done|]. revert H.
  repeat (match goal with |- context [if ?c then _ else _] => destruct c eqn:? end;
          [done|]).
  destruct (Ascii.eqb_spec (Tar.Typeflag header) Tar.TypeDir) as [Hd|_].
  - destruct (MkdirAll _ _ _) as [fs [e|]]; [|done]. intros _. by left.
  - destruct (Ascii.eqb_spec (Tar.Typeflag header) Tar.TypeReg) as [Hr|_]; [|done].
    destruct (extractFile _ _ _ _) as [fs [e|]]; [|done]. intros _. by right.
Qed.

Lemma extractAll_error_failure root r s :
  (extractAll root r s).2 <> None -> StreamOrWriteFailure root r s.
Proof.
  revert s. induction r as [| |header body rest IH]; intros s; simpl; [done | constructor |].
  destruct (extractEntry root header body s) as [s1 [e|]] eqn:E.
  - intros _. destruct (extractEntry_error _ _ _ _ _ _ E) as (p & Hs & [[Ht Hm]|[Ht Hx]]).
    + by eapply DirectoryFails.
    + destruct (MkdirAll (files s) (Dir p) mode0755) as [fs1 [e1|]] eqn:E1.
      { eapply ParentFails; [done..|]. by rewrite E1. }
      destruct (OpenFile fs1 p mode0600) as [fs2 [e2|]] eqn:E2.
      { eapply OpenFails; [done..|]. by rewrite E2. }
      pose proof (extractFile_opened _ _ body (Tar.Mode header) _ _ E1 E2) as Hf.
      simpl in Hf. destruct (Copy (LimitReader body maxFileSize)).2 eqn:Ec.
      * eapply BodyFails; [done..|]. by rewrite Ec.
      * by rewrite Hf in Hx.
  - intros H. eapply LaterFails; [done|]. by apply IH.
Qed.

Lemma extractAll_failure_error root r s :
  StreamOrWriteFailure root r s -> (extractAll root r s).2 <> None.
Proof.
  induction 1 as [e s | header body rest s p Hs Ht Hm | header body rest s p Hs Ht Hm
                  | header body rest s p fs1 Hs Ht E1 Ho
                  | header body rest s p fs1 fs2 Hs Ht E1 E2 Hc
                  | header body rest s s1 E _ IH]; simpl.
  - done.
  - rewrite (extractEntry_Dir _ _ _ _ _ Hs Ht).
    by destruct (MkdirAll (files s) p mode0755) as [fs [e|]].
  - rewrite (extractEntry_Reg _ _ _ _ _ Hs Ht). unfold extractFile.
    by destruct (MkdirAll (files s) (Dir p) mode0755) as [fs [e|]].
  - rewrite (extractEntry_Reg _ _ _ _ _ Hs Ht). unfold extractFile. rewrite E1.
    by destruct (OpenFile fs1 p mode0600) as [fs [e|]].
  - rewrite (extractEntry_Reg _ _ _ _ _ Hs Ht).
    pose proof (extractFile_opened _ _ body (Tar.Mode header) _ _ E1 E2) as Hf.
    simpl in Hf. destruct (Copy (LimitReader body maxFileSize)).2; [|done].
    destruct Hf as [perm0 ->]. done.
  - by rewrite E.
Qed.

(** C5. With the destination resolved, [SafeExtract] returns an error
    exactly when reading the stream fails (at a header, or inside the body
    of a regular file being copied) or a directory or file cannot be
    created; an entry rejected for its path or for its type never makes it
    return an error: the entry is dropped, the file system is left as it
    was, and the loop goes on. *)
Theorem SafeExtract_error_iff_stream_or_write_failure
    (wd : option string) (r : Tar.Stream) (dstDir root : string) (s : Sys) :
  Abs wd dstDir = Some root ->
  ((SafeExtract wd r dstDir s).2 <> None <-> StreamOrWriteFailure root r s)
  /\ (forall (header : Tar.Header) (body : Reader) (rest : Tar.Stream) (st : Sys),
        (exists err, sanitizePath (Tar.Name header) root = Err err)
        \/ Tar.Typeflag header = Tar.TypeSymlink \/ Tar.Typeflag header = Tar.TypeLink
        \/ Tar.Typeflag header = Tar.TypeChar \/ Tar.Typeflag header = Tar.TypeBlock
        \/ Tar.Typeflag header = Tar.TypeFifo ->
        exists st1 : Sys,
          extractEntry root header body st = (st1, None)
          /\ files st1 = files st
          /\ extractAll root (Tar.Entry header body rest) st = extractAll root rest st1).
Proof.
  intros Habs. split.
  - unfold SafeExtract. rewrite Habs. split.
    + apply extractAll_error_failure.
    + apply extractAll_failure_error.
  - intros header body rest st Hbad.
    assert (exists line, extractEntry root header body st = (logf line st, None))
      as [line E].
    { destruct Hbad as [[err Herr]|Htf].
      - eexists. by apply extractEntry_rejected.
      - by apply extractEntry_disallowed. }
    exists (logf line st). repeat split; [done|]. simpl. by rewrite E.
Qed.

(** C9. For a regular-file entry whose file could be opened, the bytes
    written to it are the first [maxFileSize] = 10 GiB bytes the entry
    delivers, so never more than 10 GiB; and when the entry delivers that
    much or more, the copy ends at the limit without error and the loop
    goes on with the remaining entries. *)
Theorem extracted_file_is_capped
    (root : string) (header : Tar.Header) (body : Reader) (rest : Tar.Stream)
    (s : Sys) (p : string) (fs1 fs2 : gmap string Node) :
  sanitizePath (Tar.Name header) root = Ok p ->
  Tar.Typeflag header = Tar.TypeReg ->
  MkdirAll (files s) (Dir p) mode0755 = (fs1, None) ->
  OpenFile fs1 p mode0600 = (fs2, None) ->
  let written := (Copy (LimitReader body maxFileSize)).1 in
  maxFileSize = 10 * 2 ^ 30
  /\ written = take (Z.to_nat maxFileSize) (delivered body)
  /\ Z.of_nat (length written) <= maxFileSize
  /\ (exists perm,
        files (extractEntry root header body s).1 !! p = Some (NFile written perm))
  /\ (maxFileSize <= Z.of_nat (length (delivered body)) ->
      exists s1 : Sys,
        extractEntry root header body s = (s1, None)
        /\ extractAll root (Tar.Entry header body rest) s = extractAll root rest s1).
Proof.
  intros Hs Ht E1 E2 written.
  pose proof (extractFile_opened _ _ body (Tar.Mode header) _ _ E1 E2) as Hf.
  simpl in Hf. fold written in Hf.
  split; [done|]. split; [apply Copy_LimitReader_take|].
  split; [by apply Copy_LimitReader_length|].
  rewrite (extractEntry_Reg _ _ _ _ _ Hs Ht). split.
  - destruct (Copy (LimitReader body maxFileSize)).2.
    + destruct Hf as [perm0 ->]. exists perm0. simpl. apply lookup_insert_eq.
    + rewrite Hf. eexists. simpl. apply lookup_insert_eq.
  - intros Hfull. rewrite (Copy_LimitReader_full _ _ Hfull) in Hf.
    eexists. split; [by rewrite Hf|]. simpl.
    by rewrite (extractEntry_Reg _ _ _ _ _ Hs Ht), Hf.
Qed.

End ExtractionClaims.

(** * Properties of the scan aggregation *)

Module ScannerClaims.
Import Notions.
Import Scanner.

Lemma hasOk_insert tools name t :
  tools !! name = None ->
  hasOk (<[name := t]> tools) <-> Models.ToolStatus t = "ok" \/ hasOk tools.
Proof.
  intros Hnone. split.
  - intros (n & u & Hl & Hu). destruct (decide (name = n)) as [->|Hne].
    + rewrite lookup_insert_eq in Hl. injection Hl as ->. by left.
    + rewrite lookup_insert_ne in Hl by done. right. by exists n, u.
  - intros [Ht|(n & u & Hl & Hu)].
    + exists name, t. by rewrite lookup_insert_eq.
    + exists n, u. split; [|done]. rewrite lookup_insert_ne; [done|]. by intros ->; congruence.
Qed.

Lemma hasIncomplete_insert tools name t :
  tools !! name = None ->
  hasIncomplete (<[name := t]> tools)
  <-> (Models.ToolStatus t = "failed" \/ Models.ToolStatus t = "timeout")
      \/ hasIncomplete tools.
Proof.
  intros Hnone. split.
  - intros (n & u & Hl & Hu). destruct (decide (name = n)) as [->|Hne].
    + rewrite lookup_insert_eq in Hl. injection Hl as ->. by left.
    + rewrite lookup_insert_ne in Hl by done. right. by exists n, u.
  - intros [Ht|(n & u & Hl & Hu)].
    + exists name, t. by rewrite lookup_insert_eq.
    + exists n, u. split; [|done]. rewrite lookup_insert_ne; [done|]. by intros ->; congruence.
Qed.

(** What the loop over the tools computes. *)
Lemma countTool_fold (partial0 : bool) (tools : gmap string Models.ToolResult) :
  let '(toolsOk, toolsFailed, partial) := map_fold countTool (0, 0, partial0) tools in
  0 <= toolsOk
  /\ (toolsOk = 0 <-> ~ hasOk tools)
  /\ (partial = true <-> partial0 = true \/ hasIncomplete tools).
Proof.
  apply (map_fold_weak_ind
    (fun (acc : Z * Z * bool) (m : gmap string Models.ToolResult) =>
       let '(toolsOk, toolsFailed, partial) := acc in
       0 <= toolsOk
       /\ (toolsOk = 0 <-> ~ hasOk m)
       /\ (partial = true <-> partial0 = true \/ hasIncomplete m))).
  - repeat split; try done.
    + intros _ (n & t & Hl & _). by rewrite lookup_empty in Hl.
    + intros H. by left.
    + intros [H|(n & t & Hl & _)]; [done|]. by rewrite lookup_empty in Hl.
  - intros name t m [[ok failed] partial] Hnone (Hpos & Hok & Hpart).
    unfold countTool.
    pose proof (hasOk_insert m name t Hnone) as HO.
    pose proof (hasIncomplete_insert m name t Hnone) as HI.
    destruct (String.eqb_spec (Models.ToolStatus t) "ok") as [E|E].
    { rewrite HO, HI. split; [lia|]. split; [split; [lia | tauto]|].
      rewrite Hpart, E. intuition congruence. }
    destruct (String.eqb_spec (Models.ToolStatus t) "failed") as [F|F]; simpl.
    { rewrite HO, HI. split; [lia|]. split; [tauto|]. tauto. }
    destruct (String.eqb_spec (Models.ToolStatus t) "timeout") as [T|T].
    { rewrite HO, HI. split; [lia|]. split; [tauto|]. tauto. }
    rewrite HO, HI. split; [lia|]. split; [tauto|]. rewrite Hpart. tauto.
Qed.

(** [calculateScore], field by field. *)
Lemma calculateScore_fields (r : Models.ScanResult) :
  exists toolsOk : Z,
    0 <= toolsOk
    /\ (toolsOk = 0 <-> ~ hasOk (Models.Tools r))
    /\ (Models.Partial (calculateScore r) = true
        <-> Models.Partial r = true \/ hasIncomplete (Models.Tools r))
    /\ Models.Tools (calculateScore r) = Models.Tools r
    /\ Models.ResultFindings (calculateScore r) = Models.ResultFindings r
    /\ Models.ResultScore (calculateScore r)
       = {| Models.Total := 0; Models.Grade := "A"; Models.Breakdown := ∅ |}
    /\ Models.Status (calculateScore r)
       = overallStatus (Z.of_nat (size (Models.Tools r))) toolsOk 0
           (Models.Partial (calculateScore r)).
Proof.
  pose proof (countTool_fold (Models.Partial r) (Models.Tools r)) as H.
  unfold calculateScore.
  destruct (map_fold countTool (0, 0, Models.Partial r) (Models.Tools r))
    as [[ok failed] partial].
  destruct H as (Hpos & Hok & Hpart). exists ok. simpl.
  do 6 (split; [done|]). done.
Qed.

(** ** The paths through [Run] *)

Lemma pullAndExtract_results w s sys :
  let r := results (pullAndExtract w s sys).1.1 in
  Models.Partial r = Models.Partial (results s)
  /\ Models.Tools r = Models.Tools (results s)
  /\ Models.Status r = Models.Status (results s).
Proof.
  unfold pullAndExtract.
  destruct (dockerPull w); [done|]. destruct (dockerInspect w); [|done].
  destruct (dockerCreate w); [|done]. destruct (stdoutPipe w); [done|].
  destruct (exportStart w); [done|].
  destruct (Extractor.SafeExtract _ _ _ _) as [sys1 [e|]]; [done|].
  by destruct (exportWait w).
Qed.

Lemma runScanners_partial w s :
  Models.Partial (results (runScanners w s)) = Models.Partial (results s).
Proof.
  unfold runScanners, runTrivy, runMalcontent, runMagika.
  destruct (SkipTrivy (opts s)); simpl;
    destruct (SkipMalcontent (opts s)); simpl;
    destruct (SkipMagika (opts s)); simpl; try done;
    by destruct (magikaCreate w).
Qed.

(** Every run either stops at one of the three early returns or reaches
    [calculateScore], after which only report generation or a FAIL status
    makes it return an error. *)
Lemma Run_cases (w : World) (o : ScanOptions) (sys : Extractor.Sys) :
  let out := Run w (New w o) sys in
  let r := results out.1.1 in
  (notScanned r
   /\ exists cause,
        out.2 = Some (Wrapped "failed to create work directory" cause)
        \/ out.2 = Some (Wrapped "failed to create rootfs directory" cause)
        \/ out.2 = Some (Wrapped "failed to pull/extract image" cause))
  \/ (exists r0, Models.Partial r0 = false /\ r = calculateScore r0
       /\ ((exists cause, out.2 = Some (Wrapped "failed to generate report" cause))
           \/ (out.2 = Some (ErrorString "scan completed with FAIL status")
               /\ Models.Status r = "FAIL")
           \/ (out.2 = None /\ Models.Status r <> "FAIL"))).
Proof.
  unfold Run.
  destruct (OS.Mkdir _ _ _) as [fs [e|]].
  { left. split; [done|]. exists e. by left. }
  unfold runInWorkDir.
  match goal with |- context [OS.MkdirAll ?a ?b ?c] => destruct (OS.MkdirAll a b c) as [fs1 [e|]] end.
  { left. split; [done|]. exists e. simpl. right. by left. }
  match goal with |- context [pullAndExtract w ?s0 ?sys0] =>
    pose proof (pullAndExtract_results w s0 sys0) as Hr;
    destruct (pullAndExtract w s0 sys0) as [[s1 sys1] [e|]] end; simpl in Hr.
  { left. split; [by destruct Hr as (? & ? & ?)|]. exists e. simpl. right. by right. }
  right.
  match goal with |- context [calculateScore ?r0] => exists r0 end.
  split.
  { simpl. rewrite runScanners_partial. by destruct Hr. }
  match goal with |- context [generateReport w ?s2 ?sy] =>
    destruct (generateReport w s2 sy) as [sys2 [e|]] end.
  { split; [done|]. left. by exists e. }
  simpl.
  match goal with |- context [String.eqb ?a "FAIL"] =>
    destruct (String.eqb_spec a "FAIL") as [E|E] end.
  - split; [done|]. right. left. by split.
  - split; [done|]. right. right. by split.
Qed.

Lemma overallStatus_cascade (enabledTools toolsOk score : Z) (partial : bool) :
  let status := overallStatus enabledTools toolsOk score partial in
  let noTrustworthySignal := enabledTools > 0 /\ toolsOk = 0 in
  (noTrustworthySignal -> status = "ERROR")
  /\ (~ noTrustworthySignal -> score > 100 -> status = "FAIL")
  /\ (~ noTrustworthySignal -> ~ score > 100 ->
      score > 30 \/ partial = true -> status = "WARN")
  /\ (~ noTrustworthySignal -> ~ score > 100 ->
      ~ (score > 30 \/ partial = true) -> status = "PASS").
Proof.
  intros status nts. subst status nts. unfold overallStatus.
  destruct (Z.gtb_spec enabledTools 0), (Z.eqb_spec toolsOk 0); simpl;
    destruct (Z.gtb_spec score 100), (Z.gtb_spec score 30); simpl;
    destruct partial; intuition (try lia; try done).
Qed.

(** The status [calculateScore] stores: ERROR when at least one tool
    is recorded (the code's [enabledTools]) and none of them reached ok;
    otherwise FAIL when the total exceeds 100; otherwise WARN when the total
    exceeds 30 or Partial is set; otherwise PASS. The status is the value
    of the if/else chain [overallStatus] at the number of recorded tools,
    a counter that is zero exactly when no tool is ok, the stored total
    and the stored Partial flag, and that chain is the same cascade for
    every total. *)
Theorem calculateScore_status_cascade (r : Models.ScanResult) :
  let r' := calculateScore r in
  let total := Models.Total (Models.ResultScore r') in
  let anyOk :=
    exists name t, Models.Tools r !! name = Some t /\ Models.ToolStatus t = "ok" in
  let noTrustworthySignal := (0 < size (Models.Tools r))%nat /\ ~ anyOk in
  ((noTrustworthySignal -> Models.Status r' = "ERROR")
   /\ (~ noTrustworthySignal -> total > 100 -> Models.Status r' = "FAIL")
   /\ (~ noTrustworthySignal -> ~ total > 100 ->
       total > 30 \/ Models.Partial r' = true -> Models.Status r' = "WARN")
   /\ (~ noTrustworthySignal -> ~ total > 100 ->
       ~ (total > 30 \/ Models.Partial r' = true) -> Models.Status r' = "PASS"))
  /\ (exists toolsOk : Z,
        (toolsOk = 0 <-> ~ anyOk)
        /\ Models.Status r'
           = overallStatus (Z.of_nat (size (Models.Tools r))) toolsOk total
               (Models.Partial r'))
  /\ (forall (enabledTools toolsOk score : Z) (partial : bool),
        let status := overallStatus enabledTools toolsOk score partial in
        let noSignal := enabledTools > 0 /\ toolsOk = 0 in
        (noSignal -> status = "ERROR")
        /\ (~ noSignal -> score > 100 -> status = "FAIL")
        /\ (~ noSignal -> ~ score > 100 -> score > 30 \/ partial = true ->
            status = "WARN")
        /\ (~ noSignal -> ~ score > 100 -> ~ (score > 30 \/ partial = true) ->
            status = "PASS")).
Proof.
  intros r' total anyOk nts.
  destruct (calculateScore_fields r) as (ok & Hpos & Hok & _ & _ & _ & Hscore & Hstatus).
  fold r' in Hscore, Hstatus. fold (hasOk (Models.Tools r)) in anyOk.
  assert (total = 0) as Htotal by (subst total; by rewrite Hscore).
  split; [|split; [|apply overallStatus_cascade]].
  - rewrite Hstatus, Htotal.
    pose proof (overallStatus_cascade (Z.of_nat (size (Models.Tools r))) ok 0
                  (Models.Partial r')) as (C1 & C2 & C3 & C4).
    assert (Z.of_nat (size (Models.Tools r)) > 0 /\ ok = 0 <-> nts) as Hnts.
    { subst nts anyOk. rewrite Hok. split; intros [? ?]; split; (lia || done). }
    rewrite Hnts in C1, C2, C3, C4. done.
  - exists ok. split; [done|]. by rewrite Htotal.
Qed.


Import Strings Filepath IO OS Extractor.

(** [Run] step by step. *)
Lemma Run_stages (w : World) (o : ScanOptions) (sys : Extractor.Sys) :
  let out := Run w (New w o) sys in
  match (workDirMade w sys).2 with
  | Some c =>
      out.2 = Some (Wrapped "failed to create work directory" c)
      /\ Models.Tools (results out.1.1) = ∅
  | None =>
  match (rootfsMade w sys).2 with
  | Some c =>
      out.2 = Some (Wrapped "failed to create rootfs directory" c)
      /\ Models.Tools (results out.1.1) = ∅
  | None =>
  match (acquired w o sys).2 with
  | Some c =>
      out.2 = Some (Wrapped "failed to pull/extract image" c)
      /\ Models.Tools (results out.1.1) = ∅
  | None =>
      results out.1.1 = results (scored w o sys)
      /\ out.2 = match (reported w o sys).2 with
                 | Some c => Some (Wrapped "failed to generate report" c)
                 | None =>
                     if String.eqb (Models.Status (results (scored w o sys))) "FAIL"
                     then Some (ErrorString "scan completed with FAIL status")
                     else None
                 end
  end end end.
Proof.
  unfold reported, scored, acquired, rootfsMade, workDirMade, inWorkDir, Run.
  destruct (OS.Mkdir (files sys) (tempDir w) mode0700) as [fs [e|]]; cbn [fst snd].
  { split; [done|]. unfold New. by destruct (String.eqb (ReportDir o) ""). }
  unfold runInWorkDir. cbn [opts workDir rootfsDir results files withFiles].
  destruct (OS.MkdirAll fs (Join (tempDir w) "rootfs") mode0755) as [fs1 [e|]];
    cbn [fst snd].
  { split; [done|]. unfold New. by destruct (String.eqb (ReportDir o) ""). }
  change (withFiles (withFiles sys fs) fs1) with (withFiles sys fs1).
  match goal with |- context [pullAndExtract w ?s0 ?sys0] =>
    pose proof (pullAndExtract_results w s0 sys0) as Hr;
    destruct (pullAndExtract w s0 sys0) as [[s1 sys1] [e|]] end;
    cbn [fst snd results] in *; cbv zeta in Hr.
  { split; [done|]. destruct Hr as (_ & -> & _).
    unfold New. by destruct (String.eqb (ReportDir o) ""). }
  match goal with |- context [generateReport w ?s2 ?sy] =>
    destruct (generateReport w s2 sy) as [sys2 [e|]] end; cbn [fst snd]; [done|].
  match goal with |- context [String.eqb ?a "FAIL"] => destruct (String.eqb a "FAIL") end;
    done.
Qed.

Lemma pullAndExtract_failure (w : World) (s : Scanner) (sys : Extractor.Sys) (cause : error) :
  (pullAndExtract w s sys).2 = Some cause ->
  (exists e, dockerPull w = Some e /\ cause = Wrapped "docker pull failed" e)
  \/ (exists e, dockerInspect w = Err e /\ cause = Wrapped "docker inspect failed" e)
  \/ (exists e, dockerCreate w = Err e /\ cause = Wrapped "docker create failed" e)
  \/ (exists e, stdoutPipe w = Some e /\ cause = Wrapped "failed to create pipe" e)
  \/ (exists e, exportStart w = Some e
                /\ cause = Wrapped "docker export failed to start" e)
  \/ (exists e, (SafeExtract (getwd w) (exported w) (rootfsDir s) sys).2 = Some e
                /\ cause = Wrapped "safe extraction failed" e)
  \/ (exists e, exportWait w = Some e /\ cause = Wrapped "docker export failed" e).
Proof.
  unfold pullAndExtract.
  destruct (dockerPull w) as [e|]; [intros [= <-]; eauto 10|].
  destruct (dockerInspect w) as [d|e]; [|intros [= <-]; eauto 10].
  destruct (dockerCreate w) as [c|e]; [|intros [= <-]; eauto 10].
  destruct (stdoutPipe w) as [e|]; [intros [= <-]; eauto 10|].
  destruct (exportStart w) as [e|]; [intros [= <-]; eauto 10|].
  cbn [rootfsDir withResults].
  destruct (SafeExtract (getwd w) (exported w) (rootfsDir s) sys) as [sys1 [e|]];
    [intros [= <-]; do 5 right; left; by exists e|].
  destruct (exportWait w) as [e|]; [intros [= <-]; do 6 right; by exists e|]. done.
Qed.

(** C6, as amended. [Run] returns an error exactly when one of its steps
    fails, every step before it having succeeded: the work directory or
    the rootfs directory cannot be created, pulling or extracting the image
    fails (a docker command, the extraction or the wait for the export),
    the report directory cannot be resolved or created, or the status is
    FAIL. A scan in which tool results were recorded and none of them is ok
    ends with status ERROR and exit code 3, and [Run] returns no error for
    it exactly when the report directory can be created; the only error it
    can return is that of the report directory. *)
Theorem Run_error_causes (w : World) (o : ScanOptions) (sys : Extractor.Sys) :
  let out := Run w (New w o) sys in
  let r := results out.1.1 in
  (forall e : error, out.2 = Some e <-> PipelineFailure w o sys e)
  /\ (forall cause : error,
        (acquired w o sys).2 = Some cause ->
        (exists e, dockerPull w = Some e /\ cause = Wrapped "docker pull failed" e)
        \/ (exists e, dockerInspect w = Err e /\ cause = Wrapped "docker inspect failed" e)
        \/ (exists e, dockerCreate w = Err e /\ cause = Wrapped "docker create failed" e)
        \/ (exists e, stdoutPipe w = Some e /\ cause = Wrapped "failed to create pipe" e)
        \/ (exists e, exportStart w = Some e
                      /\ cause = Wrapped "docker export failed to start" e)
        \/ (exists e, (SafeExtract (getwd w) (exported w) (Join (tempDir w) "rootfs")
                         (withFiles sys (rootfsMade w sys).1)).2 = Some e
                      /\ cause = Wrapped "safe extraction failed" e)
        \/ (exists e, exportWait w = Some e /\ cause = Wrapped "docker export failed" e))
  /\ ((reported w o sys).2 = None
      <-> exists dir fs,
            Abs (getwd w) (ReportDir (opts (New w o))) = Some dir
            /\ MkdirAll (files (acquired w o sys).1.2) dir mode0755 = (fs, None))
  /\ (Models.Tools r <> ∅ ->
      (forall name t, Models.Tools r !! name = Some t -> Models.ToolStatus t <> "ok") ->
      Models.Status r = "ERROR"
      /\ ExitCode out.1.1 = 3
      /\ (out.2 = None <-> (reported w o sys).2 = None)
      /\ (forall e : error,
            out.2 = Some e ->
            exists cause, (reported w o sys).2 = Some cause
                          /\ e = Wrapped "failed to generate report" cause)).
Proof.
  intros out r. subst r out.
  pose proof (Run_stages w o sys) as H. cbv zeta in H.
  split; [|split; [|split]].
  - intros e. split.
    + intros He.
      destruct (workDirMade w sys).2 as [c|] eqn:E1.
      { destruct H as [H _]. rewrite H in He. injection He as <-. by constructor. }
      destruct (rootfsMade w sys).2 as [c|] eqn:E2.
      { destruct H as [H _]. rewrite H in He. injection He as <-. by constructor. }
      destruct (acquired w o sys).2 as [c|] eqn:E3.
      { destruct H as [H _]. rewrite H in He. injection He as <-. by constructor. }
      destruct H as [_ H]. rewrite H in He.
      destruct (reported w o sys).2 as [c|] eqn:E4.
      { injection He as <-. by constructor. }
      destruct (String.eqb_spec (Models.Status (results (scored w o sys))) "FAIL");
        [|done].
      injection He as <-. by constructor.
    + intros Hf. destruct Hf as [c E1|c E1 E2|c E1 E2 E3|c E1 E2 E3 E4|E1 E2 E3 E4 E5];
        rewrite ?E1, ?E2, ?E3 in H.
      * by destruct H.
      * by destruct H.
      * by destruct H.
      * destruct H as [_ H]. by rewrite H, E4.
      * destruct H as [_ H]. by rewrite H, E4, E5.
  - intros cause Hc. unfold acquired in Hc.
    by apply pullAndExtract_failure in Hc.
  - unfold reported, generateReport. cbn [scored opts withResults].
    assert (Ho : opts (runScanners w (acquired w o sys).1.1) = opts (New w o)).
    { unfold runScanners, runTrivy, runMalcontent, runMagika.
      assert (Hk : opts (acquired w o sys).1.1 = opts (New w o)).
      { unfold acquired, pullAndExtract.
        destruct (dockerPull w); [done|]. destruct (dockerInspect w); [|done].
        destruct (dockerCreate w); [|done]. destruct (stdoutPipe w); [done|].
        destruct (exportStart w); [done|].
        destruct (Extractor.SafeExtract _ _ _ _) as [sys1 [e|]]; [done|].
        by destruct (exportWait w). }
      destruct (SkipTrivy (opts (acquired w o sys).1.1)); simpl;
        destruct (SkipMalcontent (opts (acquired w o sys).1.1)); simpl;
        destruct (SkipMagika (opts (acquired w o sys).1.1)); simpl; try done;
        by destruct (magikaCreate w). }
    unfold scored. cbn [opts withResults]. rewrite Ho.
    destruct (Abs (getwd w) (ReportDir (opts (New w o)))) as [dir|].
    + destruct (MkdirAll (files (acquired w o sys).1.2) dir mode0755) as [fs [e|]] eqn:E;
        cbn [snd]; split; try done.
      * intros (dir' & fs' & [= <-] & E'). rewrite E in E'. done.
      * intros _. by exists dir, fs.
    + cbn [snd]. split; [done|]. by intros (dir' & fs' & [=] & _).
  - intros Hne Hnone.
    destruct (workDirMade w sys).2 as [c|]; [by destruct H as [_ H]|].
    destruct (rootfsMade w sys).2 as [c|]; [by destruct H as [_ H]|].
    destruct (acquired w o sys).2 as [c|]; [by destruct H as [_ H]|].
    destruct H as [Hr He]. rewrite Hr in Hne, Hnone |- *.
    assert (Hst : Models.Status (results (scored w o sys)) = "ERROR").
    { unfold scored in *. cbn [results withResults] in *.
      match goal with |- Models.Status (calculateScore ?r0) = _ =>
        destruct (calculateScore_fields r0) as (ok & _ & Hok & _ & Htools & _ & _ & ->);
        rewrite Htools in Hne, Hnone;
        assert (ok = 0) as -> by
          (apply Hok; intros (name & t & Hl & Ht); by apply (Hnone name t));
        apply map_size_non_empty_iff in Hne;
        unfold overallStatus;
        destruct (Z.gtb_spec (Z.of_nat (size (Models.Tools r0))) 0); [done | lia]
      end. }
    split; [exact Hst|]. split.
    { unfold ExitCode. rewrite Hr, Hst. done. }
    rewrite He, Hst. destruct (reported w o sys).2 as [c|]; cbn.
    + split; [done|]. intros e [= <-]. by exists c.
    + split; [done|]. intros e [=].
Qed.

End ScannerClaims.

(** * Reproducing the archive *)

Module RoundTrip.
Import Notions.
Import Strings Filepath IO OS Extractor Scanner StringFacts CleanFacts OSFacts ExtractorFacts.
Import ExtractionClaims.
Local Open Scope list_scope.

Lemma HasPrefix_trans (p a q : string) :
  HasPrefix a q = true -> HasPrefix p a = true -> HasPrefix p q = true.
Proof.
  intros H1 H2. apply HasPrefix_inv in H1 as [t ->]. apply HasPrefix_inv in H2 as [t' ->].
  rewrite sapp_assoc. apply HasPrefix_app.
Qed.

Lemma walked_refl (q : string) : walked q q = true.
Proof. unfold walked. by rewrite String.eqb_refl. Qed.

Lemma walked_iff (q p : string) :
  walked q p = true
  <-> p = q \/ HasPrefix p (if String.eqb q "/" then "/" else q +:+ "/") = true.
Proof. unfold walked. rewrite orb_true_iff, String.eqb_eq. done. Qed.

(** What lies on the way to the parent lies on the way to the child. *)
Lemma walked_parent (q p parent : string) :
  parentOf p = Some parent -> walked q parent = true -> walked q p = true.
Proof.
  unfold parentOf. destruct (beforeLastSlash p) as [b|] eqn:E; [|done].
  destruct (beforeLastSlash_Some _ _ E) as [last ->]. clear E.
  intros Hpar Hw. apply walked_iff. right.
  assert (exists t, b +:+ "/" +:+ last = parent +:+ t
                    /\ (parent <> "/" -> t = "/" +:+ last)) as (t & Ep & Ht).
  { destruct b as [|c b].
    - destruct (String.eqb _ "/"); [done|]. injection Hpar as <-. by exists last.
    - injection Hpar as <-. by exists ("/" +:+ last). }
  rewrite Ep. apply walked_iff in Hw as [->|Hw].
  - destruct (String.eqb_spec q "/") as [->|Hq]; [apply HasPrefix_app|].
    rewrite (Ht Hq), <- sapp_assoc. apply HasPrefix_app.
  - eapply HasPrefix_trans; [exact Hw | apply HasPrefix_app].
Qed.

Lemma under_walked (root p : string) : under root p -> walked root p = true.
Proof.
  intros [->|H]; [apply walked_refl|]. apply walked_iff. right.
  destruct (String.eqb_spec root "/") as [->|]; [|done].
  apply HasPrefix_inv in H as [t ->]. done.
Qed.

Lemma grows_refl anchor fs : grows anchor fs fs.
Proof. split; [done|]. by intros q -> ?. Qed.

Lemma Mkdir_grows fs p perm : grows p fs (Mkdir fs p perm).1.
Proof.
  unfold Mkdir. destruct (fs !! p) eqn:E; [apply grows_refl|].
  destruct (parentReady fs p); [apply grows_refl|]. simpl. split.
  - intros q n Hq. rewrite lookup_insert_ne; [done|]. by intros ->; congruence.
  - intros q Hq Hq'. destruct (decide (p = q)) as [->|Hne]; [apply walked_refl|].
    by rewrite lookup_insert_ne in Hq'.
Qed.

Lemma MkdirAllFrom_grows fuel fs p perm : grows p fs (MkdirAllFrom fuel fs p perm).1.
Proof.
  revert fs p. induction fuel as [|fuel IH]; intros fs p; simpl.
  - destruct (fs !! p) as [[]|]; try apply grows_refl.
    destruct (parentOf p); apply Mkdir_grows.
  - destruct (fs !! p) as [[]|] eqn:E; try apply grows_refl.
    destruct (parentOf p) as [parent|] eqn:Epar; [|apply Mkdir_grows].
    specialize (IH fs parent).
    destruct (MkdirAllFrom fuel fs parent perm) as [fs' [e|]]; simpl in IH.
    + destruct IH as [K C]. split; [done|]. intros q Hq Hq'.
      by eapply walked_parent, C.
    + pose proof (Mkdir_grows fs' p perm) as [K2 C2]. destruct IH as [K C].
      split; [by auto|]. intros q Hq Hq'.
      destruct (fs' !! q) eqn:Eq'.
      * eapply walked_parent; [done|]. apply C; [done|]. by rewrite Eq'.
      * by apply C2.
Qed.

Lemma Mkdir_ok_isDir fs p perm fs' :
  Mkdir fs p perm = (fs', None) -> isDir fs' p = true.
Proof.
  unfold Mkdir. destruct (fs !! p); [done|]. destruct (parentReady fs p); [done|].
  intros [= <-]. unfold isDir. by rewrite lookup_insert_eq.
Qed.

Lemma MkdirAllFrom_ok_isDir fuel fs p perm fs' :
  MkdirAllFrom fuel fs p perm = (fs', None) -> isDir fs' p = true.
Proof.
  destruct fuel as [|fuel]; simpl.
  - destruct (fs !! p) as [[]|] eqn:E; [done| |].
    + intros [= <-]. unfold isDir. by rewrite E.
    + destruct (parentOf p); apply Mkdir_ok_isDir.
  - destruct (fs !! p) as [[]|] eqn:E; [done| |].
    + intros [= <-]. unfold isDir. by rewrite E.
    + destruct (parentOf p); [|apply Mkdir_ok_isDir].
      destruct (MkdirAllFrom fuel fs _ perm) as [fs1 [e|]]; [done|].
      apply Mkdir_ok_isDir.
Qed.

(** [filepath.Dir] of a cleaned path with a separator is that path (the
    root) or its parent directory. *)
Lemma Dir_parentOf (x b : string) :
  beforeLastSlash (Clean x) = Some b ->
  Dir (Clean x) = Clean x \/ parentOf (Clean x) = Some (Dir (Clean x)).
Proof.
  intros E. rewrite (Dir_of_Clean _ _ E). unfold parentOf. rewrite E.
  destruct b as [|c b]; [|by right]. simpl.
  destruct (String.eqb_spec (Clean x) "/") as [->|]; [by left | by right].
Qed.

Lemma writesTo_true root q header :
  writesTo root q header = true
  <-> Tar.Typeflag header = Tar.TypeReg /\ sanitizePath (Tar.Name header) root = Ok q.
Proof.
  unfold writesTo. rewrite andb_true_iff, Ascii.eqb_eq.
  destruct (sanitizePath _ _) as [p|e]; [rewrite String.eqb_eq|]; split;
    intros [? ?]; split; congruence.
Qed.

Lemma extractEntry_cases root header body s p :
  sanitizePath (Tar.Name header) root = Ok p ->
  (Tar.Typeflag header = Tar.TypeDir
   /\ extractEntry root header body s
      = match MkdirAll (files s) p mode0755 with
        | (fs, Some err) =>
            (withFiles s fs, Some (Wrapped ("failed to create directory " +:+ p) err))
        | (fs, None) => (withFiles s fs, None)
        end)
  \/ (Tar.Typeflag header = Tar.TypeReg
      /\ extractEntry root header body s
         = match extractFile body p (Tar.Mode header) (files s) with
           | (fs, Some err) =>
               (withFiles s fs, Some (Wrapped ("failed to extract file " +:+ p) err))
           | (fs, None) => (withFiles s fs, None)
           end)
  \/ (Tar.Typeflag header <> Tar.TypeDir /\ Tar.Typeflag header <> Tar.TypeReg
      /\ exists s1, extractEntry root header body s = (s1, None) /\ files s1 = files s).
Proof.
  intros Hs.
  destruct (Ascii.eqb_spec (Tar.Typeflag header) Tar.TypeDir) as [Hd|Hd].
  { left. split; [done|]. by apply extractEntry_Dir. }
  destruct (Ascii.eqb_spec (Tar.Typeflag header) Tar.TypeReg) as [Hr|Hr].
  { right. left. split; [done|]. by apply extractEntry_Reg. }
  right. right. split; [done|]. split; [done|].
  unfold extractEntry. rewrite Hs.
  apply Ascii.eqb_neq in Hd, Hr. rewrite Hd, Hr.
  repeat (match goal with |- context [if ?c then _ else _] => destruct c end; eauto).
Qed.

(** What one successful pass through the loop body does to the files. *)
Lemma extractEntry_effect root header body s s1 :
  isDir (files s) root = true ->
  extractEntry root header body s = (s1, None) ->
  (forall q n, files s !! q = Some n -> writesTo root q header = false ->
               files s1 !! q = Some n)
  /\ (forall q perm, files s !! q = Some (NDir perm) -> files s1 !! q = Some (NDir perm))
  /\ (forall q, writesTo root q header = true ->
                files s1 !! q = Some (extracted header body))
  /\ (forall p, Tar.Typeflag header = Tar.TypeDir ->
                sanitizePath (Tar.Name header) root = Ok p -> isDir (files s1) p = true)
  /\ (forall q, files s !! q = None -> files s1 !! q <> None ->
                exists p, sanitizePath (Tar.Name header) root = Ok p /\ walked q p = true).
Proof.
  intros Hroot E.
  destruct (sanitizePath (Tar.Name header) root) as [p|err] eqn:Es.
  2:{ rewrite (extractEntry_rejected _ _ _ _ _ Es) in E. injection E as <-. simpl.
      split; [|split; [|split; [|split]]].
      - by intros q n Hq _.
      - by intros q perm Hq.
      - intros q Hq. apply writesTo_true in Hq as [_ Hq]. congruence.
      - intros p Hp. done.
      - intros q Hq Hq'. congruence. }
  destruct (extractEntry_cases root header body s p Es)
    as [[Ht Ee]|[[Ht Ee]|(Hd & Hr & s1' & Ee & Hf)]]; rewrite Ee in E; clear Ee.
  - (* a directory *)
    pose proof (MkdirAllFrom_grows (String.length p) (files s) p mode0755) as [K C].
    pose proof (MkdirAllFrom_ok_isDir (String.length p) (files s) p mode0755) as D.
    fold (MkdirAll (files s) p mode0755) in K, C, D.
    destruct (MkdirAll (files s) p mode0755) as [fs1 [e|]]; [done|].
    injection E as <-. simpl in *. split; [|split; [|split; [|split]]].
    + intros q n Hq _. by apply K.
    + intros q perm Hq. by apply K.
    + intros q Hq. apply writesTo_true in Hq as [Hq _]. rewrite Ht in Hq. done.
    + intros p' _ [= <-]. by apply D.
    + intros q Hq Hq'. exists p. split; [done|]. by apply C.
  - (* a regular file *)
    destruct (extractFile body p (Tar.Mode header) (files s)) as [fsx [e|]] eqn:Ex; [done|].
    injection E as <-. simpl.
    pose proof (MkdirAllFrom_grows (String.length (Dir p)) (files s) (Dir p) mode0755)
      as [K C].
    fold (MkdirAll (files s) (Dir p) mode0755) in K, C.
    destruct (MkdirAll (files s) (Dir p) mode0755) as [fs1 [e1|]] eqn:E1;
      [unfold extractFile in Ex; by rewrite E1 in Ex|].
    destruct (OpenFile fs1 p mode0600) as [fs2 [e2|]] eqn:E2;
      [unfold extractFile in Ex; by rewrite E1, E2 in Ex|].
    pose proof (extractFile_opened _ _ body (Tar.Mode header) _ _ E1 E2) as Hf.
    simpl in Hf, K, C. rewrite Copy_LimitReader_take in Hf.
    destruct (Copy (LimitReader body maxFileSize)).2;
      [destruct Hf as [? Hf]; congruence|].
    rewrite Ex in Hf. apply pair_equal_spec in Hf as [-> _].
    destruct (OpenFile_ok _ _ _ _ E2) as [perm0 ->]. rewrite insert_insert_eq.
    assert (forall perm, fs1 !! p <> Some (NDir perm)) as Hnd.
    { intros perm Hp. unfold OpenFile in E2. by rewrite Hp in E2. }
    assert (forall q, writesTo root q header = false -> p <> q) as Hw.
    { intros q Hq ->. assert (writesTo root q header = true) by by apply writesTo_true.
      congruence. }
    split; [|split; [|split; [|split]]].
    + intros q n Hq Hwq. rewrite lookup_insert_ne by by apply Hw. by apply K.
    + intros q perm Hq. rewrite lookup_insert_ne; [by apply K|].
      intros ->. by apply (Hnd perm), K.
    + intros q Hq. apply writesTo_true in Hq as [_ Hq]. rewrite Es in Hq.
      injection Hq as ->. by rewrite lookup_insert_eq.
    + intros p' Hd. rewrite Ht in Hd. done.
    + intros q Hq Hq'. exists p. split; [done|].
      destruct (decide (p = q)) as [->|Hne]; [apply walked_refl|].
      rewrite lookup_insert_ne in Hq' by done. specialize (C q Hq Hq').
      destruct (sanitizePath_Ok _ _ _ Es) as [->|[Hpre [x ->]]].
      { exfalso. apply isDir_true in Hroot as [perm Hroot]. by apply (Hnd perm), K. }
      destruct (HasPrefix_inv _ _ Hpre) as [t Et]. unfold Separator in Et.
      rewrite sapp_assoc in Et.
      destruct (beforeLastSlash_app root t) as (b & Eb & _). rewrite <- Et in Eb.
      destruct (Dir_parentOf x b Eb) as [Ed|Ed]; [by rewrite Ed in C|].
      by eapply walked_parent.
  - (* any other type *)
    injection E as <-. rewrite Hf. split; [|split; [|split; [|split]]].
    + by intros q n Hq _.
    + by intros q perm Hq.
    + intros q Hq. apply writesTo_true in Hq as [Hq _]. done.
    + intros p' Hp'. done.
    + intros q Hq Hq'. congruence.
Qed.

Lemma lastRegular_Some root q tr header body :
  lastRegular root q tr = Some (header, body) ->
  In (header, body) (entries tr)
  /\ Tar.Typeflag header = Tar.TypeReg
  /\ sanitizePath (Tar.Name header) root = Ok q.
Proof.
  induction tr as [| |h b rest IH]; simpl; [done..|].
  destruct (lastRegular root q rest) as [e'|].
  - intros [= ->]. destruct (IH eq_refl) as (? & ? & ?). auto.
  - destruct (writesTo root q h) eqn:W; [|done]. intros [= -> ->].
    apply writesTo_true in W as [? ?]. auto.
Qed.

Lemma lastRegular_of_entry root q tr header body :
  In (header, body) (entries tr) -> writesTo root q header = true ->
  exists e, lastRegular root q tr = Some e.
Proof.
  induction tr as [| |h b rest IH]; simpl; [done..|].
  intros [[= -> ->]|Hin] W.
  - destruct (lastRegular root q rest); [eauto|]. rewrite W. eauto.
  - destruct (IH Hin W) as [e ->]. eauto.
Qed.

(** A successful extraction, entry by entry. *)
Lemma extractAll_roundtrip root tr s s' :
  isDir (files s) root = true ->
  extractAll root tr s = (s', None) ->
  (forall q perm, files s !! q = Some (NDir perm) -> files s' !! q = Some (NDir perm))
  /\ (forall q n, files s !! q = Some n -> lastRegular root q tr = None ->
                  files s' !! q = Some n)
  /\ (forall q header body, lastRegular root q tr = Some (header, body) ->
                  files s' !! q = Some (extracted header body))
  /\ (forall header body p, In (header, body) (entries tr) ->
                  Tar.Typeflag header = Tar.TypeDir ->
                  sanitizePath (Tar.Name header) root = Ok p ->
                  isDir (files s') p = true)
  /\ (forall q, files s !! q = None -> files s' !! q <> None ->
                exists header body p, In (header, body) (entries tr)
                  /\ sanitizePath (Tar.Name header) root = Ok p /\ walked q p = true).
Proof.
  revert s. induction tr as [| |h b rest IH]; intros s Hroot; simpl.
  - intros [= <-]. split; [|split; [|split; [|split]]]; try done.
  - done.
  - destruct (extractEntry root h b s) as [s1 [e|]] eqn:E; [done|]. intros Hall.
    destruct (extractEntry_effect _ _ _ _ _ Hroot E) as (E1 & E2 & E3 & E4 & E5).
    assert (isDir (files s1) root = true) as Hroot1.
    { apply isDir_true in Hroot as [perm Hr]. apply isDir_true. exists perm. by apply E2. }
    destruct (IH s1 Hroot1 Hall) as (I1 & I2 & I3 & I4 & I5).
    split; [|split; [|split; [|split]]].
    + intros q perm Hq. by apply I1, E2.
    + intros q n Hq. destruct (lastRegular root q rest) eqn:L; [done|].
      destruct (writesTo root q h) eqn:W; [done|]. intros _. apply I2; [|done].
      by apply E1.
    + intros q header body. destruct (lastRegular root q rest) as [e'|] eqn:L.
      * intros [= ->]. by apply I3.
      * destruct (writesTo root q h) eqn:W; [|done]. intros Hq.
        apply pair_equal_spec in Hq as [<- <-] || (injection Hq as <- <-).
        apply I2; [|done]. by apply E3.
    + intros header body p [Hq|Hin] Ht Hs.
      * apply pair_equal_spec in Hq as [<- <-].
        specialize (E4 p Ht Hs). apply isDir_true in E4 as [perm E4].
        apply isDir_true. exists perm. by apply I1.
      * by eapply I4.
    + intros q Hq Hq'. destruct (files s1 !! q) eqn:Eq1.
      * destruct (E5 q Hq) as (p & Hs & Hw); [by rewrite Eq1|].
        exists h, b, p. auto.
      * destruct (I5 q Eq1 Hq') as (header & body & p & Hin & Hs & Hw).
        exists header, body, p. auto.
Qed.

Lemma makeReadableForScan_lookup root (fs : gmap string Node) q :
  makeReadableForScan root fs !! q
  = match fs !! q with
    | Some (NDir perm) =>
        Some (NDir (if walked root q then Z.lor perm mode0500 else perm))
    | Some (NFile data perm) =>
        Some (NFile data (if walked root q then Z.lor perm mode0400 else perm))
    | None => None
    end.
Proof.
  unfold makeReadableForScan. rewrite map_lookup_imap.
  destruct (fs !! q) as [[data perm|perm]|]; simpl; by destruct (walked root q).
Qed.

(** C8, as amended. For an archive of regular files and directories whose
    names the path check accepts (names whose cleaned form has two dots in
    a row anywhere are not accepted) and whose extraction returns no error:
    after extraction and the readability pass every directory entry is a
    directory at its cleaned path; every regular-file entry is a file at
    its cleaned path, holding the bytes of the last regular entry placed
    there cut at [maxFileSize], with permission bits (declared mode and
    0755) or 0400; and every object that was created lies on the way to
    the cleaned path of some entry. *)
Theorem extraction_reproduces_accepted_archive
    (wd : option string) (r : Tar.Stream) (dstDir root : string) (s : Sys) :
  Abs wd dstDir = Some root ->
  isDir (files s) root = true ->
  Forall (fun e => Tar.Typeflag e.1 = Tar.TypeReg \/ Tar.Typeflag e.1 = Tar.TypeDir)
         (entries r) ->
  Forall (fun e => exists p, sanitizePath (Tar.Name e.1) root = Ok p) (entries r) ->
  (SafeExtract wd r dstDir s).2 = None ->
  let fs' := makeReadableForScan root (files (SafeExtract wd r dstDir s).1) in
  (forall header body, In (header, body) (entries r) ->
     exists p, sanitizePath (Tar.Name header) root = Ok p
       /\ ((Tar.Typeflag header = Tar.TypeDir /\ isDir fs' p = true)
           \/ (Tar.Typeflag header = Tar.TypeReg
               /\ exists last lastBody data perm,
                    lastRegular root p r = Some (last, lastBody)
                    /\ fs' !! p = Some (NFile data perm)
                    /\ data = take (Z.to_nat maxFileSize) (delivered lastBody)
                    /\ Z.of_nat (length data)
                       = Z.min (Z.of_nat (length (delivered lastBody))) maxFileSize
                    /\ perm = Z.lor (Z.land (Tar.Mode last mod 2 ^ 32) mode0755)
                                    mode0400)))
  /\ (forall q, files s !! q = None -> fs' !! q <> None ->
        exists header body p, In (header, body) (entries r)
          /\ sanitizePath (Tar.Name header) root = Ok p /\ walked q p = true).
Proof.
  intros Habs Hroot Hkinds Hnames Hok fs'. subst fs'.
  unfold SafeExtract in *. rewrite Habs in *.
  destruct (extractAll root r s) as [s' e] eqn:E. cbn [fst snd] in *. subst e.
  destruct (extractAll_roundtrip _ _ _ _ Hroot E) as (R1 & R2 & R3 & R4 & R5).
  split.
  - intros header body Hin.
    rewrite Forall_forall in Hkinds, Hnames.
    destruct (Hnames _ (proj2 (list_elem_of_In _ _) Hin)) as [p Hs].
    destruct (Hkinds _ (proj2 (list_elem_of_In _ _) Hin)) as [Ht|Ht]; cbn [fst snd] in *.
    + exists p. split; [done|]. right. split; [done|].
      assert (writesTo root p header = true) as W by by apply writesTo_true.
      destruct (lastRegular_of_entry _ _ _ _ _ Hin W) as [[last lastBody] L].
      exists last, lastBody. do 2 eexists. split; [done|].
      rewrite makeReadableForScan_lookup, (R3 _ _ _ L). unfold extracted.
      rewrite (under_walked _ _ (sanitizePath_under _ _ _ Hs)).
      split; [done|]. split; [done|]. split; [|done].
      rewrite length_take. pose proof (eq_refl : maxFileSize = 10737418240). lia.
    + exists p. split; [done|]. left. split; [done|].
      pose proof (R4 _ _ _ Hin Ht Hs) as Hd. apply isDir_true in Hd as [perm Hd].
      apply isDir_true. rewrite makeReadableForScan_lookup, Hd. eauto.
  - intros q Hq Hq'. apply R5; [done|].
    rewrite makeReadableForScan_lookup in Hq'. by destruct (files s' !! q).
Qed.

End RoundTrip.

(** * The properties on concrete archives and scans *)

Module Concrete.
Import Notions.
Import Strings Filepath IO OS Extractor Scanner Examples MoreExamples.
Import StringFacts OSFacts ExtractorFacts ExtractionClaims ScannerClaims RoundTrip.
Local Open Scope list_scope.

(** C1 on [tar1], extracted to /tmp/root: nothing outside the root changes. *)
Lemma confined_tar1 :
  (Abs None "/tmp/root" = Some "/tmp/root"
   /\ isDir (files sys0) "/tmp/root" = true
   /\ isDir (files sys0) (Dir "/tmp/root") = true)
  /\ (forall q : string,
        files (SafeExtract None tar1 "/tmp/root" sys0).1 !! q <> files sys0 !! q ->
        q = "/tmp/root" \/ HasPrefix q ("/tmp/root" +:+ Separator) = true).
Proof.
  split; [repeat split|].
  exact (proj1 (SafeExtract_confined_to_root None tar1 "/tmp/root" "/tmp/root" sys0
                  eq_refl eq_refl eq_refl)).
Defined.

(** C4 on a symlink entry. *)
Lemma symlink_is_skipped :
  exists s1 : Sys,
    extractEntry "/tmp/root" (hdr "lib" Tar.TypeSymlink 511) RdEOF sys0 = (s1, None)
    /\ files s1 = files sys0
    /\ extractAll "/tmp/root" (Tar.Entry (hdr "lib" Tar.TypeSymlink 511) RdEOF tar2) sys0
       = extractAll "/tmp/root" tar2 s1.
Proof.
  exact (disallowed_types_are_skipped "/tmp/root" (hdr "lib" Tar.TypeSymlink 511)
           RdEOF tar2 sys0 (or_introl eq_refl)).
Defined.

(** C10 on a PAX global header (type flag g). *)
Lemma global_header_is_ignored :
  exists s1 : Sys,
    extractEntry "/tmp/root" (hdr "pax_global_header" "g" 420) RdEOF sys0 = (s1, None)
    /\ files s1 = files sys0
    /\ (forall p, sanitizePath "pax_global_header" "/tmp/root" = Ok p -> s1 = sys0)
    /\ (forall err, sanitizePath "pax_global_header" "/tmp/root" = Err err ->
          s1 = logf (SkippingDangerousPath "pax_global_header" err) sys0)
    /\ extractAll "/tmp/root" (Tar.Entry (hdr "pax_global_header" "g" 420) RdEOF tar2) sys0
       = extractAll "/tmp/root" tar2 s1.
Proof.
  apply (unknown_types_are_ignored "/tmp/root" (hdr "pax_global_header" "g" 420)
           RdEOF tar2 sys0); discriminate.
Defined.

(** C10, the claim as stated fails: an entry of type g is none of the
    seven types, yet when its name is [a..b] the extractor is not silent
    about it: it writes the warning about a dangerous path. *)
Lemma unknown_type_with_rejected_name_is_logged :
  existsb (Ascii.eqb (Tar.Typeflag (hdr "a..b" "g" 420)))
    [Tar.TypeReg; Tar.TypeDir; Tar.TypeSymlink; Tar.TypeLink; Tar.TypeChar;
     Tar.TypeBlock; Tar.TypeFifo] = false
  /\ stderr sys0 = []
  /\ SafeExtract None (Tar.Entry (hdr "a..b" "g" 420) RdEOF Tar.EOF) "/tmp/root" sys0
     = ({| files := files sys0;
           stderr := [SkippingDangerousPath "a..b"
                        (ErrorString "path traversal detected")] |}, None).
Proof. repeat split; vm_compute; reflexivity. Qed.

(** C5 on [tar1]: no failure of the stream or the file system, no error. *)
Lemma tar1_error_iff_failure :
  Abs None "/tmp/root" = Some "/tmp/root"
  /\ ((SafeExtract None tar1 "/tmp/root" sys0).2 <> None
      <-> StreamOrWriteFailure "/tmp/root" tar1 sys0).
Proof.
  split; [reflexivity|].
  exact (proj1 (SafeExtract_error_iff_stream_or_write_failure
                  None tar1 "/tmp/root" "/tmp/root" sys0 eq_refl)).
Defined.

(** C9 on the two-byte file of [tar2]. *)
Lemma small_file_is_within_the_cap :
  sanitizePath "usr/bin/x" "/tmp/root" = Ok "/tmp/root/usr/bin/x"
  /\ Z.of_nat (length (Copy (LimitReader (ofBytes [Byte.x61; Byte.x62]) maxFileSize)).1)
     <= maxFileSize.
Proof.
  split; [reflexivity|].
  refine (proj1 (proj2 (proj2
    (extracted_file_is_capped "/tmp/root" (hdr "usr/bin/x" Tar.TypeReg 2541)
       (ofBytes [Byte.x61; Byte.x62]) Tar.EOF sys0 "/tmp/root/usr/bin/x"
       (MkdirAll (files sys0) "/tmp/root/usr/bin" mode0755).1
       (OpenFile (MkdirAll (files sys0) "/tmp/root/usr/bin" mode0755).1
                 "/tmp/root/usr/bin/x" mode0600).1
       eq_refl eq_refl _ _)))); vm_compute; reflexivity.
Defined.

(** C8, the claim as stated fails: a regular file named [a..b] is no
    traversal attempt (its cleaned name has no [..] element and joins to a
    path under the root), yet it is dropped and nothing is extracted. *)
Lemma file_with_two_dots_is_dropped :
  Tar.Typeflag (hdr "a..b" Tar.TypeReg 420) = Tar.TypeReg
  /\ relativeName "a..b" = "a..b"
  /\ SplitSlash (relativeName "a..b") = ["a..b"]
  /\ Join "/tmp/root" (relativeName "a..b") = "/tmp/root/a..b"
  /\ HasPrefix (Join "/tmp/root" (relativeName "a..b")) ("/tmp/root" +:+ Separator) = true
  /\ SafeExtract None tarDots "/tmp/root" sys0
     = (logf (SkippingDangerousPath "a..b" (ErrorString "path traversal detected")) sys0,
        None)
  /\ makeReadableForScan "/tmp/root"
       (files (SafeExtract None tarDots "/tmp/root" sys0).1) !! "/tmp/root/a..b" = None.
Proof. repeat split; vm_compute; reflexivity. Qed.

(** C8 on [tar2]: what was created lies on the way to an entry. *)
Lemma tar2_is_reproduced :
  (SafeExtract None tar2 "/tmp/root" sys0).2 = None
  /\ (forall q,
        files sys0 !! q = None ->
        makeReadableForScan "/tmp/root"
          (files (SafeExtract None tar2 "/tmp/root" sys0).1) !! q <> None ->
        exists header body p, In (header, body) (entries tar2)
          /\ sanitizePath (Tar.Name header) "/tmp/root" = Ok p /\ walked q p = true).
Proof.
  split; [reflexivity|].
  refine (proj2 (extraction_reproduces_accepted_archive None tar2 "/tmp/root" "/tmp/root"
                   sys0 eq_refl eq_refl _ _ eq_refl)).
  - constructor; [right; reflexivity|]. constructor; [left; reflexivity|]. constructor.
  - repeat constructor; eexists; vm_compute; reflexivity.
Defined.

(** C2. The code does not compute the scoring table: [calculateScore]
    stores a total of zero whatever the findings are. For one critical and
    two high vulnerabilities with every tool ok the table gives 20, the
    code 0. *)
Theorem calculateScore_ignores_findings :
  (forall r : Models.ScanResult,
      Models.Total (Models.ResultScore (calculateScore r)) = 0)
  /\ (forall name t, Models.Tools foundResult !! name = Some t ->
                     Models.ToolStatus t = "ok")
  /\ Spec.tableScore (Models.ResultFindings foundResult) = 20
  /\ Models.Total (Models.ResultScore (calculateScore foundResult)) = 0.
Proof.
  assert (forall r, Models.Total (Models.ResultScore (calculateScore r)) = 0) as H.
  { intros r. destruct (calculateScore_fields r) as (ok & _ & _ & _ & _ & _ & -> & _). done. }
  split; [done|]. split; [|split; [reflexivity | apply H]].
  intros name t. change (Models.Tools foundResult)
    with (<["magika" := toolResult "magika" okRun "" (Join "" "magika.json")]>
          (<["malcontent" := toolResult "malcontent" okRun "" (Join "" "malcontent.json")]>
           (<["trivy" := toolResult "trivy" okRun "" (Join "" "trivy.json")]>
              (∅ : gmap string Models.ToolResult)))).
  intros Hl. repeat (apply lookup_insert_Some in Hl as [[_ <-]|[_ Hl]]; [done|]).
  by rewrite lookup_empty in Hl.
Qed.

(** C3. The code counts recorded results where the claim counts enabled
    tools: the status is ERROR exactly when at least one result is
    recorded and none of them is ok. A scanner that is enabled but returns
    before recording a result is not counted: with magika the only tool
    enabled and its output file impossible to create, one tool was enabled
    and none reached ok, yet the run returns no error with an empty table
    of tools, status PASS and exit code 0. *)
Theorem enabled_tool_without_result_passes :
  (forall r : Models.ScanResult,
      Models.Status (calculateScore r) = "ERROR"
      <-> (0 < size (Models.Tools r))%nat
          /\ ~ exists name t,
                Models.Tools r !! name = Some t /\ Models.ToolStatus t = "ok")
  /\ (let o := scanOpts true true false in
      let out := Run worldNoMagikaFile (New worldNoMagikaFile o) sysTmp in
      SkipTrivy o = true /\ SkipMalcontent o = true /\ SkipMagika o = false
      /\ out.2 = None
      /\ Models.Tools (results out.1.1) = ∅
      /\ Models.Status (results out.1.1) = "PASS"
      /\ ExitCode out.1.1 = 0).
Proof.
  split.
  - intros r.
    destruct (calculateScore_fields r) as (ok & Hpos & Hok & _ & _ & _ & _ & ->).
    unfold overallStatus. rewrite <- Hok.
    destruct (Z.gtb_spec (Z.of_nat (size (Models.Tools r))) 0) as [Hs|Hs];
      destruct (Z.eqb_spec ok 0) as [Ho|Ho]; cbn [andb].
    + split; [intros _; split; [lia | done] | done].
    + change (0 >? 100) with false. cbv iota.
      split; [by destruct (_ || _) | intros [_ ?]; done].
    + change (0 >? 100) with false. cbv iota.
      split; [by destruct (_ || _) | intros [? _]; lia].
    + change (0 >? 100) with false. cbv iota.
      split; [by destruct (_ || _) | intros [_ ?]; done].
  - repeat split; vm_compute; reflexivity.
Qed.

(** C6, the claim as stated fails: with all three tools enabled and all
    three failed, the status is ERROR and [Run] returns no error. *)
Lemma all_tools_failed_no_error :
  let out := Run worldAllFail (New worldAllFail (scanOpts false false false)) sysTmp in
  Models.ToolStatus <$> Models.Tools (results out.1.1)
    = <["trivy" := "failed"]> (<["malcontent" := "failed"]> (<["magika" := "failed"]> ∅))
  /\ Models.Status (results out.1.1) = "ERROR"
  /\ out.2 = None.
Proof. repeat split; vm_compute; reflexivity. Qed.

(** C6, as amended, on a scan whose image cannot be pulled. *)
Lemma pull_failure_is_the_cause :
  let e := Wrapped "failed to pull/extract image"
             (Wrapped "docker pull failed" (ErrorString "exit status 1")) in
  let out := Run worldNoImage (New worldNoImage (scanOpts false false false)) sysTmp in
  out.2 = Some e
  /\ PipelineFailure worldNoImage (scanOpts false false false) sysTmp e.
Proof.
  split; [reflexivity|].
  exact (proj1 (proj1 (Run_error_causes worldNoImage (scanOpts false false false) sysTmp)
                  _) eq_refl).
Defined.

(** C7 on a scan with trivy ok and malcontent timed out. *)
Example one_timeout_gives_warn :
  let r := results (Run worldOneTimeout (New worldOneTimeout (scanOpts false false true))
                      sysTmp).1.1 in
  Models.Partial r = true /\ Models.Status r = "WARN"
  /\ Models.Total (Models.ResultScore r) = 0.
Proof. repeat split; vm_compute; reflexivity. Qed.

End Concrete.

(** * Which names the path check accepts *)

Module SanitizeProperties.
Import Strings Filepath OS Extractor Notions StringFacts CleanFacts OSFacts ExtractorFacts.
Local Open Scope list_scope.

Lemma JoinSlash_app (l1 l2 : list string) :
  l1 <> [] -> l2 <> [] -> JoinSlash (l1 ++ l2) = JoinSlash l1 +:+ "/" +:+ JoinSlash l2.
Proof.
  induction l1 as [|x l1 IH]; [done|]. intros _ H2.
  destruct l1 as [|y l1].
  - simpl app. by rewrite JoinSlash_cons.
  - change ((x :: y :: l1) ++ l2) with (x :: ((y :: l1) ++ l2)).
    rewrite !JoinSlash_cons by done. rewrite IH by done. by rewrite !sapp_assoc.
Qed.

(** Scanning elements none of which is [..] only appends ordinary
    elements. *)
Lemma fold_cleanStep_no_dotdot r (l acc : list string) :
  Forall (fun e => slashless e = true /\ e <> "..") l ->
  exists P, Forall plain P /\ fold_left (cleanStep r) l acc = P ++ acc.
Proof.
  revert acc. induction l as [|e l IH]; intros acc H.
  - by exists [].
  - inversion H as [|? ? [Hs Hd] Hl]; subst. simpl.
    unfold cleanStep at 2.
    destruct (String.eqb_spec e ""); [by apply IH|].
    destruct (String.eqb_spec e "."); [by apply IH|].
    destruct (String.eqb_spec e ".."); [done|].
    destruct (IH (e :: acc) Hl) as (P & HP & ->).
    exists (P ++ [e]). split.
    + apply Forall_app. split; [done|]. by repeat constructor.
    + by rewrite <- app_assoc.
Qed.

(** A rooted cleaned path other than the root is the separator followed by
    ordinary elements. *)
Lemma Clean_rooted_shape (x : string) :
  IsAbs (Clean x) = true ->
  exists Q, Forall plain Q /\ Clean x = "/" +:+ JoinSlash Q.
Proof.
  intros Habs. destruct (Clean_NF x) as (r & out & E & k & P & -> & HP & Hk).
  rewrite E in *. destruct r.
  - rewrite Hk, app_nil_r in * by done. exists (rev P). split; [|done].
    by apply Forall_rev.
  - exfalso. unfold render in Habs.
    destruct (P ++ repeat ".." k) as [|a l] eqn:El; [done|].
    assert (Hall : Forall (fun s => s <> "" /\ slashless s = true) (rev (a :: l))).
    { rewrite <- El. apply Forall_rev, Forall_app. split.
      - eapply List.Forall_impl; [|exact HP]. intros s (? & ? & ? & ?). done.
      - clear. induction k; simpl; constructor; done. }
    destruct (rev (a :: l)) as [|h t] eqn:Er.
    { apply (f_equal (@length _)) in Er. rewrite length_rev in Er. done. }
    inversion Hall as [|? ? [Hh1 Hh2] _]; subst.
    destruct (JoinSlash_head h t) as [u Eu]. rewrite Eu in Habs.
    by rewrite IsAbs_head in Habs.
Qed.

(** No cleaned path starts with two separators. *)
Lemma Clean_no_double_slash (x : string) : HasPrefix (Clean x) "//" = false.
Proof.
  destruct (Clean_NF x) as (r & out & E & k & P & -> & HP & Hk). rewrite E.
  assert (Hhead : forall l : list string,
            Forall (fun s => s <> "" /\ slashless s = true) l ->
            HasPrefix (JoinSlash l) "/" = false).
  { intros [|h t]; [done|]. intros Hall.
    inversion Hall as [|? ? [Hh1 Hh2] _]; subst.
    destruct (JoinSlash_head h t) as [u ->]. by apply IsAbs_head. }
  assert (Hall : Forall (fun s => s <> "" /\ slashless s = true)
                   (rev (P ++ repeat ".." k))).
  { apply Forall_rev, Forall_app. split.
    - eapply List.Forall_impl; [|exact HP]. intros s (? & ? & ? & ?). done.
    - clear. induction k; simpl; constructor; done. }
  apply Hhead in Hall. unfold render. destruct r.
  - exact Hall.
  - destruct (P ++ repeat ".." k) as [|a l] eqn:El; [done|].
    destruct (JoinSlash (rev (a :: l))) as [|c s]; [done|].
    cbn [HasPrefix] in *. by destruct (Ascii.eqb "/" c).
Qed.

(** Joining a cleaned rooted directory and a relative path without a
    [..] element. *)
Lemma Join_below (x rel : string) :
  IsAbs (Clean x) = true -> Clean x <> "/" ->
  ~ In ".." (SplitSlash rel) ->
  Join (Clean x) rel = Clean x
  \/ exists R, R <> [] /\ Forall plain R
       /\ Join (Clean x) rel = Clean x +:+ "/" +:+ JoinSlash R.
Proof.
  intros Habs Hroot Hdd.
  destruct (Clean_rooted_shape x Habs) as (Q & HQ & E). rewrite E in *.
  assert (HQne : Q <> []) by (intros ->; done).
  unfold Join. simpl String.eqb. unfold Clean. simpl String.eqb. cbv iota zeta.
  change (("/" +:+ JoinSlash Q) +:+ "/" +:+ rel)
    with (String "/" (JoinSlash Q +:+ "/" +:+ rel)).
  rewrite IsAbs_slash.
  change (String "/" (JoinSlash Q +:+ "/" +:+ rel))
    with ("" +:+ "/" +:+ (JoinSlash Q +:+ "/" +:+ rel)).
  rewrite !SplitSlash_app, SplitSlash_JoinSlash by (done || by apply plain_slashless).
  simpl SplitSlash. simpl app. simpl fold_left. rewrite cleanStep_empty.
  rewrite fold_left_app, (fold_cleanStep_plain _ Q) by done. rewrite app_nil_r.
  destruct (fold_cleanStep_no_dotdot true (SplitSlash rel) (rev Q)) as (P & HP & ->).
  { pose proof (SplitSlash_slashless rel) as Hs.
    rewrite List.Forall_forall in Hs |- *. intros e He. split; [by apply Hs|].
    intros ->. by apply Hdd. }
  unfold render. rewrite rev_app_distr, rev_involutive.
  destruct P as [|p P].
  - left. simpl. by rewrite app_nil_r.
  - right. exists (rev (p :: P)). split; [|split].
    + intros Hr. apply (f_equal (@length _)) in Hr. rewrite length_rev in Hr. done.
    + by apply Forall_rev.
    + rewrite JoinSlash_app; [done|done|].
      intros Hr. apply (f_equal (@length _)) in Hr. rewrite length_rev in Hr. done.
Qed.

(** X1. With a destination that is a cleaned absolute path other than the
    root directory (what [filepath.Abs] gives [SafeExtract] in a scan), the
    substring test alone decides: a name whose cleaned relative form
    contains two dots in a row is rejected as a path traversal, every other
    name is accepted and placed at the destination or at a path made of the
    destination, a separator and ordinary elements.  The second test, of the
    prefix, never rejects. *)
Theorem sanitizePath_decided_by_dots (x name : string) :
  IsAbs (Clean x) = true -> Clean x <> "/" ->
  let root := Clean x in
  (Contains (relativeName name) ".." = true ->
     sanitizePath name root = Err (ErrorString "path traversal detected"))
  /\ (Contains (relativeName name) ".." = false ->
        sanitizePath name root = Ok (Join root (relativeName name))
        /\ (Join root (relativeName name) = root
            \/ exists R, R <> [] /\ Forall plain R
                 /\ Join root (relativeName name) = root +:+ "/" +:+ JoinSlash R))
  /\ sanitizePath name root <> Err (ErrorString "path escapes destination directory").
Proof.
  intros Habs Hroot root. subst root. rewrite sanitizePath_unfold.
  destruct (Contains (relativeName name) "..") eqn:Hc.
  - split; [done|]. split; [done|]. done.
  - assert (Hdd : ~ In ".." (SplitSlash (relativeName name))).
    { intros Hin. apply In_SplitSlash_Contains in Hin. congruence. }
    destruct (Join_below x (relativeName name) Habs Hroot Hdd) as [E|(R & HR & HP & E)].
    + rewrite E, String.eqb_refl, andb_false_r. split; [done|]. split; [|done].
      intros _. split; [done|]. by left.
    + rewrite E. unfold Separator.
      rewrite <- (sapp_assoc (Clean x) "/" (JoinSlash R)), HasPrefix_app.
      rewrite (sapp_assoc (Clean x) "/" (JoinSlash R)). simpl.
      split; [done|]. split; [|done]. intros _. split; [done|]. right. by exists R.
Qed.

Lemma sanitizePath_decided_by_dots_witness :
  sanitizePath "usr/bin/x" (Clean "/tmp/root/") = Ok "/tmp/root/usr/bin/x"
  /\ sanitizePath "a..b" (Clean "/tmp/root/") = Err (ErrorString "path traversal detected").
Proof.
  destruct (sanitizePath_decided_by_dots "/tmp/root/" "usr/bin/x") as (_ & H & _);
    [reflexivity | discriminate |].
  destruct (sanitizePath_decided_by_dots "/tmp/root/" "a..b") as (H' & _ & _);
    [reflexivity | discriminate |].
  split; [exact (proj1 (H eq_refl)) | exact (H' eq_refl)].
Defined.

(** X2. With the root directory [/] as destination the prefix the check
    looks for is two separators, which no cleaned path has: the only path
    accepted is [/] itself, and a name that is not rejected for its dots and
    does not clean to the root is rejected as escaping the destination. *)
Theorem sanitizePath_at_root_directory (name : string) :
  (forall p, sanitizePath name "/" = Ok p -> p = "/")
  /\ (Contains (relativeName name) ".." = false ->
      Join "/" (relativeName name) <> "/" ->
      sanitizePath name "/" = Err (ErrorString "path escapes destination directory")).
Proof.
  assert (Hpre : HasPrefix (Join "/" (relativeName name)) ("/" +:+ Separator) = false).
  { unfold Join. simpl String.eqb. apply Clean_no_double_slash. }
  rewrite sanitizePath_unfold, Hpre. split.
  - intros p. destruct (Contains _ _); [done|]. cbn [negb andb].
    destruct (String.eqb_spec (Join "/" (relativeName name)) "/") as [E|]; [|done].
    cbn [negb]. intros [= <-]. done.
  - intros -> Hne. cbn [negb andb].
    destruct (String.eqb_spec (Join "/" (relativeName name)) "/"); done.
Qed.

Lemma relativeName_Clean (a b : string) :
  Clean a = Clean b -> forall root, sanitizePath a root = sanitizePath b root.
Proof.
  intros E root. rewrite !sanitizePath_unfold. unfold relativeName. by rewrite E.
Qed.

Lemma IsAbs_app (a b : string) : a <> "" -> IsAbs (a +:+ b) = IsAbs a.
Proof. destruct a as [|c a]; [done|]. intros _. unfold IsAbs. simpl. by destruct (Ascii.eqb _ _). Qed.

Lemma sapp_nonempty (a b : string) : a <> "" -> String.eqb (a +:+ b) "" = false.
Proof. by destruct a. Qed.

Lemma Clean_dot_slash (x : string) : IsAbs x = false -> Clean ("./" +:+ x) = Clean x.
Proof.
  intros Habs. destruct (String.eqb_spec x "") as [->|Hx]; [done|].
  unfold Clean. rewrite sapp_nonempty by done.
  destruct (String.eqb_spec x ""); [done|].
  rewrite IsAbs_app by done. rewrite Habs.
  change ("./" +:+ x) with ("." +:+ "/" +:+ x). rewrite SplitSlash_app.
  by rewrite fold_left_app.
Qed.

Lemma Clean_trailing_slash (x : string) : x <> "" -> Clean (x +:+ "/") = Clean x.
Proof.
  intros Hx. unfold Clean. rewrite sapp_nonempty by done.
  destruct (String.eqb_spec x ""); [done|].
  rewrite IsAbs_app by done.
  replace (x +:+ "/") with (x +:+ "/" +:+ "") by done.
  rewrite SplitSlash_app, fold_left_app. simpl. by rewrite cleanStep_empty.
Qed.

(** X3. The path check sees an entry name only through [filepath.Clean]:
    a leading [./] on a relative name and a trailing separator (the way tar
    writes directory names) change neither the verdict nor the path. *)
Theorem sanitizePath_normalises_names (name root : string) :
  (forall other, Clean other = Clean name ->
     sanitizePath other root = sanitizePath name root)
  /\ (IsAbs name = false -> sanitizePath ("./" +:+ name) root = sanitizePath name root)
  /\ (name <> "" -> sanitizePath (name +:+ "/") root = sanitizePath name root).
Proof.
  split; [|split].
  - intros other E. by apply relativeName_Clean.
  - intros H. by apply relativeName_Clean, Clean_dot_slash.
  - intros H. by apply relativeName_Clean, Clean_trailing_slash.
Qed.

End SanitizeProperties.

(** * What an extraction does to the objects it finds and makes *)

Module ExtractionProperties.
Import Strings Filepath IO OS Extractor Notions MoreNotions.
Import StringFacts CleanFacts OSFacts ExtractorFacts ExtractionClaims RoundTrip.
Local Open Scope list_scope.

Lemma evolves_refl (n : option Node) : evolves n n.
Proof. destruct n as [[d m|p]|]; simpl; auto. Qed.

Lemma evolves_trans (a b c : option Node) : evolves a b -> evolves b c -> evolves a c.
Proof.
  destruct a as [[d m|p]|], b as [[d1 m1|p1]|], c as [[d2 m2|p2]|]; simpl; try tauto;
    try congruence.
  - intros [->|H1] [->|H2]; auto.
  - intros H1 [->|H2]; auto.
Qed.

Lemma extends_refl fs : extends fs fs.
Proof. intros q. apply evolves_refl. Qed.

Lemma extends_trans fs1 fs2 fs3 : extends fs1 fs2 -> extends fs2 fs3 -> extends fs1 fs3.
Proof. intros H1 H2 q. eapply evolves_trans; [apply H1 | apply H2]. Qed.

Lemma extends_insert (fs : gmap string Node) p n :
  evolves (fs !! p) (Some n) -> extends fs (<[p := n]> fs).
Proof.
  intros H q. destruct (decide (q = p)) as [->|Hne].
  - by rewrite lookup_insert_eq.
  - rewrite lookup_insert_ne by done. apply evolves_refl.
Qed.

Lemma within0755_land (m : Z) : within0755 (Z.land m mode0755).
Proof. unfold within0755. by rewrite <- Z.land_assoc, Z.land_diag. Qed.

Lemma within0755_0600 : within0755 mode0600.
Proof. reflexivity. Qed.

(** Within 0755 there is no setuid, setgid or sticky bit and no write bit
    for group or others (octal 7022). *)
Lemma within0755_no_special (m : Z) : within0755 m -> Z.land m 3602 = 0.
Proof.
  unfold within0755, mode0755. intros <-. rewrite <- Z.land_assoc.
  change (Z.land 493 3602) with 0. apply Z.land_0_r.
Qed.

Lemma Mkdir_extends fs p : extends fs (Mkdir fs p mode0755).1.
Proof.
  unfold Mkdir. destruct (fs !! p) eqn:E; [apply extends_refl|].
  destruct (parentReady fs p); [apply extends_refl|]. simpl.
  apply extends_insert. by rewrite E.
Qed.

Lemma MkdirAllFrom_extends fuel fs p : extends fs (MkdirAllFrom fuel fs p mode0755).1.
Proof.
  revert fs p. induction fuel as [|fuel IH]; intros fs p; simpl.
  - destruct (fs !! p) as [[|]|]; try apply extends_refl.
    destruct (parentOf p); apply Mkdir_extends.
  - destruct (fs !! p) as [[|]|]; try apply extends_refl.
    destruct (parentOf p) as [parent|]; [|apply Mkdir_extends].
    specialize (IH fs parent).
    destruct (MkdirAllFrom fuel fs parent mode0755) as [fs' [e|]]; [done|].
    eapply extends_trans; [exact IH | apply Mkdir_extends].
Qed.

Lemma MkdirAll_extends fs p : extends fs (MkdirAll fs p mode0755).1.
Proof. apply MkdirAllFrom_extends. Qed.

Lemma OpenFile_extends fs p : extends fs (OpenFile fs p mode0600).1.
Proof.
  unfold OpenFile. destruct (fs !! p) as [[d m|m]|] eqn:E; try apply extends_refl.
  - apply extends_insert. rewrite E. by left.
  - destruct (parentReady fs p); [apply extends_refl|].
    apply extends_insert. rewrite E. apply within0755_0600.
Qed.

Lemma Write_extends fs p data : extends fs (Write fs p data).
Proof.
  unfold Write. destruct (fs !! p) as [[d m|m]|] eqn:E; try apply extends_refl.
  apply extends_insert. rewrite E. by left.
Qed.

Lemma OpenFile_ok_file fs p perm fs2 :
  OpenFile fs p perm = (fs2, None) -> exists m, fs2 !! p = Some (NFile [] m).
Proof.
  intros H. destruct (OpenFile_ok _ _ _ _ H) as [m ->]. exists m. apply lookup_insert_eq.
Qed.

Lemma Write_file fs p d m data :
  fs !! p = Some (NFile d m) -> Write fs p data !! p = Some (NFile (d ++ data) m).
Proof. intros E. unfold Write. rewrite E. apply lookup_insert_eq. Qed.

Lemma Chmod_file_extends fs p d m mode :
  fs !! p = Some (NFile d m) -> within0755 mode -> extends fs (Chmod fs p mode).1.
Proof.
  intros E H. unfold Chmod. rewrite E. apply extends_insert. rewrite E. by right.
Qed.

Lemma extractFile_extends body p mode fs : extends fs (extractFile body p mode fs).1.
Proof.
  unfold extractFile.
  pose proof (MkdirAll_extends fs (Dir p)) as H1.
  destruct (MkdirAll fs (Dir p) mode0755) as [fs1 [e1|]]; [done|]. cbn [fst] in H1.
  pose proof (OpenFile_extends fs1 p) as H2.
  destruct (OpenFile fs1 p mode0600) as [fs2 [e2|]] eqn:E2; cbn [fst] in H2.
  { by eapply extends_trans. }
  destruct (OpenFile_ok_file _ _ _ _ E2) as [m Hm].
  destruct (Copy (LimitReader body maxFileSize)) as [written cerr].
  pose proof (Write_extends fs2 p written) as H3.
  pose proof (Write_file _ _ _ _ written Hm) as Hw.
  assert (H123 : extends fs (Write fs2 p written)).
  { eapply extends_trans; [exact H1|]. eapply extends_trans; [exact H2 | exact H3]. }
  destruct cerr; [exact H123|].
  eapply extends_trans; [exact H123|].
  eapply Chmod_file_extends; [exact Hw | apply within0755_land].
Qed.

Lemma extractEntry_extends root header body s :
  extends (files s) (files (extractEntry root header body s).1).
Proof.
  destruct (sanitizePath (Tar.Name header) root) as [p|err] eqn:Es.
  2:{ rewrite (extractEntry_rejected _ _ _ _ _ Es). apply extends_refl. }
  destruct (extractEntry_cases root header body s p Es)
    as [[Ht Ee]|[[Ht Ee]|(Hd & Hr & s1' & Ee & Hf)]]; rewrite Ee; clear Ee.
  - pose proof (MkdirAll_extends (files s) p) as H.
    by destruct (MkdirAll (files s) p mode0755) as [fs1 [e|]].
  - pose proof (extractFile_extends body p (Tar.Mode header) (files s)) as H.
    by destruct (extractFile body p (Tar.Mode header) (files s)) as [fs1 [e|]].
  - cbn [fst]. rewrite Hf. apply extends_refl.
Qed.

Lemma extractAll_extends root tr s : extends (files s) (files (extractAll root tr s).1).
Proof.
  revert s. induction tr as [| e | header body rest IH]; intros s; simpl;
    try apply extends_refl.
  pose proof (extractEntry_extends root header body s) as H.
  destruct (extractEntry root header body s) as [s1 [e|]]; [exact H|].
  eapply extends_trans; [exact H | apply IH].
Qed.

Lemma SafeExtract_extends wd r dstDir s :
  extends (files s) (files (SafeExtract wd r dstDir s).1).
Proof.
  unfold SafeExtract. destruct (Abs wd dstDir); [apply extractAll_extends|].
  apply extends_refl.
Qed.

(** X4. Whatever the archive, the destination and the outcome (error or
    not), [SafeExtract] removes nothing and never replaces a directory by a
    file or a file by a directory: a directory that was there is still
    there with the same permission bits, and a file that was there is still
    a file. *)
Theorem SafeExtract_keeps_what_exists
    (wd : option string) (r : Tar.Stream) (dstDir : string) (s : Sys) (q : string) :
  let s' := (SafeExtract wd r dstDir s).1 in
  (forall perm, files s !! q = Some (NDir perm) -> files s' !! q = Some (NDir perm))
  /\ (forall data perm, files s !! q = Some (NFile data perm) ->
        exists data' perm', files s' !! q = Some (NFile data' perm'))
  /\ (files s' !! q = None -> files s !! q = None).
Proof.
  intros s'. pose proof (SafeExtract_extends wd r dstDir s q) as H. fold s' in H.
  split; [|split].
  - intros perm E. rewrite E in H. simpl in H.
    destruct (files s' !! q) as [[|]|]; [done| |done]. by subst.
  - intros data perm E. rewrite E in H. simpl in H.
    destruct (files s' !! q) as [[d' m'|]|]; [|done|done]. by exists d', m'.
  - intros E. rewrite E in H. by destruct (files s !! q) as [[|]|].
Qed.

(** X5. Whatever the archive declares, an object that [SafeExtract]
    creates is a directory of mode 0755 or a file whose permission bits lie
    within 0755, so without setuid, setgid or sticky bit and without write
    permission for group or others; a file it finds is left with its old
    mode or with one within 0755. This holds on error paths too. *)
Theorem SafeExtract_creates_within_0755
    (wd : option string) (r : Tar.Stream) (dstDir : string) (s : Sys) (q : string) :
  let s' := (SafeExtract wd r dstDir s).1 in
  (files s !! q = None ->
     forall n, files s' !! q = Some n ->
       n = NDir mode0755
       \/ exists data perm, n = NFile data perm
            /\ Z.land perm mode0755 = perm /\ Z.land perm 3602 = 0)
  /\ (forall data perm data' perm',
        files s !! q = Some (NFile data perm) ->
        files s' !! q = Some (NFile data' perm') ->
        perm' = perm \/ (Z.land perm' mode0755 = perm' /\ Z.land perm' 3602 = 0)).
Proof.
  intros s'. pose proof (SafeExtract_extends wd r dstDir s q) as H. fold s' in H.
  split.
  - intros E n E'. rewrite E, E' in H. simpl in H. destruct n as [d m|m].
    + right. exists d, m. split; [done|]. split; [exact H|].
      by apply within0755_no_special.
    + left. by subst.
  - intros data perm data' perm' E E'. rewrite E, E' in H. simpl in H.
    destruct H as [->|H]; [by left|]. right. split; [exact H|].
    by apply within0755_no_special.
Qed.

(** X6. The declared mode and the body of a directory entry are never
    read: two directory entries with the same name act alike, and an entry
    for a path that is already a directory changes nothing, not even the
    mode of that directory. *)
Theorem directory_entry_mode_is_not_applied
    (root : string) (header : Tar.Header) (body : Reader) (s : Sys) :
  Tar.Typeflag header = Tar.TypeDir ->
  (forall header' body',
      Tar.Typeflag header' = Tar.TypeDir -> Tar.Name header' = Tar.Name header ->
      extractEntry root header' body' s = extractEntry root header body s)
  /\ (forall p, sanitizePath (Tar.Name header) root = Ok p ->
        isDir (files s) p = true ->
        extractEntry root header body s = (s, None)).
Proof.
  intros Ht. split.
  - intros header' body' Ht' En.
    destruct (sanitizePath (Tar.Name header) root) as [p|err] eqn:Es.
    + rewrite (extractEntry_Dir root header body s p Es Ht).
      apply extractEntry_Dir; [by rewrite En | done].
    + rewrite (extractEntry_rejected _ _ _ _ _ Es).
      rewrite <- En in Es. rewrite (extractEntry_rejected _ _ _ _ _ Es). by rewrite En.
  - intros p Es Hd. rewrite (extractEntry_Dir root header body s p Es Ht).
    rewrite MkdirAll_isDir by done. by destruct s.
Qed.

Lemma directory_entry_mode_is_not_applied_witness :
  extractEntry "/tmp/root" (Examples.hdr "./" Tar.TypeDir 0) RdEOF Examples.sys0
  = (Examples.sys0, None).
Proof.
  apply (proj2 (directory_entry_mode_is_not_applied "/tmp/root"
                  (Examples.hdr "./" Tar.TypeDir 0) RdEOF Examples.sys0 eq_refl)
           "/tmp/root"); reflexivity.
Defined.

Lemma extractFile_ok_inv body p mode fs fs' :
  extractFile body p mode fs = (fs', None) ->
  exists fs1 fs2,
    MkdirAll fs (Dir p) mode0755 = (fs1, None)
    /\ OpenFile fs1 p mode0600 = (fs2, None)
    /\ (Copy (LimitReader body maxFileSize)).2 = None
    /\ fs' = <[p := NFile (Copy (LimitReader body maxFileSize)).1
                       (Z.land (mode mod 2 ^ 32) mode0755)]> fs2.
Proof.
  intros E.
  destruct (MkdirAll fs (Dir p) mode0755) as [fs1 [e1|]] eqn:E1;
    [unfold extractFile in E; by rewrite E1 in E|].
  destruct (OpenFile fs1 p mode0600) as [fs2 [e2|]] eqn:E2;
    [unfold extractFile in E; by rewrite E1, E2 in E|].
  pose proof (extractFile_opened _ _ body mode _ _ E1 E2) as Hf. cbv zeta in Hf.
  destruct (Copy (LimitReader body maxFileSize)).2 eqn:Ec.
  { destruct Hf as [? Hf]. rewrite E in Hf. by apply pair_equal_spec in Hf as [_ Hf]. }
  rewrite E in Hf. apply pair_equal_spec in Hf as [-> _].
  exists fs1, fs2. done.
Qed.

(** X7. When [extractFile] returns no error, the parent directory of the
    file is a directory (made with its missing ancestors when the archive
    had no entry for it), the file holds what the copy delivered, and its
    permission bits are the declared mode restricted to 0755: the low nine
    bits of the declared mode without group and other write. *)
Theorem extractFile_leaves_file_in_directory
    (body : Reader) (path : string) (mode : Z) (fs fs' : gmap string Node) :
  extractFile body path mode fs = (fs', None) ->
  isDir fs' (Dir path) = true
  /\ Dir path <> path
  /\ fs' !! path = Some (NFile (take (Z.to_nat maxFileSize) (delivered body))
                               (Z.land mode mode0755))
  /\ (forall q, q <> path -> isDir fs q = true -> isDir fs' q = true).
Proof.
  intros E. destruct (extractFile_ok_inv _ _ _ _ _ E) as (fs1 & fs2 & E1 & E2 & Ec & ->).
  pose proof (MkdirAllFrom_ok_isDir _ _ _ _ _ E1) as Hd.
  destruct (OpenFile_ok _ _ _ _ E2) as [m ->]. rewrite insert_insert_eq.
  assert (Hne : Dir path <> path).
  { intros Heq. rewrite Heq in Hd. unfold OpenFile in E2. unfold isDir in Hd.
    destruct (fs1 !! path) as [[|]|]; done. }
  split; [|split; [|split]].
  - unfold isDir. rewrite lookup_insert_ne by done. exact Hd.
  - exact Hne.
  - rewrite lookup_insert_eq, Copy_LimitReader_take. do 2 f_equal.
    unfold mode0755. rewrite <- (Z.land_ones mode 32) by lia.
    rewrite <- Z.land_assoc. reflexivity.
  - intros q Hq Hdq. unfold isDir. rewrite lookup_insert_ne by done.
    pose proof (MkdirAll_extends fs (Dir path) q) as Hx. rewrite E1 in Hx. cbn [fst] in Hx.
    unfold isDir in Hdq. destruct (fs !! q) as [[|pq]|]; try done.
    simpl in Hx. by destruct (fs1 !! q) as [[|]|].
Qed.

Lemma extractFile_leaves_file_in_directory_witness :
  (extractFile (ofBytes [Byte.x61]) "/tmp/root/usr/bin/x" 2541 Examples.fs0).2 = None
  /\ isDir (extractFile (ofBytes [Byte.x61]) "/tmp/root/usr/bin/x" 2541 Examples.fs0).1
           "/tmp/root/usr/bin" = true.
Proof.
  split; [vm_compute; reflexivity|].
  refine (proj1 (extractFile_leaves_file_in_directory (ofBytes [Byte.x61])
                   "/tmp/root/usr/bin/x" 2541 Examples.fs0 _ _)).
  vm_compute. reflexivity.
Defined.

End ExtractionProperties.

(** * The readability pass *)

Module ReadableProperties.
Import Strings Filepath OS Extractor Scanner Notions StringFacts RoundTrip.

Lemma lor_keeps (p m : Z) : Z.land (Z.lor p m) p = p.
Proof.
  apply Z.bits_inj'. intros n _. rewrite Z.land_spec, Z.lor_spec.
  by destruct (Z.testbit p n), (Z.testbit m n).
Qed.

Lemma lor_sets (p m : Z) : Z.land (Z.lor p m) m = m.
Proof.
  apply Z.bits_inj'. intros n _. rewrite Z.land_spec, Z.lor_spec.
  by destruct (Z.testbit p n), (Z.testbit m n).
Qed.

Lemma lor_outside (p m : Z) : Z.ldiff (Z.lor p m) m = Z.ldiff p m.
Proof.
  apply Z.bits_inj'. intros n _. rewrite !Z.ldiff_spec, Z.lor_spec.
  by destruct (Z.testbit p n), (Z.testbit m n).
Qed.

Lemma lor_already (p m : Z) : Z.land p m = m -> Z.lor p m = p.
Proof.
  intros H. apply Z.bits_inj'. intros n _. rewrite Z.lor_spec.
  apply (f_equal (fun z => Z.testbit z n)) in H. rewrite Z.land_spec in H.
  by destruct (Z.testbit p n), (Z.testbit m n).
Qed.

(** X8. [makeReadableForScan] changes permission bits only, and only under
    the root: which paths exist, which are directories and what the files
    hold stays as it was, and nothing outside the tree is touched. Under
    the root a directory gains owner read and execute (0500) and a file
    owner read (0400); no bit is ever cleared and no other bit is set, so
    write permission and the bits of group and others are never granted. *)
Theorem makeReadableForScan_only_adds_owner_bits
    (root : string) (fs : gmap string Node) (q : string) :
  let fs' := makeReadableForScan root fs in
  (walked root q = false -> fs' !! q = fs !! q)
  /\ (fs' !! q = None <-> fs !! q = None)
  /\ (forall perm, fs !! q = Some (NDir perm) ->
        exists perm', fs' !! q = Some (NDir perm')
          /\ Z.land perm' perm = perm
          /\ Z.ldiff perm' mode0500 = Z.ldiff perm mode0500
          /\ (walked root q = true -> Z.land perm' mode0500 = mode0500))
  /\ (forall data perm, fs !! q = Some (NFile data perm) ->
        exists perm', fs' !! q = Some (NFile data perm')
          /\ Z.land perm' perm = perm
          /\ Z.ldiff perm' mode0400 = Z.ldiff perm mode0400
          /\ (walked root q = true -> Z.land perm' mode0400 = mode0400)).
Proof.
  intros fs'. subst fs'. rewrite makeReadableForScan_lookup.
  split; [|split; [|split]].
  - intros ->. by destruct (fs !! q) as [[|]|].
  - by destruct (fs !! q) as [[|]|].
  - intros perm ->. eexists. split; [reflexivity|].
    destruct (walked root q).
    + split; [apply lor_keeps|]. split; [apply lor_outside|]. intros _. apply lor_sets.
    + split; [apply Z.land_diag|]. done.
  - intros data perm ->. eexists. split; [reflexivity|].
    destruct (walked root q).
    + split; [apply lor_keeps|]. split; [apply lor_outside|]. intros _. apply lor_sets.
    + split; [apply Z.land_diag|]. done.
Qed.

(** X9. Running the readability pass a second time changes nothing, and a
    tree in which every directory already has owner read and execute and
    every file owner read is left exactly as it is. *)
Theorem makeReadableForScan_idempotent (root : string) (fs : gmap string Node) :
  makeReadableForScan root (makeReadableForScan root fs) = makeReadableForScan root fs
  /\ ((forall q, walked root q = true ->
         match fs !! q with
         | Some (NDir perm) => Z.land perm mode0500 = mode0500
         | Some (NFile _ perm) => Z.land perm mode0400 = mode0400
         | None => True
         end) ->
      makeReadableForScan root fs = fs).
Proof.
  split.
  - apply map_eq. intros q. rewrite !makeReadableForScan_lookup.
    destruct (fs !! q) as [[data perm|perm]|]; [| |done];
      destruct (walked root q); try done;
      by rewrite <- Z.lor_assoc, Z.lor_diag.
  - intros H. apply map_eq. intros q. rewrite makeReadableForScan_lookup.
    specialize (H q). destruct (fs !! q) as [[data perm|perm]|]; [| |done];
      destruct (walked root q); try done; by rewrite lor_already by auto.
Qed.

End ReadableProperties.

(** * What a scan records and how it ends *)

Module ScannerProperties.
Import Strings Filepath OS Extractor Scanner Notions.
Import StringFacts OSFacts ScannerClaims RoundTrip.
Import Examples MoreExamples.

Lemma pullAndExtract_keeps w s sys :
  let s' := (pullAndExtract w s sys).1.1 in
  opts s' = opts s /\ workDir s' = workDir s /\ rootfsDir s' = rootfsDir s.
Proof.
  unfold pullAndExtract.
  destruct (dockerPull w); [done|]. destruct (dockerInspect w); [|done].
  destruct (dockerCreate w); [|done]. destruct (stdoutPipe w); [done|].
  destruct (exportStart w); [done|].
  destruct (Extractor.SafeExtract _ _ _ _) as [sys1 [e|]]; [done|].
  by destruct (exportWait w).
Qed.

Lemma runScanners_keeps w s :
  opts (runScanners w s) = opts s /\ workDir (runScanners w s) = workDir s.
Proof.
  unfold runScanners, runTrivy, runMalcontent, runMagika.
  destruct (SkipTrivy (opts s)); simpl;
    destruct (SkipMalcontent (opts s)); simpl;
    destruct (SkipMagika (opts s)); simpl; try done;
    by destruct (magikaCreate w).
Qed.

(** Every run either ends before the scanners start, with an error and
    nothing recorded, or records what the scanners, started on an empty
    table of tools, and [calculateScore] leave behind. *)
Lemma Run_trace (w : World) (o : ScanOptions) (sys : Extractor.Sys) :
  let out := Run w (New w o) sys in
  (notScanned (results out.1.1) /\ out.2 <> None)
  \/ exists s0,
       opts s0 = opts (New w o) /\ workDir s0 = tempDir w
       /\ Models.Tools (results s0) = ∅ /\ Models.Partial (results s0) = false
       /\ results out.1.1
          = calculateScore (setFinishedAt (finishedAt w) (results (runScanners w s0))).
Proof.
  unfold Run.
  destruct (OS.Mkdir _ _ _) as [fs [e|]].
  { left. by split. }
  unfold runInWorkDir.
  match goal with |- context [OS.MkdirAll ?a ?b ?c] =>
    destruct (OS.MkdirAll a b c) as [fs1 [e|]] end.
  { left. by split. }
  match goal with |- context [pullAndExtract w ?s0 ?sys0] =>
    pose proof (pullAndExtract_results w s0 sys0) as Hr;
    pose proof (pullAndExtract_keeps w s0 sys0) as Hk;
    destruct (pullAndExtract w s0 sys0) as [[s1 sys1] [e|]] end;
    cbn [fst snd] in Hr, Hk; cbv zeta in Hr, Hk.
  { left. cbn [fst snd results]. destruct Hr as (? & ? & ?). by split. }
  right. exists s1.
  destruct Hr as (Hp & Ht & _). destruct Hk as (Ho & Hw & _).
  cbn [opts workDir results] in Hp, Ht, Ho, Hw.
  split; [exact Ho|]. split; [exact Hw|]. split; [exact Ht|]. split; [exact Hp|].
  match goal with |- context [generateReport w ?s2 ?sy] =>
    destruct (generateReport w s2 sy) as [sys2 [e|]] end; [reflexivity|].
  match goal with |- context [String.eqb ?a "FAIL"] => destruct (String.eqb a "FAIL") end;
    reflexivity.
Qed.

Lemma toolResult_shape (name : string) (run : ToolRun) (diagnostic outputFile : string) :
  let t := toolResult name run diagnostic outputFile in
  Models.Name t = name
  /\ (Models.ToolStatus t = "ok" \/ Models.ToolStatus t = "failed"
      \/ Models.ToolStatus t = "timeout")
  /\ (Models.ToolStatus t = "ok" -> Models.Error t = "" /\ Models.OutputFile t = outputFile)
  /\ (Models.ToolStatus t <> "ok" -> Models.OutputFile t = "")
  /\ (Models.ToolStatus t = "timeout" -> Models.Error t = "scan timed out")
  /\ (Models.ToolStatus t = "timeout" <-> deadlineExceeded run = true)
  /\ (Models.ToolStatus t = "ok" <-> deadlineExceeded run = false /\ runErr run = None).
Proof.
  unfold toolResult. destruct (deadlineExceeded run), (runErr run); simpl;
    repeat split; auto; try done; intros; try done; intuition discriminate.
Qed.

Lemma calculateScore_tools (r : Models.ScanResult) :
  Models.Tools (calculateScore r) = Models.Tools r.
Proof. by destruct (calculateScore_fields r) as (? & _ & _ & _ & -> & _). Qed.

(** X10. Every tool result a run records is filed under the name of one
    of the three scanners, carries that name, and has status ok, failed or
    timeout, never any other. A result with status ok has no error text
    and names the scanner's output file in the work directory; any other
    result names no output file, and a timeout carries the text
    [scan timed out]. *)
Theorem recorded_tool_results_are_well_formed
    (w : World) (o : ScanOptions) (sys : Extractor.Sys)
    (name : string) (t : Models.ToolResult) :
  Models.Tools (results (Run w (New w o) sys).1.1) !! name = Some t ->
  (name = "trivy" \/ name = "malcontent" \/ name = "magika")
  /\ Models.Name t = name
  /\ (Models.ToolStatus t = "ok" \/ Models.ToolStatus t = "failed"
      \/ Models.ToolStatus t = "timeout")
  /\ (Models.ToolStatus t = "ok" ->
      Models.Error t = "" /\ Models.OutputFile t = Join (tempDir w) (name +:+ ".json"))
  /\ (Models.ToolStatus t <> "ok" -> Models.OutputFile t = "")
  /\ (Models.ToolStatus t = "timeout" -> Models.Error t = "scan timed out").
Proof.
  intros Hl.
  destruct (Run_trace w o sys) as [[(_ & Ht & _) _]|(s0 & Ho & Hw & Ht & Hp & Hr)];
    cbv zeta in *.
  { rewrite Ht in Hl. by rewrite lookup_empty in Hl. }
  rewrite Hr, calculateScore_tools in Hl. cbn [setFinishedAt Models.Tools] in Hl.
  unfold runScanners, runTrivy, runMalcontent, runMagika in Hl.
  assert (Hcase :
    (name = "trivy" /\ t = toolResult "trivy" (trivy w) (output (trivy w))
                             (Join (tempDir w) "trivy.json"))
    \/ (name = "malcontent"
        /\ t = toolResult "malcontent" (malcontent w) (output (malcontent w))
                 (Join (tempDir w) "malcontent.json"))
    \/ (name = "magika" /\ t = toolResult "magika" (magika w) (magikaDiagnostic (magika w))
                                 (Join (tempDir w) "magika.json"))).
  { destruct (SkipTrivy (opts s0)); cbn [fst opts withResults results workDir] in Hl;
      destruct (SkipMalcontent (opts s0)); cbn [fst opts withResults results workDir] in Hl;
      destruct (SkipMagika (opts s0)); cbn [fst opts withResults results workDir] in Hl;
      try (destruct (magikaCreate w); cbn [fst opts withResults results workDir] in Hl);
      cbn [setTool Models.Tools] in Hl; rewrite ?Ht, ?Hw in Hl;
      repeat (apply lookup_insert_Some in Hl as [[<- <-]|[_ Hl]]; [by auto|]);
      by rewrite lookup_empty in Hl. }
  destruct Hcase as [[-> ->]|[[-> ->]|[-> ->]]].
  - split; [by auto|].
    destruct (toolResult_shape "trivy" (trivy w) (output (trivy w))
                (Join (tempDir w) "trivy.json")) as (H1 & H2 & H3 & H4 & H5 & _).
    done.
  - split; [by auto|].
    destruct (toolResult_shape "malcontent" (malcontent w) (output (malcontent w))
                (Join (tempDir w) "malcontent.json")) as (H1 & H2 & H3 & H4 & H5 & _).
    done.
  - split; [by auto|].
    destruct (toolResult_shape "magika" (magika w) (magikaDiagnostic (magika w))
                (Join (tempDir w) "magika.json")) as (H1 & H2 & H3 & H4 & H5 & _).
    done.
Qed.

Lemma recorded_tool_results_are_well_formed_witness :
  Models.Tools (results (Run worldOneTimeout (New worldOneTimeout (scanOpts false false false))
                           sysTmp).1.1) !! "malcontent"
  = Some (toolResult "malcontent" timeoutRun "" "/tmp/vnaiscan-1/malcontent.json")
  /\ Models.OutputFile (toolResult "malcontent" timeoutRun ""
                          "/tmp/vnaiscan-1/malcontent.json") = "".
Proof.
  assert (H : Models.Tools (results (Run worldOneTimeout
                (New worldOneTimeout (scanOpts false false false)) sysTmp).1.1)
              !! "malcontent"
              = Some (toolResult "malcontent" timeoutRun ""
                        "/tmp/vnaiscan-1/malcontent.json"))
    by (vm_compute; reflexivity).
  split; [exact H|].
  refine (proj1 (proj2 (proj2 (proj2 (proj2
    (recorded_tool_results_are_well_formed _ _ _ _ _ H))))) _).
  discriminate.
Defined.

Lemma New_skips (w : World) (o : ScanOptions) :
  SkipTrivy (opts (New w o)) = SkipTrivy o
  /\ SkipMalcontent (opts (New w o)) = SkipMalcontent o
  /\ SkipMagika (opts (New w o)) = SkipMagika o.
Proof. unfold New. by destruct (String.eqb (ReportDir o) ""). Qed.

(** The table of tools the scanners leave, key by key. *)
Lemma runScanners_lookup (w : World) (s : Scanner) :
  Models.Tools (results s) = ∅ ->
  let tools := Models.Tools (results (runScanners w s)) in
  (tools !! "trivy" = None <-> SkipTrivy (opts s) = true)
  /\ (tools !! "malcontent" = None <-> SkipMalcontent (opts s) = true)
  /\ (tools !! "magika" = None <-> SkipMagika (opts s) = true \/ magikaCreate w <> None)
  /\ (SkipTrivy (opts s) = true -> SkipMalcontent (opts s) = true ->
      SkipMagika (opts s) = true \/ magikaCreate w <> None -> tools = ∅).
Proof.
  intros Ht. unfold runScanners, runTrivy, runMalcontent, runMagika.
  destruct (SkipTrivy (opts s)); cbn [fst opts withResults results workDir];
    destruct (SkipMalcontent (opts s)); cbn [fst opts withResults results workDir];
    destruct (SkipMagika (opts s)); cbn [fst opts withResults results workDir];
    try (destruct (magikaCreate w); cbn [fst opts withResults results workDir]);
    cbn [setTool Models.Tools]; rewrite Ht;
    (split; [|split; [|split]]);
    rewrite ?lookup_insert_eq, ?lookup_insert_ne, ?lookup_empty by done;
    try done; try (split; [done|]); intros; try done;
    intuition (try discriminate; try congruence).
Qed.

(** X11. After a run that returns no error a scanner has a recorded
    result exactly when it was not skipped; for magika also the output
    file must have been created, since [runMagika] returns before recording
    anything when [os.Create] fails. *)
Theorem tool_is_recorded_iff_enabled
    (w : World) (o : ScanOptions) (sys : Extractor.Sys) :
  (Run w (New w o) sys).2 = None ->
  let tools := Models.Tools (results (Run w (New w o) sys).1.1) in
  (tools !! "trivy" = None <-> SkipTrivy o = true)
  /\ (tools !! "malcontent" = None <-> SkipMalcontent o = true)
  /\ (tools !! "magika" = None <-> SkipMagika o = true \/ magikaCreate w <> None).
Proof.
  intros Hn tools. subst tools.
  destruct (Run_trace w o sys) as [[_ Herr]|(s0 & Ho & Hw & Ht & Hp & Hr)];
    cbv zeta in *; [done|].
  rewrite Hr, calculateScore_tools. cbn [setFinishedAt Models.Tools].
  destruct (runScanners_lookup w s0 Ht) as (H1 & H2 & H3 & _).
  destruct (New_skips w o) as (E1 & E2 & E3).
  rewrite Ho, E1 in H1. rewrite Ho, E2 in H2. rewrite Ho, E3 in H3. done.
Qed.

Lemma tool_is_recorded_iff_enabled_witness :
  (Run worldAllOk (New worldAllOk (scanOpts false true false)) sysTmp).2 = None
  /\ Models.Tools (results (Run worldAllOk (New worldAllOk (scanOpts false true false))
                              sysTmp).1.1) !! "malcontent" = None.
Proof.
  assert (H : (Run worldAllOk (New worldAllOk (scanOpts false true false)) sysTmp).2 = None)
    by (vm_compute; reflexivity).
  split; [exact H|].
  exact (proj2 (proj1 (proj2 (tool_is_recorded_iff_enabled _ _ _ H))) eq_refl).
Defined.

Lemma calculateScore_empty (r : Models.ScanResult) :
  Models.Tools r = ∅ -> Models.Partial r = false ->
  Models.Status (calculateScore r) = "PASS"
  /\ Models.Partial (calculateScore r) = false.
Proof.
  intros Ht Hp. unfold calculateScore. rewrite Ht, Hp, map_fold_empty. done.
Qed.

(** X12. A run that returns no error and in which no scanner records a
    result (trivy and malcontent skipped, magika skipped or unable to
    create its output file) ends with an empty table of tools, Partial
    false, status PASS and exit code 0, although nothing was scanned. *)
Theorem scan_without_tool_result_passes
    (w : World) (o : ScanOptions) (sys : Extractor.Sys) :
  (Run w (New w o) sys).2 = None ->
  SkipTrivy o = true -> SkipMalcontent o = true ->
  SkipMagika o = true \/ magikaCreate w <> None ->
  let s := (Run w (New w o) sys).1.1 in
  Models.Tools (results s) = ∅
  /\ Models.Partial (results s) = false
  /\ Models.Status (results s) = "PASS"
  /\ ExitCode s = 0.
Proof.
  intros Hn Hs1 Hs2 Hs3 s. subst s.
  destruct (Run_trace w o sys) as [[_ Herr]|(s0 & Ho & Hw & Ht & Hp & Hr)];
    cbv zeta in *; [done|].
  destruct (runScanners_lookup w s0 Ht) as (_ & _ & _ & He).
  destruct (New_skips w o) as (E1 & E2 & E3).
  rewrite Ho, E1, E2, E3 in He. specialize (He Hs1 Hs2 Hs3).
  assert (Hpart : Models.Partial (setFinishedAt (finishedAt w) (results (runScanners w s0)))
                  = false).
  { cbn [setFinishedAt Models.Partial]. by rewrite runScanners_partial. }
  assert (Htools : Models.Tools (setFinishedAt (finishedAt w) (results (runScanners w s0)))
                   = ∅) by exact He.
  destruct (calculateScore_empty _ Htools Hpart) as [Hst Hpa].
  unfold ExitCode. rewrite Hr, calculateScore_tools, Hst, Hpa. done.
Qed.

Lemma scan_without_tool_result_passes_witness :
  (Run worldNoMagikaFile (New worldNoMagikaFile (scanOpts true true false)) sysTmp).2 = None
  /\ Models.Status (results (Run worldNoMagikaFile
                               (New worldNoMagikaFile (scanOpts true true false))
                               sysTmp).1.1) = "PASS".
Proof.
  assert (H : (Run worldNoMagikaFile (New worldNoMagikaFile (scanOpts true true false))
                 sysTmp).2 = None) by (vm_compute; reflexivity).
  split; [exact H|].
  refine (proj1 (proj2 (proj2
    (scan_without_tool_result_passes _ _ _ H eq_refl eq_refl _)))).
  right. discriminate.
Defined.

(** X13. The grade and the status cut the score at the same points: when
    the status is decided by the score (some tool ok or none recorded, and
    no tool incomplete), it is PASS exactly for the grades A and B, WARN
    exactly for C and D and FAIL exactly for F. *)
Theorem grade_and_status_agree (enabledTools toolsOk score : Z) :
  ~ (enabledTools > 0 /\ toolsOk = 0) ->
  let status := overallStatus enabledTools toolsOk score false in
  let grade := calculateGrade score in
  (status = "PASS" <-> grade = "A" \/ grade = "B")
  /\ (status = "WARN" <-> grade = "C" \/ grade = "D")
  /\ (status = "FAIL" <-> grade = "F")
  /\ (grade = "A" <-> score <= 10) /\ (grade = "B" <-> 10 < score <= 30)
  /\ (grade = "C" <-> 30 < score <= 60) /\ (grade = "D" <-> 60 < score <= 100)
  /\ (grade = "F" <-> 100 < score).
Proof.
  intros Hsig status grade. subst status grade. unfold overallStatus, calculateGrade.
  assert (Hc : (enabledTools >? 0) && (toolsOk =? 0) = false).
  { apply andb_false_iff.
    destruct (Z.gtb_spec enabledTools 0); [|by left].
    destruct (Z.eqb_spec toolsOk 0); [|by right]. exfalso. apply Hsig. lia. }
  rewrite Hc, orb_false_r.
  destruct (Z.gtb_spec score 100), (Z.gtb_spec score 30),
    (Z.leb_spec score 10), (Z.leb_spec score 30), (Z.leb_spec score 60),
    (Z.leb_spec score 100); try lia;
    repeat split; intros; try done; try lia; try (intuition discriminate); auto.
Qed.

Lemma grade_and_status_agree_witness :
  overallStatus 3 2 45 false = "WARN" /\ calculateGrade 45 = "C".
Proof.
  pose proof (grade_and_status_agree 3 2 45 ltac:(lia)) as H. cbv zeta in H.
  split; [reflexivity|].
  destruct (proj1 (proj1 (proj2 H)) eq_refl) as [E|E]; [exact E | discriminate E].
Defined.

End ScannerProperties.

(** * The exit status, the tool check and what a run leaves on disk *)

Module ProcessProperties.
Import Strings Filepath OS Extractor Scanner Notions MoreNotions.
Import StringFacts OSFacts ScannerClaims RoundTrip ScannerProperties.
Import Examples MoreExamples.
Local Open Scope list_scope.

(** After a run without error the status is one the score of zero can
    give. *)
Lemma Run_ok_status (w : World) (o : ScanOptions) (sys : Extractor.Sys) :
  (Run w (New w o) sys).2 = None ->
  let st := Models.Status (results (Run w (New w o) sys).1.1) in
  st = "PASS" \/ st = "WARN" \/ st = "ERROR".
Proof.
  intros Hn st. subst st.
  destruct (Run_trace w o sys) as [[_ Herr]|(s0 & _ & _ & _ & _ & Hr)];
    cbv zeta in *; [done|].
  rewrite Hr.
  destruct (calculateScore_fields
              (setFinishedAt (finishedAt w) (results (runScanners w s0))))
    as (ok & _ & _ & _ & _ & _ & _ & ->).
  unfold overallStatus. destruct (_ && _); [by auto|].
  change (0 >? 100) with false. cbv iota. destruct (_ || _); auto.
Qed.

(** X14. The exit status of the scan command: 0 exactly when the run
    returns no error and the status is PASS, 3 exactly when it returns no
    error and the status is ERROR, and 1 in every other case: a WARN
    status, or any error of the run, a FAIL status included, since [main]
    exits with 1 for an error before [ExitCode] is consulted. The status 2
    that [ExitCode] has for FAIL is never the exit status. *)
Theorem scan_exit_status (w : World) (o : ScanOptions) (sys : Extractor.Sys) :
  let out := Run w (New w o) sys in
  let st := Models.Status (results out.1.1) in
  let code := Main.main w o sys in
  (code = 0 <-> out.2 = None /\ st = "PASS")
  /\ (code = 3 <-> out.2 = None /\ st = "ERROR")
  /\ (code = 1 <-> out.2 <> None \/ st = "WARN")
  /\ code <> 2
  /\ (out.2 = None -> code = ExitCode out.1.1).
Proof.
  intros out st code. subst out st code.
  pose proof (Run_ok_status w o sys) as Hst. cbv zeta in Hst.
  unfold Main.main, Main.runScan.
  destruct (Run w (New w o) sys) as [[s sys'] [e|]]; cbn [fst snd] in *.
  { repeat split; try done; try (intros [? ?]; done); auto. }
  specialize (Hst eq_refl). unfold ExitCode.
  destruct Hst as [-> | [-> | ->]]; cbn; repeat split; try done;
    try (intros [? ?]; done); auto; intros [?|?]; done.
Qed.

Lemma fold_checkTool (m : ToolCheck.Machine)
    (l : list (string * string * (ToolCheck.Machine -> string -> string)))
    (printed : list ToolCheck.Line) (allOk : bool) :
  fold_left (ToolCheck.checkTool m) l (printed, allOk)
  = (printed ++ map (lineFor m) l,
     allOk && forallb (fun tool => ToolCheck.lookPath m tool.1.2) l).
Proof.
  revert printed allOk. induction l as [|[[name cmd] getVer] l IH]; intros printed allOk.
  - simpl. by rewrite app_nil_r, andb_true_r.
  - simpl fold_left.
    destruct (ToolCheck.lookPath m cmd) eqn:E; rewrite IH; simpl; rewrite E;
      rewrite <- app_assoc; simpl; [done|]. by rewrite andb_false_r.
Qed.

(** X15. [CheckTools] prints one line for each of the four tools, in the
    order of its table, also after a tool was found missing; the version
    command is run only for a tool that was found. It returns the error
    [some tools are missing] exactly when [exec.LookPath] fails for one of
    trivy, mal, magika and docker, and the tools command then exits with
    status 1. *)
Theorem CheckTools_reports_every_tool (m : ToolCheck.Machine) :
  (ToolCheck.CheckTools m).1 = map (lineFor m) ToolCheck.tools
  /\ length (ToolCheck.CheckTools m).1 = 4%nat
  /\ ((ToolCheck.CheckTools m).2 = None
      <-> forall cmd, In cmd ["trivy"; "mal"; "magika"; "docker"] ->
                      ToolCheck.lookPath m cmd = true)
  /\ ((ToolCheck.CheckTools m).2 <> None
      -> (ToolCheck.CheckTools m).2 = Some (ErrorString "some tools are missing"))
  /\ (Main.mainTools m = 0 <-> (ToolCheck.CheckTools m).2 = None)
  /\ (forall m' : ToolCheck.Machine,
        (forall cmd, ToolCheck.lookPath m' cmd = ToolCheck.lookPath m cmd) ->
        (forall cmd, ToolCheck.lookPath m cmd = true ->
                     ToolCheck.versionOutput m' cmd = ToolCheck.versionOutput m cmd) ->
        ToolCheck.CheckTools m' = ToolCheck.CheckTools m).
Proof.
  assert (Hc : forall m0, ToolCheck.CheckTools m0
                = (map (lineFor m0) ToolCheck.tools,
                   if forallb (fun tool => ToolCheck.lookPath m0 tool.1.2) ToolCheck.tools
                   then None else Some (ErrorString "some tools are missing"))).
  { intros m0. unfold ToolCheck.CheckTools. rewrite fold_checkTool.
    cbn [app andb]. destruct (forallb _ ToolCheck.tools); reflexivity. }
  split; [by rewrite Hc|]. split; [by rewrite Hc|].
  assert (Hall : forallb (fun tool => ToolCheck.lookPath m tool.1.2) ToolCheck.tools = true
                 <-> forall cmd, In cmd ["trivy"; "mal"; "magika"; "docker"] ->
                                 ToolCheck.lookPath m cmd = true).
  { simpl. rewrite !andb_true_iff. split.
    - intros (H1 & H2 & H3 & H4 & _) cmd [<- | [<- | [<- | [<- | []]]]]; done.
    - intros H. repeat split; apply H; simpl; auto. }
  split; [|split; [|split]].
  - rewrite Hc. cbn [snd]. rewrite <- Hall. by destruct (forallb _ _).
  - rewrite Hc. cbn [snd]. by destruct (forallb _ _).
  - unfold Main.mainTools. by destruct (ToolCheck.CheckTools m).2.
  - intros m' Hl Hv. rewrite !Hc. f_equal.
    + unfold ToolCheck.tools, lineFor. simpl. rewrite !Hl.
      unfold ToolCheck.getToolVersion, ToolCheck.getDockerVersion.
      destruct (ToolCheck.lookPath m "trivy") eqn:E1;
        destruct (ToolCheck.lookPath m "mal") eqn:E2;
        destruct (ToolCheck.lookPath m "magika") eqn:E3;
        destruct (ToolCheck.lookPath m "docker") eqn:E4;
        rewrite ?(Hv _ E1), ?(Hv _ E2), ?(Hv _ E3), ?(Hv _ E4); reflexivity.
    + simpl. by rewrite !Hl.
Qed.

Lemma runInWorkDir_keeps (w : World) (s : Scanner) (sys : Extractor.Sys) :
  workDir (runInWorkDir w s sys).1.1 = workDir s
  /\ opts (runInWorkDir w s sys).1.1 = opts s.
Proof.
  unfold runInWorkDir.
  match goal with |- context [OS.MkdirAll ?a ?b ?c] =>
    destruct (OS.MkdirAll a b c) as [fs1 [e|]] end; [done|].
  match goal with |- context [pullAndExtract w ?s0 ?sys0] =>
    pose proof (pullAndExtract_keeps w s0 sys0) as Hk;
    destruct (pullAndExtract w s0 sys0) as [[s1 sys1] [e|]] end;
    cbn [fst snd] in Hk; cbv zeta in Hk; destruct Hk as (Ho & Hw & _);
    cbn [opts workDir] in Ho, Hw; [done|].
  destruct (runScanners_keeps w s1) as [Ho' Hw'].
  match goal with |- context [generateReport w ?s2 ?sy] =>
    destruct (generateReport w s2 sy) as [sys2 [e|]] end;
    [cbn [fst snd workDir opts withResults]; by rewrite Ho', Hw'|].
  match goal with |- context [String.eqb ?a "FAIL"] => destruct (String.eqb a "FAIL") end;
    cbn [fst snd workDir opts withResults]; by rewrite Ho', Hw'.
Qed.

Lemma RemoveAll_lookup (path : string) (fs : gmap string Node) (q : string) :
  RemoveAll path fs !! q = if walked path q then None else fs !! q.
Proof.
  unfold RemoveAll. destruct (walked path q) eqn:E.
  - apply map_lookup_filter_None. right. intros n _. simpl. by rewrite E.
  - destruct (fs !! q) as [n|] eqn:En.
    + apply map_lookup_filter_Some. by split.
    + apply map_lookup_filter_None. by left.
Qed.

(** X16. The deferred [os.RemoveAll(s.workDir)]: once the work directory
    was created, nothing is left at or below it when [Run] returns,
    whether it returns an error or not; and when it could not be created,
    [Run] returns an error and the file system is as it was. *)
Theorem Run_removes_its_work_directory
    (w : World) (o : ScanOptions) (sys : Extractor.Sys) :
  let out := Run w (New w o) sys in
  ((OS.Mkdir (files sys) (tempDir w) mode0700).2 = None ->
     forall q, walked (tempDir w) q = true -> files out.1.2 !! q = None)
  /\ ((OS.Mkdir (files sys) (tempDir w) mode0700).2 <> None ->
        out.1.2 = sys /\ out.2 <> None).
Proof.
  intros out. subst out. unfold Run.
  destruct (OS.Mkdir (files sys) (tempDir w) mode0700) as [fs [e|]]; cbn [snd].
  { split; [done|]. intros _. done. }
  split; [|done]. intros _ q Hq.
  match goal with |- context [runInWorkDir w ?s0 ?sys0] =>
    pose proof (runInWorkDir_keeps w s0 sys0) as [Hw _];
    destruct (runInWorkDir w s0 sys0) as [[s1 sys1] err] end.
  cbn [fst snd workDir] in *. cbn [files withFiles].
  by rewrite RemoveAll_lookup, Hw, Hq.
Qed.

End ProcessProperties.

(** * A scan leaves nothing behind but its report directory *)

Module FootprintProperties.
Import Strings Filepath OS Extractor Scanner Notions MoreNotions.
Import StringFacts CleanFacts OSFacts ExtractorFacts ScannerClaims RoundTrip.
Import SanitizeProperties ExtractionProperties ScannerProperties ProcessProperties.
Import Examples MoreExamples.
Local Open Scope list_scope.

Lemma Clean_rooted_id (Q : list string) :
  Forall plain Q -> Q <> [] -> Clean ("/" +:+ JoinSlash Q) = "/" +:+ JoinSlash Q.
Proof.
  intros HQ Hne. rewrite <- (Clean_trailing_slash ("/" +:+ JoinSlash Q)) by done.
  rewrite <- (Clean_rooted_NF Q HQ Hne) at 2. by rewrite sapp_assoc.
Qed.

Lemma beforeLastSlash_slashless (e : string) :
  slashless e = true -> beforeLastSlash e = None.
Proof.
  induction e as [|c e IH]; [done|]. simpl. intros H.
  apply andb_true_iff in H as [Hc He]. rewrite (IH He).
  by destruct (Ascii.eqb c "/").
Qed.

Lemma beforeLastSlash_last (d e : string) :
  slashless e = true -> beforeLastSlash (d +:+ "/" +:+ e) = Some d.
Proof.
  intros He. induction d as [|c d IH].
  - simpl. by rewrite (beforeLastSlash_slashless e He).
  - change (String c d +:+ "/" +:+ e) with (String c (d +:+ "/" +:+ e)).
    cbn [beforeLastSlash]. by rewrite IH.
Qed.

(** The rootfs directory of a scan whose work directory is a cleaned
    absolute path other than the root. *)
Lemma rootfs_path (x : string) :
  IsAbs (Clean x) = true -> Clean x <> "/" ->
  let T := Clean x in
  let root := T +:+ "/rootfs" in
  Join T "rootfs" = root
  /\ (forall wd, Abs wd root = Some root)
  /\ Dir root = T
  /\ under T root
  /\ (forall q, walked root q = true -> walked T q = true).
Proof.
  intros Habs Hne T root.
  destruct (Clean_rooted_shape x Habs) as (Q & HQ & E).
  assert (HQne : Q <> []) by (intros ->; done).
  assert (Hplain : Forall plain (Q ++ ["rootfs"])).
  { apply Forall_app. split; [done|]. by repeat constructor. }
  assert (Hroot : root = "/" +:+ JoinSlash (Q ++ ["rootfs"])).
  { subst root T. rewrite E, JoinSlash_app by done. simpl JoinSlash.
    by rewrite !sapp_assoc. }
  assert (HT : T <> "") by (subst T; rewrite E; done).
  assert (Hclean : Clean root = root).
  { rewrite Hroot. apply Clean_rooted_id; [done|]. by destruct Q. }
  split; [|split; [|split; [|split]]].
  - unfold Join. destruct (String.eqb_spec T ""); [done|]. exact Hclean.
  - intros wd. unfold Abs. subst root. rewrite IsAbs_app by done.
    fold T in Habs. rewrite Habs. by rewrite Hclean.
  - unfold Dir, uptoLastSlash. subst root.
    change (T +:+ "/rootfs") with (T +:+ "/" +:+ "rootfs").
    rewrite beforeLastSlash_last by done. rewrite Clean_trailing_slash by done.
    subst T. rewrite E. by apply Clean_rooted_id.
  - right. subst root. change (T +:+ "/rootfs") with (T +:+ "/" +:+ "rootfs").
    unfold Separator. rewrite <- sapp_assoc. apply HasPrefix_app.
  - intros q Hq. apply walked_iff in Hq. apply walked_iff. right.
    destruct (String.eqb_spec T "/"); [done|].
    assert (Hp : HasPrefix root (T +:+ "/") = true).
    { subst root. change (T +:+ "/rootfs") with (T +:+ "/" +:+ "rootfs").
      rewrite <- sapp_assoc. apply HasPrefix_app. }
    destruct Hq as [->|Hq]; [exact Hp|].
    destruct (String.eqb_spec root "/") as [Er|_].
    { rewrite Er in Hp. apply HasPrefix_inv in Hp as [t Ht].
      apply (f_equal String.length) in Ht. rewrite !slength_app in Ht. simpl in Ht.
      destruct T; [done|]. simpl in Ht. lia. }
    eapply HasPrefix_trans; [|exact Hq].
    apply HasPrefix_inv in Hp as [t Hp]. rewrite Hp, sapp_assoc. apply HasPrefix_app.
Qed.

Lemma Mkdir_new fs p perm q n :
  fs !! q = None -> (Mkdir fs p perm).1 !! q = Some n -> n = NDir perm.
Proof.
  intros Hq. unfold Mkdir. destruct (fs !! p) eqn:E; [simpl; congruence|].
  destruct (parentReady fs p); [simpl; congruence|]. simpl.
  destruct (decide (q = p)) as [->|Hne].
  - rewrite lookup_insert_eq. by intros [= <-].
  - rewrite lookup_insert_ne by done. congruence.
Qed.

(** What [MkdirAll] adds are directories with the mode it was given. *)
Lemma MkdirAllFrom_new fuel fs p perm q n :
  fs !! q = None -> (MkdirAllFrom fuel fs p perm).1 !! q = Some n -> n = NDir perm.
Proof.
  revert fs p. induction fuel as [|fuel IH]; intros fs p Hq; simpl.
  - destruct (fs !! p) as [[]|]; simpl; try congruence.
    destruct (parentOf p); by apply Mkdir_new.
  - destruct (fs !! p) as [[]|]; simpl; try congruence.
    destruct (parentOf p) as [parent|]; [|by apply Mkdir_new].
    specialize (IH fs parent Hq).
    destruct (MkdirAllFrom fuel fs parent perm) as [fs' [e|]]; [exact IH|].
    cbn [fst] in IH. destruct (fs' !! q) as [n'|] eqn:Eq'.
    + pose proof (Mkdir_grows fs' p perm) as [K _]. rewrite (K _ _ Eq').
      intros [= <-]. by apply IH.
    + by apply Mkdir_new.
Qed.

Lemma MkdirAll_report (fs : gmap string Node) (reportDir q : string) :
  let fs' := (MkdirAll fs reportDir mode0755).1 in
  fs' !! q = fs !! q
  \/ (fs !! q = None /\ fs' !! q = Some (NDir mode0755) /\ walked q reportDir = true).
Proof.
  intros fs'. subst fs'. unfold MkdirAll.
  pose proof (MkdirAllFrom_grows (String.length reportDir) fs reportDir mode0755) as [K C].
  pose proof (MkdirAllFrom_new (String.length reportDir) fs reportDir mode0755 q) as N.
  destruct (fs !! q) as [n|] eqn:E; [left; by apply K|].
  destruct ((MkdirAllFrom (String.length reportDir) fs reportDir mode0755).1 !! q)
    as [n'|] eqn:E'; [|by left].
  right. split; [done|]. split.
  - by rewrite (N n' eq_refl eq_refl).
  - apply C; [done|]. by rewrite E'.
Qed.

(** Pulling and extracting the image changes nothing outside the tree the
    rootfs directory lies in. *)
Lemma pullAndExtract_outside w s sys (T : string) :
  isDir (files sys) (rootfsDir s) = true ->
  isDir (files sys) (Dir (rootfsDir s)) = true ->
  (forall wd, Abs wd (rootfsDir s) = Some (rootfsDir s)) ->
  (forall q, walked (rootfsDir s) q = true -> walked T q = true) ->
  forall q, walked T q = false ->
    files (pullAndExtract w s sys).1.2 !! q = files sys !! q.
Proof.
  intros Hd Hp Habs Hin q Hq.
  assert (Hw : walked (rootfsDir s) q = false).
  { destruct (walked (rootfsDir s) q) eqn:E; [|done]. rewrite (Hin q E) in Hq. done. }
  assert (Hu : ~ under (rootfsDir s) q).
  { intros Hu. apply under_walked in Hu. congruence. }
  unfold pullAndExtract.
  destruct (dockerPull w); [done|]. destruct (dockerInspect w); [|done].
  destruct (dockerCreate w); [|done]. destruct (stdoutPipe w); [done|].
  destruct (exportStart w); [done|].
  cbn [rootfsDir withResults]. unfold SafeExtract. rewrite Habs.
  pose proof (extractAll_frame (rootfsDir s) (exported w) sys Hd Hp) as [F _].
  destruct (extractAll (rootfsDir s) (exported w) sys) as [sys1 [e|]];
    cbn [fst snd] in *; [by apply F|].
  destruct (exportWait w); cbn [fst snd]; [by apply F|].
  cbn [files withFiles]. rewrite makeReadableForScan_lookup, Hw, (F q Hu).
  by destruct (files sys !! q) as [[|]|].
Qed.

Lemma runInWorkDir_outside w s sys :
  Clean (workDir s) = workDir s -> IsAbs (workDir s) = true -> workDir s <> "/" ->
  IsAbs (ReportDir (opts s)) = true -> Clean (ReportDir (opts s)) = ReportDir (opts s) ->
  isDir (files sys) (workDir s) = true ->
  footprint (workDir s) (ReportDir (opts s)) (files sys) (files (runInWorkDir w s sys).1.2).
Proof.
  intros Hc Habs Hne Hra Hrc Hdir q Hq.
  rewrite <- Hc in Habs, Hne.
  destruct (rootfs_path (workDir s) Habs Hne) as (Ej & Ea & Ed & Hu & Hin).
  rewrite Hc in Ej, Ea, Ed, Hu, Hin.
  assert (Hnu : ~ under (workDir s) q).
  { intros H. apply under_walked in H. congruence. }
  unfold runInWorkDir. cbn [workDir rootfsDir opts results]. rewrite Ej.
  pose proof (MkdirAll_frame (workDir s) (files sys) (workDir s +:+ "/rootfs") mode0755
                Hdir Hu) as [F1 D1].
  pose proof (MkdirAllFrom_ok_isDir (String.length (workDir s +:+ "/rootfs")) (files sys)
                (workDir s +:+ "/rootfs") mode0755) as Hok.
  fold (MkdirAll (files sys) (workDir s +:+ "/rootfs") mode0755) in Hok.
  destruct (MkdirAll (files sys) (workDir s +:+ "/rootfs") mode0755) as [fs1 [e|]];
    cbn [fst snd files withFiles] in *.
  { left. by apply F1. }
  specialize (Hok fs1 eq_refl).
  match goal with |- context [pullAndExtract w ?s0 ?sys0] =>
    pose proof (pullAndExtract_outside w s0 sys0 (workDir s)) as Hpe;
    pose proof (pullAndExtract_keeps w s0 sys0) as Hk;
    destruct (pullAndExtract w s0 sys0) as [[s1 sys1] [e|]] end;
    cbn [fst snd files withFiles rootfsDir opts workDir] in Hpe, Hk; cbv zeta in Hk;
    rewrite Ed in Hpe; specialize (Hpe Hok (D1 _ Hdir) Ea Hin q Hq);
    destruct Hk as (Ho & _).
  { left. cbn [fst snd]. rewrite Hpe. by apply F1. }
  destruct (runScanners_keeps w s1) as [Ho' _].
  unfold generateReport. cbn [opts withResults].
  pose proof (MkdirAll_report (files sys1) (ReportDir (opts (runScanners w s1))) q) as Hrep.
  cbv zeta in Hrep. rewrite Ho', Ho in Hrep. rewrite Ho', Ho.
  unfold Abs. rewrite Hra, Hrc.
  destruct (MkdirAll (files sys1) (ReportDir (opts s)) mode0755) as [fs2 [e|]];
    cbn [fst snd files withFiles] in *.
  { rewrite Hpe, (F1 q Hnu) in Hrep. exact Hrep. }
  match goal with |- context [String.eqb ?a "FAIL"] => destruct (String.eqb a "FAIL") end;
    cbn [fst snd files withFiles]; rewrite Hpe, (F1 q Hnu) in Hrep; exact Hrep.
Qed.

(** X17. A scan whose work directory is a cleaned absolute path other
    than the root (what [os.MkdirTemp] returns) and whose report directory
    is given as a cleaned absolute path leaves every path outside the work
    directory as it found it, except for the report directory and its
    missing ancestors, which it creates as directories of mode 0755: the
    extracted image, the extractor's parents and the readability pass
    never reach outside the work directory, on any exit path. *)
Theorem Run_leaves_only_the_report_directory
    (w : World) (o : ScanOptions) (sys : Extractor.Sys) :
  Clean (tempDir w) = tempDir w -> IsAbs (tempDir w) = true -> tempDir w <> "/" ->
  IsAbs (ReportDir o) = true -> Clean (ReportDir o) = ReportDir o ->
  let out := Run w (New w o) sys in
  forall q, walked (tempDir w) q = false ->
    files out.1.2 !! q = files sys !! q
    \/ (files sys !! q = None /\ files out.1.2 !! q = Some (NDir mode0755)
        /\ walked q (ReportDir o) = true).
Proof.
  intros Hc Habs Hne Hra Hrc out q Hq. subst out.
  assert (Hrd : ReportDir (opts (New w o)) = ReportDir o).
  { unfold New. destruct (String.eqb_spec (ReportDir o) "") as [E|]; [|done].
    rewrite E in Hra. done. }
  unfold Run.
  destruct (OS.Mkdir (files sys) (tempDir w) mode0700) as [fs [e|]] eqn:Emk.
  { by left. }
  assert (HqT : q <> tempDir w).
  { intros ->. by rewrite walked_refl in Hq. }
  assert (Hfs : fs !! q = files sys !! q /\ isDir fs (tempDir w) = true).
  { pose proof (Mkdir_ok_isDir _ _ _ _ Emk) as Hd. split; [|done].
    unfold Mkdir in Emk. destruct (files sys !! tempDir w); [done|].
    destruct (parentReady _ _); [done|]. injection Emk as <-.
    by rewrite lookup_insert_ne. }
  destruct Hfs as [Hfs Hd].
  match goal with |- context [runInWorkDir w ?s0 ?sys0] =>
    pose proof (runInWorkDir_outside w s0 sys0) as Hin;
    pose proof (runInWorkDir_keeps w s0 sys0) as [Hw _];
    destruct (runInWorkDir w s0 sys0) as [[s1 sys1] err] end.
  cbn [fst snd workDir opts files withFiles] in *.
  rewrite Hrd in Hin. specialize (Hin Hc Habs Hne Hra Hrc Hd q Hq). rewrite Hfs in Hin.
  by rewrite RemoveAll_lookup, Hw, Hq.
Qed.

Lemma Run_leaves_only_the_report_directory_witness :
  (Clean "/tmp/vnaiscan-1" = "/tmp/vnaiscan-1"
   /\ Clean "/tmp/reports" = "/tmp/reports"
   /\ walked "/tmp/vnaiscan-1" "/tmp/reports" = false)
  /\ (files (Run worldAllOk (New worldAllOk (scanOpts false false false)) sysTmp).1.2
        !! "/tmp/reports" = files sysTmp !! "/tmp/reports"
      \/ (files sysTmp !! "/tmp/reports" = None
          /\ files (Run worldAllOk (New worldAllOk (scanOpts false false false))
                      sysTmp).1.2 !! "/tmp/reports" = Some (NDir mode0755)
          /\ walked "/tmp/reports" "/tmp/reports" = true)).
Proof.
  split; [repeat split; reflexivity|].
  exact (Run_leaves_only_the_report_directory worldAllOk (scanOpts false false false)
           sysTmp eq_refl eq_refl ltac:(discriminate) eq_refl eq_refl
           "/tmp/reports" eq_refl).
Defined.

Lemma runInWorkDir_ok w s sys :
  IsAbs (ReportDir (opts s)) = true -> Clean (ReportDir (opts s)) = ReportDir (opts s) ->
  (runInWorkDir w s sys).2 = None ->
  exists fsX,
    MkdirAll fsX (ReportDir (opts s)) mode0755
    = (files (runInWorkDir w s sys).1.2, None).
Proof.
  intros Hra Hrc. unfold runInWorkDir.
  match goal with |- context [OS.MkdirAll ?a ?b ?c] =>
    destruct (OS.MkdirAll a b c) as [fs1 [e|]] end; [done|].
  match goal with |- context [pullAndExtract w ?s0 ?sys0] =>
    pose proof (pullAndExtract_keeps w s0 sys0) as Hk;
    destruct (pullAndExtract w s0 sys0) as [[s1 sys1] [e|]] end;
    cbn [fst snd] in Hk; cbv zeta in Hk; destruct Hk as (Ho & _);
    cbn [opts] in Ho; [done|].
  destruct (runScanners_keeps w s1) as [Ho' _].
  unfold generateReport. cbn [opts withResults]. rewrite Ho', Ho.
  unfold Abs. rewrite Hra, Hrc.
  destruct (MkdirAll (files sys1) (ReportDir (opts s)) mode0755) as [fs2 [e|]] eqn:E;
    [done|].
  match goal with |- context [String.eqb ?a "FAIL"] => destruct (String.eqb a "FAIL") end;
    [done|].
  intros _. exists (files sys1). by rewrite E.
Qed.

(** X18. After a run that returns no error, with the work directory and
    the report directory given as cleaned absolute paths, the report
    directory is a directory, unless it was placed at or below the work
    directory: then it is removed with it and no report directory is
    left. *)
Theorem report_directory_is_left_behind
    (w : World) (o : ScanOptions) (sys : Extractor.Sys) :
  (Run w (New w o) sys).2 = None ->
  Clean (tempDir w) = tempDir w -> IsAbs (tempDir w) = true ->
  IsAbs (ReportDir o) = true -> Clean (ReportDir o) = ReportDir o ->
  let fs' := files (Run w (New w o) sys).1.2 in
  (walked (tempDir w) (ReportDir o) = false -> isDir fs' (ReportDir o) = true)
  /\ (walked (tempDir w) (ReportDir o) = true -> fs' !! ReportDir o = None).
Proof.
  intros Hn _ _ Hra Hrc fs'. subst fs'.
  assert (Hrd : ReportDir (opts (New w o)) = ReportDir o).
  { unfold New. destruct (String.eqb_spec (ReportDir o) "") as [E|]; [|done].
    rewrite E in Hra. done. }
  revert Hn. unfold Run.
  destruct (OS.Mkdir (files sys) (tempDir w) mode0700) as [fs [e|]]; [done|].
  match goal with |- context [runInWorkDir w ?s0 ?sys0] =>
    pose proof (runInWorkDir_ok w s0 sys0) as Hok;
    pose proof (runInWorkDir_keeps w s0 sys0) as [Hw _];
    destruct (runInWorkDir w s0 sys0) as [[s1 sys1] err] end.
  cbn [fst snd workDir opts files withFiles] in *. intros ->.
  rewrite Hrd in Hok. destruct (Hok Hra Hrc eq_refl) as [fsX HX].
  apply MkdirAllFrom_ok_isDir in HX.
  unfold isDir. rewrite RemoveAll_lookup, Hw.
  split; intros ->; [exact HX | done].
Qed.

Lemma report_directory_is_left_behind_witness :
  ((Run worldAllOk (New worldAllOk (scanOpts false false false)) sysTmp).2 = None
   /\ Clean "/tmp/vnaiscan-1" = "/tmp/vnaiscan-1"
   /\ Clean "/tmp/reports" = "/tmp/reports")
  /\ isDir (files (Run worldAllOk (New worldAllOk (scanOpts false false false))
                     sysTmp).1.2) "/tmp/reports" = true.
Proof.
  assert (H : (Run worldAllOk (New worldAllOk (scanOpts false false false)) sysTmp).2
              = None) by (vm_compute; reflexivity).
  split; [split; [exact H | split; reflexivity]|].
  exact (proj1 (report_directory_is_left_behind _ _ _ H eq_refl eq_refl eq_refl eq_refl)
           eq_refl).
Defined.

End FootprintProperties.

(** * The identity of the image and the warnings of the extractor *)

Module RecordProperties.
Import Strings Filepath IO OS Extractor Scanner Notions MoreNotions.
Import StringFacts OSFacts ExtractorFacts ExtractionClaims ScannerClaims RoundTrip.
Import ScannerProperties.
Import Examples MoreExamples.
Local Open Scope list_scope.

Lemma pullAndExtract_identity w s sys :
  let r := results (pullAndExtract w s sys).1.1 in
  Models.ImageRef r = Models.ImageRef (results s)
  /\ Models.Platform r = Models.Platform (results s)
  /\ Models.StartedAt r = Models.StartedAt (results s)
  /\ Models.FinishedAt r = Models.FinishedAt (results s)
  /\ (Models.ImageDigest r = Models.ImageDigest (results s)
      \/ (dockerPull w = None /\ dockerInspect w = Ok (Models.ImageDigest r)))
  /\ ((pullAndExtract w s sys).2 = None ->
      dockerPull w = None /\ dockerInspect w = Ok (Models.ImageDigest r)).
Proof.
  unfold pullAndExtract.
  destruct (dockerPull w); [simpl; intuition discriminate|].
  destruct (dockerInspect w); [|simpl; intuition discriminate].
  destruct (dockerCreate w); [|simpl; intuition discriminate].
  destruct (stdoutPipe w); [simpl; intuition discriminate|].
  destruct (exportStart w); [simpl; intuition discriminate|].
  destruct (Extractor.SafeExtract _ _ _ _) as [sys1 [e|]]; [simpl; intuition discriminate|].
  destruct (exportWait w); simpl; intuition discriminate.
Qed.

Lemma runScanners_identity w s :
  let r := results (runScanners w s) in
  Models.ImageRef r = Models.ImageRef (results s)
  /\ Models.Platform r = Models.Platform (results s)
  /\ Models.StartedAt r = Models.StartedAt (results s)
  /\ Models.ImageDigest r = Models.ImageDigest (results s).
Proof.
  unfold runScanners, runTrivy, runMalcontent, runMagika.
  destruct (SkipTrivy (opts s)); simpl;
    destruct (SkipMalcontent (opts s)); simpl;
    destruct (SkipMagika (opts s)); simpl; try done;
    by destruct (magikaCreate w).
Qed.

Lemma calculateScore_identity (r : Models.ScanResult) :
  Models.ImageRef (calculateScore r) = Models.ImageRef r
  /\ Models.Platform (calculateScore r) = Models.Platform r
  /\ Models.StartedAt (calculateScore r) = Models.StartedAt r
  /\ Models.FinishedAt (calculateScore r) = Models.FinishedAt r
  /\ Models.ImageDigest (calculateScore r) = Models.ImageDigest r.
Proof.
  unfold calculateScore. by destruct (map_fold _ _ _) as [[? ?] ?].
Qed.

(** X19. The result of a run names the image it was asked to scan: image
    reference, platform and start time are the ones [New] was given,
    whatever happens later. The digest is empty or what [docker inspect]
    printed after a successful pull, and after a run without error it is
    that output and the end time is the time the scanners were joined. *)
Theorem Run_records_the_image_identity
    (w : World) (o : ScanOptions) (sys : Extractor.Sys) :
  let out := Run w (New w o) sys in
  let r := results out.1.1 in
  Models.ImageRef r = ImageRef o
  /\ Models.Platform r = Platform o
  /\ Models.StartedAt r = startedAt w
  /\ (Models.ImageDigest r = ""
      \/ (dockerPull w = None /\ dockerInspect w = Ok (Models.ImageDigest r)))
  /\ (out.2 = None ->
      dockerPull w = None /\ dockerInspect w = Ok (Models.ImageDigest r)
      /\ Models.FinishedAt r = finishedAt w).
Proof.
  intros out r. subst out r.
  assert (HN : Models.ImageRef (results (New w o)) = ImageRef o
               /\ Models.Platform (results (New w o)) = Platform o
               /\ Models.StartedAt (results (New w o)) = startedAt w
               /\ Models.ImageDigest (results (New w o)) = "").
  { unfold New. by destruct (String.eqb (ReportDir o) ""). }
  destruct HN as (N1 & N2 & N3 & N4).
  unfold Run.
  destruct (OS.Mkdir _ _ _) as [fs [e|]].
  { cbn [fst snd]. split; [done|]. split; [done|]. split; [done|]. split; [by left|]. done. }
  unfold runInWorkDir.
  match goal with |- context [OS.MkdirAll ?a ?b ?c] =>
    destruct (OS.MkdirAll a b c) as [fs1 [e|]] end.
  { cbn [fst snd results]. split; [done|]. split; [done|]. split; [done|].
    split; [by left|]. done. }
  match goal with |- context [pullAndExtract w ?s0 ?sys0] =>
    pose proof (pullAndExtract_identity w s0 sys0) as Hi;
    destruct (pullAndExtract w s0 sys0) as [[s1 sys1] [e|]] end;
    cbn [fst snd results] in Hi; cbv zeta in Hi;
    destruct Hi as (I1 & I2 & I3 & I4 & I5 & I6);
    rewrite N1 in I1; rewrite N2 in I2; rewrite N3 in I3; rewrite N4 in I5.
  { cbn [fst snd results]. split; [done|]. split; [done|]. split; [done|].
    split; [exact I5|]. done. }
  destruct (I6 eq_refl) as [P1 P2].
  destruct (runScanners_identity w s1) as (R1 & R2 & R3 & R4).
  assert (Hfin : forall rr,
            rr = calculateScore (setFinishedAt (finishedAt w) (results (runScanners w s1))) ->
            Models.ImageRef rr = ImageRef o /\ Models.Platform rr = Platform o
            /\ Models.StartedAt rr = startedAt w
            /\ dockerInspect w = Ok (Models.ImageDigest rr)
            /\ Models.FinishedAt rr = finishedAt w).
  { intros rr ->.
    destruct (calculateScore_identity
                (setFinishedAt (finishedAt w) (results (runScanners w s1))))
      as (C1 & C2 & C3 & C4 & C5).
    rewrite C1, C2, C3, C4, C5. cbn [setFinishedAt Models.ImageRef Models.Platform
      Models.StartedAt Models.FinishedAt Models.ImageDigest].
    rewrite R1, R2, R3, R4. done. }
  match goal with |- context [generateReport w ?s2 ?sy] =>
    destruct (generateReport w s2 sy) as [sys2 [e|]] end.
  { cbn [fst snd results withResults].
    destruct (Hfin _ eq_refl) as (F1 & F2 & F3 & F4 & F5).
    split; [done|]. split; [done|]. split; [done|]. split; [by right|]. done. }
  match goal with |- context [String.eqb ?a "FAIL"] => destruct (String.eqb a "FAIL") end;
    cbn [fst snd results withResults];
    destruct (Hfin _ eq_refl) as (F1 & F2 & F3 & F4 & F5);
    (split; [done|]; split; [done|]; split; [done|]; split; [by right|]); done.
Qed.

Lemma extractEntry_stderr root header body s :
  let s1 := (extractEntry root header body s).1 in
  stderr s1 = stderr s
  \/ (exists line, s1 = logf line s /\ (extractEntry root header body s).2 = None).
Proof.
  destruct (sanitizePath (Tar.Name header) root) as [p|err] eqn:Es.
  2:{ rewrite (extractEntry_rejected _ _ _ _ _ Es). right. by eexists. }
  destruct (extractEntry_cases root header body s p Es)
    as [[Ht Ee]|[[Ht Ee]|(Hd & Hr & s1' & Ee & Hf)]].
  - rewrite Ee. left. by destruct (MkdirAll (files s) p mode0755) as [fs1 [e|]].
  - rewrite Ee. left.
    by destruct (extractFile body p (Tar.Mode header) (files s)) as [fs1 [e|]].
  - unfold extractEntry in *. rewrite Es in *.
    repeat (match goal with |- context [if ?c then _ else _] => destruct c end;
            [right; by eexists|]).
    apply Ascii.eqb_neq in Hd, Hr. rewrite Hd, Hr. by left.
Qed.

(** X20. The extractor only ever adds to standard error, at most one
    warning for each entry of the archive, and an entry that is warned
    about leaves the files as they are: each pass through the loop either
    writes one warning and nothing else, or writes no warning. *)
Theorem SafeExtract_warns_at_most_once_per_entry
    (wd : option string) (r : Tar.Stream) (dstDir : string) (s : Sys) :
  (exists added,
      stderr (SafeExtract wd r dstDir s).1 = stderr s ++ added
      /\ (length added <= length (entries r))%nat)
  /\ (forall root header body st,
        let st1 := (extractEntry root header body st).1 in
        stderr st1 = stderr st
        \/ (exists line, stderr st1 = stderr st ++ [line] /\ files st1 = files st
              /\ (extractEntry root header body st).2 = None)).
Proof.
  split.
  - unfold SafeExtract. destruct (Abs wd dstDir) as [root|].
    2:{ exists []. split; [by rewrite app_nil_r | simpl; lia]. }
    revert s. induction r as [| e | header body rest IH]; intros s; simpl.
    + exists []. split; [by rewrite app_nil_r | simpl; lia].
    + exists []. split; [by rewrite app_nil_r | simpl; lia].
    + pose proof (extractEntry_stderr root header body s) as H. cbv zeta in H.
      destruct (extractEntry root header body s) as [s1 [e|]]; cbn [fst snd] in *.
      * destruct H as [H|(line & _ & H)]; [|done].
        exists []. split; [by rewrite app_nil_r | simpl; lia].
      * destruct (IH s1) as (added & Ea & Hl). rewrite Ea.
        destruct H as [->|(line & -> & _)].
        -- exists added. split; [done | lia].
        -- exists (line :: added). simpl. rewrite <- app_assoc. split; [done | lia].
  - intros root header body st st1. subst st1.
    destruct (extractEntry_stderr root header body st) as [H|(line & H & He)];
      [by left|].
    right. exists line. rewrite H. by split.
Qed.

End RecordProperties.

(** * An entry whose body cannot be read to its end *)

Module FailureProperties.
Import Strings Filepath IO OS Extractor Notions.
Import StringFacts OSFacts ExtractorFacts ExtractionClaims RoundTrip.
Local Open Scope list_scope.

(** X21. When the body of a regular file cannot be read to its end (the
    stream is cut or fails inside the entry), the extraction stops there
    with the read error wrapped as [failed to extract file], whatever
    follows in the archive. The file stays behind with the bytes read
    before the failure; [os.Chmod] is not reached, so it has the mode it
    was opened with: its old mode when it existed, 0600 when it was
    created. Nothing is written to standard error and no other path
    changes after the parent directory is made. *)
Theorem failed_copy_leaves_partial_file
    (root : string) (header : Tar.Header) (body : Reader) (s : Sys)
    (p : string) (fs1 fs2 : gmap string Node) (err : error) :
  sanitizePath (Tar.Name header) root = Ok p ->
  Tar.Typeflag header = Tar.TypeReg ->
  MkdirAll (files s) (Dir p) mode0755 = (fs1, None) ->
  OpenFile fs1 p mode0600 = (fs2, None) ->
  (Copy (LimitReader body maxFileSize)).2 = Some err ->
  exists s1 : Sys,
    (forall rest : Tar.Stream,
        extractAll root (Tar.Entry header body rest) s
        = (s1, Some (Wrapped ("failed to extract file " +:+ p) err)))
    /\ files s1 !! p
       = Some (NFile (take (Z.to_nat maxFileSize) (delivered body))
                     match fs1 !! p with
                     | Some (NFile _ old) => old
                     | _ => mode0600
                     end)
    /\ stderr s1 = stderr s
    /\ (forall q, q <> p -> files s1 !! q = fs1 !! q).
Proof.
  intros Es Ht E1 E2 Ec.
  assert (Hx : exists perm0,
             fs2 = <[p := NFile [] perm0]> fs1
             /\ perm0 = match fs1 !! p with
                        | Some (NFile _ old) => old
                        | _ => mode0600
                        end).
  { unfold OpenFile in E2. destruct (fs1 !! p) as [[d old|m]|]; [| done |].
    - apply pair_equal_spec in E2 as [<- _]. by exists old.
    - destruct (parentReady fs1 p); [done|].
      apply pair_equal_spec in E2 as [<- _]. by exists mode0600. }
  destruct Hx as (perm0 & Hfs2 & Hperm).
  pose proof (extractFile_opened _ _ body (Tar.Mode header) _ _ E1 E2) as Hf.
  cbv zeta in Hf. rewrite Ec in Hf. destruct Hf as [perm1 Hf].
  rewrite Copy_LimitReader_take in Hf. rewrite Hfs2, insert_insert_eq in Hf.
  assert (Hp1 : perm1 = perm0).
  { clear Hperm. revert Hf. unfold extractFile. rewrite E1, E2, Hfs2.
    destruct (Copy (LimitReader body maxFileSize)) as [wr [e|]]; [|done].
    unfold Write. rewrite lookup_insert_eq, insert_insert_eq. intros Hf.
    apply pair_equal_spec in Hf as [Hf _].
    apply (f_equal (fun m => m !! p)) in Hf. rewrite !lookup_insert_eq in Hf.
    congruence. }
  subst perm1.
  exists (withFiles s (<[p := NFile (take (Z.to_nat maxFileSize) (delivered body)) perm0]>
                         fs1)).
  split; [|split; [|split]].
  - intros rest. cbn [extractAll].
    rewrite (extractEntry_Reg root header body s p Es Ht), Hf. reflexivity.
  - cbn [files withFiles]. by rewrite lookup_insert_eq, Hperm.
  - reflexivity.
  - intros q Hq. cbn [files withFiles]. by rewrite lookup_insert_ne.
Qed.

Lemma failed_copy_leaves_partial_file_witness :
  (Copy (LimitReader (RdByte Byte.x61 (RdErr ErrUnexpectedEOF)) maxFileSize)).2
  = Some ErrUnexpectedEOF
  /\ exists s1 : Sys,
       (forall rest : Tar.Stream,
           extractAll "/tmp/root"
             (Tar.Entry (Examples.hdr "f" Tar.TypeReg 493)
                        (RdByte Byte.x61 (RdErr ErrUnexpectedEOF)) rest) Examples.sys0
           = (s1, Some (Wrapped ("failed to extract file " +:+ "/tmp/root/f")
                                ErrUnexpectedEOF)))
       /\ files s1 !! "/tmp/root/f"
          = Some (NFile (take (Z.to_nat maxFileSize)
                           (delivered (RdByte Byte.x61 (RdErr ErrUnexpectedEOF))))
                        match Examples.fs0 !! "/tmp/root/f" with
                        | Some (NFile _ old) => old
                        | _ => mode0600
                        end)
       /\ stderr s1 = stderr Examples.sys0
       /\ (forall q, q <> "/tmp/root/f" -> files s1 !! q = Examples.fs0 !! q).
Proof.
  split; [vm_compute; reflexivity|].
  refine (failed_copy_leaves_partial_file "/tmp/root" (Examples.hdr "f" Tar.TypeReg 493)
            (RdByte Byte.x61 (RdErr ErrUnexpectedEOF)) Examples.sys0 "/tmp/root/f"
            Examples.fs0 (OpenFile Examples.fs0 "/tmp/root/f" mode0600).1
            ErrUnexpectedEOF eq_refl eq_refl _ _ _); vm_compute; reflexivity.
Defined.

End FailureProperties.

(** * The statuses a run can reach *)

Module StatusProperties.
Import Strings Filepath OS Extractor Scanner Notions.
Import StringFacts OSFacts ScannerClaims RoundTrip ScannerProperties.

(** X22. With the score fixed at zero by [calculateScore], no run ends
    with status FAIL: the status is empty (the run stopped before the
    scanners), PASS, WARN or ERROR, the total is 0 and the grade is empty
    or A, and [Run] never returns the error [scan completed with FAIL
    status]. *)
Theorem Run_never_reaches_FAIL (w : World) (o : ScanOptions) (sys : Extractor.Sys) :
  let out := Run w (New w o) sys in
  let r := results out.1.1 in
  (Models.Status r = "" \/ Models.Status r = "PASS" \/ Models.Status r = "WARN"
   \/ Models.Status r = "ERROR")
  /\ Models.Total (Models.ResultScore r) = 0
  /\ (Models.Grade (Models.ResultScore r) = "" \/ Models.Grade (Models.ResultScore r) = "A")
  /\ out.2 <> Some (ErrorString "scan completed with FAIL status")
  /\ ExitCode out.1.1 <> 2.
Proof.
  intros out r. subst out r.
  assert (Hst :
    (Models.Status (results (Run w (New w o) sys).1.1) = ""
     \/ Models.Status (results (Run w (New w o) sys).1.1) = "PASS"
     \/ Models.Status (results (Run w (New w o) sys).1.1) = "WARN"
     \/ Models.Status (results (Run w (New w o) sys).1.1) = "ERROR")
    /\ Models.Total (Models.ResultScore (results (Run w (New w o) sys).1.1)) = 0
    /\ (Models.Grade (Models.ResultScore (results (Run w (New w o) sys).1.1)) = ""
        \/ Models.Grade (Models.ResultScore (results (Run w (New w o) sys).1.1)) = "A")).
  { destruct (Run_trace w o sys) as [[(_ & _ & Hs) _]|(s0 & _ & _ & _ & _ & Hr)];
      cbv zeta in *.
    - split; [by left|]. revert Hs. unfold Run.
      destruct (OS.Mkdir _ _ _) as [fs [e|]].
      { intros _. cbn [fst snd]. unfold New.
        destruct (String.eqb (ReportDir o) ""); (split; [reflexivity | left; reflexivity]). }
      unfold runInWorkDir.
      match goal with |- context [OS.MkdirAll ?a ?b ?c] =>
        destruct (OS.MkdirAll a b c) as [fs1 [e|]] end.
      { intros _. cbn [fst snd results]. unfold New.
        destruct (String.eqb (ReportDir o) ""); (split; [reflexivity | left; reflexivity]). }
      match goal with |- context [pullAndExtract w ?s0 ?sys0] =>
        assert (Hsc : Models.ResultScore (results (pullAndExtract w s0 sys0).1.1)
                      = Models.ResultScore (results s0));
        [ unfold pullAndExtract;
          destruct (dockerPull w); [done|]; destruct (dockerInspect w); [|done];
          destruct (dockerCreate w); [|done]; destruct (stdoutPipe w); [done|];
          destruct (exportStart w); [done|];
          destruct (Extractor.SafeExtract _ _ _ _) as [sysx [e|]]; [done|];
          by destruct (exportWait w)
        | destruct (pullAndExtract w s0 sys0) as [[s1 sys1] [e|]] ] end;
        cbn [fst snd results] in Hsc.
      + intros _. cbn [fst snd results]. rewrite Hsc. unfold New.
        destruct (String.eqb (ReportDir o) ""); (split; [reflexivity | left; reflexivity]).
      + match goal with |- context [generateReport w ?s2 ?sy] =>
          destruct (generateReport w s2 sy) as [sys2 [e|]] end;
          [|match goal with |- context [String.eqb ?a "FAIL"] =>
              destruct (String.eqb a "FAIL") end];
          cbn [fst snd results withResults]; intros Hs;
          destruct (calculateScore_fields
                      (setFinishedAt (finishedAt w) (results (runScanners w s1))))
            as (ok & _ & _ & _ & _ & _ & -> & _); (split; [done | by right]).
    - rewrite Hr.
      destruct (calculateScore_fields
                  (setFinishedAt (finishedAt w) (results (runScanners w s0))))
        as (ok & _ & _ & _ & _ & _ & -> & ->).
      split; [|split; [done | by right]].
      unfold overallStatus. destruct (_ && _); [by auto|].
      change (0 >? 100) with false. cbv iota. destruct (_ || _); auto. }
  destruct Hst as (Hs & Ht & Hg).
  split; [exact Hs|]. split; [exact Ht|]. split; [exact Hg|]. split.
  - destruct (Run_cases w o sys) as [[_ (c & [E|[E|E]])]|(r0 & _ & _ & [[c E]|[[_ E]|[E _]]])];
      cbv zeta in *; try (rewrite E; discriminate).
    destruct Hs as [H|[H|[H|H]]]; rewrite H in E; discriminate.
  - unfold ExitCode. destruct Hs as [H|[H|[H|H]]]; rewrite H; done.
Qed.

End StatusProperties.
